(** * C-ViViT (EchoPulse_pytorch/cvivit.py): shallow embedding and properties

    The module wraps a factorized spatio-temporal transformer in a
    vector-quantized autoencoder.  This development embeds the parts of
    [cvivit.py] that decide tensor shapes, control flow, raised exceptions and
    the composition of the loss terms:

    - Python integers are [Z]; [%] and [//] are [Z.modulo] and [Z.div] with the
      zero divisor raising, [int(a / b)] goes through the binary64 quotient;
    - a tensor is a shape (list of [Z]) with its row-major data;
    - learned layers keep their hyper-parameters and carry their numeric map as
      a function, so every theorem holds for all weights;
    - Python exceptions are the [Raise] side of a result type;
    - loss values are real numbers extended with NaN (the mean of an empty
      tensor): the equations between the loss terms are stated in exact
      arithmetic; the sign of the gradient penalty is settled on the
      floating-point values themselves. *)

From Stdlib Require Import ZArith List Lia Reals Lra String SpecFloat.
From stdpp Require Import gmap strings.
Import ListNotations.

Open Scope Z_scope.

(** ** Exceptions and results *)

Inductive exn : Type :=
| AssertionError
| ZeroDivisionError
| OverflowError
| EinopsError
| RuntimeError
| IndexError
| NameError
| UnboundLocalError
| AttributeError
| TypeError.

Inductive result (A : Type) : Type :=
| Ok (a : A)
| Raise (e : exn).

Arguments Ok {A} a.
Arguments Raise {A} e.

Definition rbind {A B : Type} (r : result A) (k : A -> result B) : result B :=
  match r with
  | Ok a => k a
  | Raise e => Raise e
  end.

Notation "'do' x <- r ; k" := (rbind r (fun x => k))
  (at level 10, x pattern, r at level 100, k at level 200).

(** [assert c] *)
Definition py_assert (c : bool) : result unit :=
  if c then Ok tt else Raise AssertionError.

(** A check made inside einops or torch: the given exception when it fails. *)
Definition require (e : exn) (c : bool) : result unit :=
  if c then Ok tt else Raise e.

Definition raises {A : Type} (r : result A) : Prop :=
  exists e, r = Raise e.

(** ** Python integer arithmetic *)

(** [a % b] *)
Definition py_mod (a b : Z) : result Z :=
  if b =? 0 then Raise ZeroDivisionError else Ok (a mod b).

(** [a // b] *)
Definition py_floordiv (a b : Z) : result Z :=
  if b =? 0 then Raise ZeroDivisionError else Ok (a / b).

(** Nearest integer to [n / d], ties to the even one ([0 <= n], [0 < d]). *)
Definition round_half_even (n d : Z) : Z :=
  let q := n / d in
  let r := n mod d in
  if 2 * r <? d then q
  else if d <? 2 * r then q + 1
  else if Z.even q then q else q + 1.

(** [int(a / b)] for [0 < a], [0 < b].  [a / b] is the binary64 nearest to the
    exact quotient: with [2^e <= a/b < 2^(e+1)] the quotient is rounded to a
    multiple of [2^(e-52)]; [int] then drops the fraction.  Quotients below
    one half are below the range where the reduced precision of subnormal
    numbers could matter: they truncate to 0 either way.  [None] is the
    OverflowError of a quotient beyond the binary64 range. *)
Definition int_of_float_quotient (a b : Z) : option Z :=
  let d := Z.log2 a - Z.log2 b in
  let e := if a * 2 ^ Z.max 0 (- d) <? b * 2 ^ Z.max 0 d then d - 1 else d in
  let s := e - 52 in
  let m := round_half_even (a * 2 ^ Z.max 0 (- s)) (b * 2 ^ Z.max 0 s) in
  let t := if 0 <=? s then m * 2 ^ s else m / 2 ^ (- s) in
  if 2 ^ 1024 <=? t then None else Some t.

(** [int(a / b)] on Python ints. *)
Definition py_int_truediv (a b : Z) : result Z :=
  if b =? 0 then Raise ZeroDivisionError
  else if a =? 0 then Ok 0
  else match int_of_float_quotient (Z.abs a) (Z.abs b) with
       | Some t => Ok (Z.sgn a * Z.sgn b * t)
       | None => Raise OverflowError
       end.

(** [divisible_by(numer, denom)] *)
Definition divisible_by (numer denom : Z) : result bool :=
  do r <- py_mod numer denom;
  Ok (r =? 0).

(** ** Tensors

    A tensor is its shape and its elements in row-major order. *)

Record tensor (A : Type) : Type := mkTensor {
  shape : list Z;
  data : list A
}.

Arguments mkTensor {A} shape data.
Arguments shape {A} t.
Arguments data {A} t.

Definition prodZ (l : list Z) : Z := fold_right Z.mul 1 l.

(** [t.ndim] *)
Definition ndim {A : Type} (t : tensor A) : Z := Z.of_nat (length (shape t)).

(** Row-major index arithmetic: the stride of an axis and the coordinate of a
    flat index along it. *)
Definition stride (sh : list Z) (axis : nat) : Z := prodZ (drop (S axis) sh).

Definition coord (sh : list Z) (axis : nat) (i : Z) : Z :=
  (i / stride sh axis) mod (nth axis sh 1).

(** The elements at the given flat indices, in that order. *)
Definition gather {A : Type} (idx : list Z) (d : list A) : list A :=
  flat_map (fun i => match d !! Z.to_nat i with
                     | Some x => [x]
                     | None => []
                     end) idx.

(** Axis permutation: output axis [k] is input axis [perm[k]]. *)
Definition permute_index (sh : list Z) (perm : list nat) (j : Z) : Z :=
  let out_sh := map (fun p => nth p sh 1) perm in
  fold_right Z.add 0 (imap (fun k p => coord out_sh k j * stride sh p) perm).

Definition permute {A : Type} (sh : list Z) (perm : list nat) (d : list A) : list A :=
  gather (map (permute_index sh perm) (seqZ 0 (prodZ sh))) d.

(** The three steps of an einops [rearrange]: view the data with the axes of
    the left-hand side split ([split]), permute them, and merge them into the
    axes of the right-hand side ([out]). *)
Definition einops_apply {A : Type} (split : list Z) (perm : list nat) (out : list Z)
  (t : tensor A) : tensor A :=
  mkTensor out (permute split perm (data t)).

(** einops infers the unknown axis of a group [(x k)] of length [length] from
    the product [known] of the given ones. *)
Definition einops_infer (length known : Z) : result Z :=
  if known =? 0 then Raise ZeroDivisionError
  else if length mod known =? 0 then Ok (length / known)
  else Raise EinopsError.

(** [count] consecutive rows of [n] elements. *)
Definition rows {A : Type} (n count : Z) (d : list A) : list (list A) :=
  map (fun i => take (Z.to_nat n) (drop (Z.to_nat (i * n)) d)) (seqZ 0 count).

(** [t[..., lo:hi, ...]] along [axis], for [0 <= lo <= hi]. *)
Definition slice_axis {A : Type} (axis : nat) (lo hi : Z) (t : tensor A) : tensor A :=
  let sh := shape t in
  let n := nth axis sh 0 in
  let lo' := Z.min lo n in
  let hi' := Z.min hi n in
  mkTensor (<[axis := hi' - lo']> sh)
           (gather (filter (fun i => lo' <= coord sh axis i < hi') (seqZ 0 (prodZ sh)))
                   (data t)).

(** [t[..., :1, ...]] and [t[..., 1:, ...]] *)
Definition slice_first {A : Type} (axis : nat) (t : tensor A) : tensor A :=
  slice_axis axis 0 1 t.

Definition slice_rest {A : Type} (axis : nat) (t : tensor A) : tensor A :=
  slice_axis axis 1 (nth axis (shape t) 0) t.

(** [torch.cat((t1, t2), dim=axis)] *)
Definition torch_cat {A : Type} (axis : nat) (t1 t2 : tensor A) : result (tensor A) :=
  let s1 := shape t1 in
  let s2 := shape t2 in
  do _ <- require RuntimeError
            (bool_decide (length s1 = length s2 /\ (axis < length s1)%nat /\
                          take axis s1 = take axis s2 /\
                          drop (S axis) s1 = drop (S axis) s2));
  let outer := prodZ (take axis s1) in
  Ok (mkTensor (<[axis := nth axis s1 0 + nth axis s2 0]> s1)
               (concat (zip_with app (rows (prodZ (drop axis s1)) outer (data t1))
                                     (rows (prodZ (drop axis s2)) outer (data t2))))).

(** *** The einops patterns of the module *)

(** ['b c h w -> b c 1 h w'] *)
Definition add_time_axis {A : Type} (t : tensor A) : result (tensor A) :=
  match shape t with
  | [b; c; h; w] => Ok (mkTensor [b; c; 1; h; w] (data t))
  | _ => Raise EinopsError
  end.

(** ['b c 1 h w -> b c h w'] *)
Definition drop_time_axis {A : Type} (t : tensor A) : result (tensor A) :=
  match shape t with
  | [b; c; one; h; w] =>
      do _ <- require EinopsError (one =? 1);
      Ok (mkTensor [b; c; h; w] (data t))
  | _ => Raise EinopsError
  end.

(** [Rearrange('b c 1 (h p1) (w p2) -> b 1 h w (c p1 p2)', p1, p2)] *)
Definition patches_of_first_frame {A : Type} (p1 p2 : Z) (t : tensor A)
  : result (tensor A) :=
  match shape t with
  | [b; c; one; hh; ww] =>
      do _ <- require EinopsError (one =? 1);
      do h <- einops_infer hh p1;
      do w <- einops_infer ww p2;
      Ok (einops_apply [b; c; 1; h; p1; w; p2] [0; 2; 3; 5; 1; 4; 6]%nat
                       [b; 1; h; w; c * p1 * p2] t)
  | _ => Raise EinopsError
  end.

(** [Rearrange('b c (t pt) (h p1) (w p2) -> b t h w (c pt p1 p2)', p1, p2, pt)] *)
Definition patches_of_frames {A : Type} (p1 p2 pt : Z) (t : tensor A)
  : result (tensor A) :=
  match shape t with
  | [b; c; ff; hh; ww] =>
      do f <- einops_infer ff pt;
      do h <- einops_infer hh p1;
      do w <- einops_infer ww p2;
      Ok (einops_apply [b; c; f; pt; h; p1; w; p2] [0; 2; 4; 6; 1; 3; 5; 7]%nat
                       [b; f; h; w; c * pt * p1 * p2] t)
  | _ => Raise EinopsError
  end.

(** [Rearrange('b 1 h w (c p1 p2) -> b c 1 (h p1) (w p2)', p1, p2)] *)
Definition first_frame_of_patches {A : Type} (p1 p2 : Z) (t : tensor A)
  : result (tensor A) :=
  match shape t with
  | [b; one; h; w; d] =>
      do _ <- require EinopsError (one =? 1);
      do c <- einops_infer d (p1 * p2);
      Ok (einops_apply [b; 1; h; w; c; p1; p2] [0; 4; 1; 2; 5; 3; 6]%nat
                       [b; c; 1; h * p1; w * p2] t)
  | _ => Raise EinopsError
  end.

(** [Rearrange('b t h w (c pt p1 p2) -> b c (t pt) (h p1) (w p2)', p1, p2, pt)] *)
Definition frames_of_patches {A : Type} (p1 p2 pt : Z) (t : tensor A)
  : result (tensor A) :=
  match shape t with
  | [b; f; h; w; d] =>
      do c <- einops_infer d (pt * p1 * p2);
      Ok (einops_apply [b; f; h; w; c; pt; p1; p2] [0; 4; 1; 5; 2; 6; 3; 7]%nat
                       [b; c; f * pt; h * p1; w * p2] t)
  | _ => Raise EinopsError
  end.

(** ['b t h w d -> (b t) (h w) d'] *)
Definition merge_frames {A : Type} (t : tensor A) : result (tensor A) :=
  match shape t with
  | [b; f; h; w; d] => Ok (mkTensor [b * f; h * w; d] (data t))
  | _ => Raise EinopsError
  end.

(** ['(b t) (h w) d -> b t h w d', b, h, w] *)
Definition split_frames {A : Type} (b h w : Z) (t : tensor A) : result (tensor A) :=
  match shape t with
  | [bf; hw; d] =>
      do f <- einops_infer bf b;
      do _ <- require EinopsError (hw =? h * w);
      Ok (mkTensor [b; f; h; w; d] (data t))
  | _ => Raise EinopsError
  end.

(** ['b t h w d -> (b h w) t d'] *)
Definition merge_positions {A : Type} (t : tensor A) : result (tensor A) :=
  match shape t with
  | [b; f; h; w; d] =>
      Ok (einops_apply [b; f; h; w; d] [0; 2; 3; 1; 4]%nat [b * h * w; f; d] t)
  | _ => Raise EinopsError
  end.

(** ['(b h w) t d -> b t h w d', b, h, w] *)
Definition split_positions {A : Type} (b h w : Z) (t : tensor A) : result (tensor A) :=
  match shape t with
  | [bhw; f; d] =>
      do _ <- require EinopsError (bhw =? b * h * w);
      Ok (einops_apply [b; h; w; f; d] [0; 3; 1; 2; 4]%nat [b; f; h; w; d] t)
  | _ => Raise EinopsError
  end.

(** ['b (t h w) d -> b t h w d', h, w] *)
Definition split_tokens {A : Type} (h w : Z) (t : tensor A) : result (tensor A) :=
  match shape t with
  | [b; n; d] =>
      do f <- einops_infer n (h * w);
      Ok (mkTensor [b; f; h; w; d] (data t))
  | _ => Raise EinopsError
  end.

(** ['b c f h w -> (b f) c h w'] *)
Definition frames_to_batch {A : Type} (t : tensor A) : result (tensor A) :=
  match shape t with
  | [b; c; f; h; w] =>
      Ok (einops_apply [b; c; f; h; w] [0; 2; 1; 3; 4]%nat [b * f; c; h; w] t)
  | _ => Raise EinopsError
  end.

(** ['b ... -> b (...)'] *)
Definition flatten_per_sample {A : Type} (t : tensor A) : result (tensor A) :=
  match shape t with
  | b :: rest => Ok (mkTensor [b; prodZ rest] (data t))
  | [] => Raise EinopsError
  end.

(** [pack([t], 'b * d')]: the packed tensor and the shape of the packed axes. *)
Definition pack_b_star_d {A : Type} (t : tensor A) : result (tensor A * list Z) :=
  match shape t with
  | b :: rest =>
      match rest with
      | [] => Raise EinopsError
      | _ =>
          let ps := removelast rest in
          Ok (mkTensor [b; prodZ ps; List.last rest 1] (data t), ps)
      end
  | [] => Raise EinopsError
  end.

(** [unpack(t, ps, 'b *')], first (and only) element. *)
Definition unpack_b_star {A : Type} (t : tensor A) (ps : list Z) : result (tensor A) :=
  match shape t with
  | [b; n] =>
      do _ <- require RuntimeError (n =? prodZ ps);
      Ok (mkTensor (b :: ps) (data t))
  | _ => Raise EinopsError
  end.

(** ** Loss values

    Reals extended with NaN, the value of [mean] on an empty tensor. *)

Inductive fval : Type :=
| Num (r : R)
| NaN.

Definition fadd (x y : fval) : fval :=
  match x, y with
  | Num a, Num b => Num (a + b)
  | _, _ => NaN
  end.

Definition fscale (w : R) (x : fval) : fval :=
  match x with
  | Num a => Num (w * a)
  | NaN => NaN
  end.

Definition fneg (x : fval) : fval := fscale (-1) x.

Definition Rsum (l : list R) : R := fold_right Rplus 0%R l.

(** [t.mean()] over the elements of [t] *)
Definition mean (l : list R) : fval :=
  match l with
  | [] => NaN
  | _ => Num (Rsum l / INR (length l))
  end.

(** [t.norm(2)] of one row *)
Definition norm2 (l : list R) : R := sqrt (Rsum (map (fun x => x * x)%R l)).

Definition relu (x : R) : R := Rmax 0 x.

Definition sqdiff (x y : R) : R := ((x - y) * (x - y))%R.

(** [F.mse_loss(input, target, reduction='none')].  The module only calls it
    on tensors of one shape; torch would broadcast other pairs where it can. *)
Definition mse_loss_none (input target : tensor R) : result (tensor R) :=
  do _ <- require RuntimeError (bool_decide (shape input = shape target));
  Ok (mkTensor (shape input) (zip_with sqdiff (data input) (data target))).

(** [F.mse_loss(input, target)] *)
Definition mse_loss (input target : tensor R) : result fval :=
  do t <- mse_loss_none input target;
  Ok (mean (data t)).

(** [repeat(mask, 'b t -> b c t', c=c)] *)
Definition repeat_over_channels {A : Type} (c : Z) (m : tensor A) : result (tensor A) :=
  match shape m with
  | [b; t] =>
      Ok (mkTensor [b; c; t]
            (flat_map (fun r => concat (replicate (Z.to_nat c) r)) (rows t b (data m))))
  | _ => Raise EinopsError
  end.

(** [repeat(mask, 'b f -> b (f hw)', hw=hw)] *)
Definition repeat_over_positions {A : Type} (hw : Z) (m : tensor A) : result (tensor A) :=
  match shape m with
  | [b; f] => Ok (mkTensor [b; f * hw] (flat_map (replicate (Z.to_nat hw)) (data m)))
  | _ => Raise EinopsError
  end.

(** [t[index]] for a boolean [index] over the leading axes of [t]: the blocks of
    [t] where [index] holds, in order. *)
Definition boolean_index {A : Type} (t : tensor A) (index : tensor bool)
  : result (tensor A) :=
  let k := length (shape index) in
  do _ <- require IndexError (bool_decide (shape index = take k (shape t)));
  let inner := drop k (shape t) in
  let blocks := rows (prodZ inner) (prodZ (shape index)) (data t) in
  let kept := map snd (filter (fun p => fst p = true) (zip (data index) blocks)) in
  Ok (mkTensor (Z.of_nat (length kept) :: inner) (concat kept)).

(** Lines 728-734 of [forward]: the reconstruction loss, averaged over the
    frames the mask keeps when there is one. *)
Definition reconstruction_loss (video recon_video : tensor R)
  (mask : option (tensor bool)) (c : Z) : result fval :=
  match mask with
  | Some mask =>
      do recon_loss <- mse_loss_none video recon_video;
      do index <- repeat_over_channels c mask;
      do recon_loss <- boolean_index recon_loss index;
      Ok (mean (data recon_loss))
  | None => mse_loss video recon_video
  end.

(** ** GAN losses *)

(** [hinge_discr_loss] *)
Definition hinge_discr_loss (fake real : tensor R) : result fval :=
  Ok (mean (zip_with (fun f r => (relu (1 + f) + relu (1 - r))%R) (data fake) (data real))).

(** [hinge_gen_loss] *)
Definition hinge_gen_loss (fake : tensor R) : result fval :=
  Ok (fneg (mean (data fake))).

(** [bce_discr_loss] and [bce_gen_loss] call [log], a name that the file neither
    defines nor imports: evaluating their bodies raises NameError. *)
Definition bce_discr_loss (fake real : tensor R) : result fval := Raise NameError.

Definition bce_gen_loss (fake : tensor R) : result fval := Raise NameError.

Section Autograd.

(** [torch.autograd.grad(outputs, inputs, grad_outputs=ones)[0]]: the elements
    of the gradient, a tensor of the shape of [inputs]. *)
Variable torch_grad : tensor R -> tensor R -> list R.

(** [gradient_penalty] *)
Definition gradient_penalty (images output : tensor R) (weight : R) : result fval :=
  let gradients := mkTensor (shape images) (torch_grad output images) in
  do gradients <- flatten_per_sample gradients;
  match shape gradients with
  | [b; n] =>
      let norms := map norm2 (rows n b (data gradients)) in
      Ok (fscale weight (mean (map (fun x => ((x - 1) * (x - 1))%R) norms)))
  | _ => Raise RuntimeError
  end.

End Autograd.

(** ** Floating-point arithmetic

    The values of a floating-point tensor and their IEEE 754 operations,
    rounding to nearest even, from [SpecFloat]: [prec] bits of precision and
    maximal exponent [emax], which are 24 and 128 for float32, the default
    type of a tensor, and 53 and 1024 for float64. *)




Section FloatArithmetic.

Variables prec emax : Z.






Variable torch_grad : tensor spec_float -> tensor spec_float -> list spec_float.


End FloatArithmetic.

(** ** Layers *)

Definition layer : Type := tensor R -> result (tensor R).

(** [nn.Sequential] *)
Definition Sequential : Type := list layer.

Definition Sequential_forward (layers : Sequential) (x : tensor R) : result (tensor R) :=
  fold_left (fun r l => rbind r l) layers (Ok x).

(** [nn.Linear(in_features, out_features)]; the affine map on one row is
    [linear_fn]. *)
Record Linear : Type := {
  in_features : Z;
  out_features : Z;
  linear_fn : list R -> list R
}.

Definition Linear_forward (l : Linear) : layer := fun x =>
  match shape x with
  | [] => Raise RuntimeError
  | sh =>
      let lead := removelast sh in
      let d := List.last sh 1 in
      do _ <- require RuntimeError (d =? in_features l);
      Ok (mkTensor (lead ++ [out_features l])
                   (concat (map (linear_fn l) (rows d (prodZ lead) (data x)))))
  end.

(** [nn.LayerNorm(normalized_shape)] *)
Record LayerNorm : Type := {
  normalized_shape : Z;
  layer_norm_fn : list R -> list R
}.

Definition LayerNorm_forward (l : LayerNorm) : layer := fun x =>
  match shape x with
  | [] => Raise RuntimeError
  | sh =>
      let lead := removelast sh in
      let d := List.last sh 1 in
      do _ <- require RuntimeError (d =? normalized_shape l);
      Ok (mkTensor sh (concat (map (layer_norm_fn l) (rows d (prodZ lead) (data x)))))
  end.

(** Modelled from the spec: [Transformer] is defined in
    EchoPulse_pytorch/attention.py, which is not among the sources.  The spec
    has it as a supplied block after which the token grid is restored exactly:
    it maps a [batch, positions, dim] tensor to one of the same shape.  The
    numeric map may depend on the attention bias and on [video_shape]. *)
Record Transformer : Type := {
  transformer_fn : list Z -> option (tensor R) -> list Z -> list R -> list R
}.

Definition Transformer_forward (tf : Transformer) (tokens : tensor R)
  (attn_bias : option (tensor R)) (video_shape : list Z) : tensor R :=
  mkTensor (shape tokens) (transformer_fn tf (shape tokens) attn_bias video_shape (data tokens)).

(** Modelled from the spec: [ContinuousPositionBias], of the same missing file,
    computes the relative-position bias from the patch grid geometry. *)
Record ContinuousPositionBias : Type := {
  position_bias_fn : Z -> Z -> tensor R
}.

(** [VectorQuantize] of the vector_quantize_pytorch library: from a
    [batch, n, dim] sequence and an optional token mask, the quantized sequence
    (same shape), one codebook index per token and the commitment loss. *)
Record VectorQuantize : Type := {
  vq_fn : tensor R -> option (tensor bool) -> list R * list Z * R
}.

Definition VectorQuantize_forward (q : VectorQuantize) (tokens : tensor R)
  (mask : option (tensor bool)) : tensor R * tensor Z * R :=
  let '(quantized, indices, commit_loss) := vq_fn q tokens mask in
  (mkTensor (shape tokens) quantized, mkTensor (removelast (shape tokens)) indices,
   commit_loss).

(** [self.discr] on the image batches it accepts: the convolutional stack is
    carried as a function; the last layer, [Rearrange('b 1 -> b')], leaves one
    logit per image.  The network itself is [DiscriminatorNet] below, which
    raises on the sizes it cannot halve; [discriminator_runs] says when
    [Discriminator_forward] is what the network returns. *)
Record Discriminator : Type := {
  discr_fn : tensor R -> list R
}.

Definition Discriminator_forward (d : Discriminator) (x : tensor R) : tensor R :=
  mkTensor (take 1 (shape x)) (discr_fn d x).

(** [lpips.LPIPS]: one distance per image pair. *)
Record LPIPS : Type := {
  lpips_fn : tensor R -> tensor R -> list R
}.

(** Modelled from the spec: [InceptionI3d], of frozen_models/pytorch_i3d,
    which is not among the sources; the spec has it as a frozen feature
    extractor on the clips resized to 224.  [extract_features_fn] is
    [extract_features] after the frame-wise [Resize(224)] of [i3d_inference]:
    from a clip [b c f h w] to the feature tensor, whose shape is the
    network's. *)
Record InceptionI3d : Type := {
  extract_features_fn : tensor R -> tensor R
}.

(** [i3d_inference]: [features.reshape((b, features.shape[1]))] needs the
    features to have [b * features.shape[1]] elements. *)
Definition i3d_inference (inputs : tensor R) (i3d_model : InceptionI3d)
  : result (tensor R) :=
  match shape inputs with
  | [b; c; f; h; w] =>
      let features := extract_features_fn i3d_model inputs in
      match shape features with
      | _ :: k :: _ =>
          do _ <- require RuntimeError (prodZ (shape features) =? b * k);
          Ok (mkTensor [b; k] (data features))
      | _ => Raise IndexError
      end
  | _ => Raise RuntimeError
  end.

(** ** The module *)

(** The attributes of a [CViViT] instance that its methods read.  The four
    attributes after [use_vgg_and_gan] are only set when that flag holds;
    [None] there is the missing attribute.  [vgg] and [discr] are always set,
    possibly to Python's [None]. *)
Record CViViT : Type := {
  wandb_mode_disabled : bool;
  commit_loss_w : R;
  gen_loss_w : R;
  perceptual_loss_w : R;
  i3d_loss_w : R;
  recon_loss_w : R;
  gp_weight : R;
  use_discr : bool;
  image_size : Z * Z;
  patch_size : Z * Z;
  temporal_patch_size : Z;
  spatial_rel_pos_bias : ContinuousPositionBias;
  to_patch_emb_first_frame : Sequential;
  to_patch_emb : Sequential;
  enc_spatial_transformer : Transformer;
  enc_temporal_transformer : Transformer;
  vq : VectorQuantize;
  dec_spatial_transformer : Transformer;
  dec_temporal_transformer : Transformer;
  to_pixels_first_frame : Sequential;
  to_pixels : Sequential;
  vgg : option LPIPS;
  discr : option Discriminator;
  use_vgg_and_gan : bool;
  loss_fn_lpips : option LPIPS;
  i3d : option InceptionI3d;
  discr_loss : option (tensor R -> tensor R -> result fval);
  gen_loss : option (tensor R -> result fval)
}.

(** The keyword arguments of [__init__] that the embedded methods depend on. *)
Record CViViT_args : Type := {
  arg_dim : Z;
  arg_image_size : Z * Z;
  arg_patch_size : Z * Z;
  arg_temporal_patch_size : Z;
  arg_wandb_mode_disabled : bool;
  arg_channels : Z;
  arg_use_vgg_and_gan : bool;
  arg_use_hinge_loss : bool;
  arg_commit_loss_w : R;
  arg_gen_loss_w : R;
  arg_perceptual_loss_w : R;
  arg_i3d_loss_w : R;
  arg_recon_loss_w : R;
  arg_use_discr : bool;
  arg_gp_weight : R
}.

(** What the constructors of the sub-modules create: the numeric maps of the
    learned layers and of the frozen networks. *)
Record Weights : Type := {
  w_first_norm_in : list R -> list R;
  w_first_proj : list R -> list R;
  w_first_norm_out : list R -> list R;
  w_rest_norm_in : list R -> list R;
  w_rest_proj : list R -> list R;
  w_rest_norm_out : list R -> list R;
  w_spatial_rel_pos_bias : ContinuousPositionBias;
  w_enc_spatial : Transformer;
  w_enc_temporal : Transformer;
  w_vq : VectorQuantize;
  w_dec_spatial : Transformer;
  w_dec_temporal : Transformer;
  w_pixels_first : list R -> list R;
  w_pixels_rest : list R -> list R;
  w_lpips : LPIPS;
  w_i3d : InceptionI3d;
  w_discr : Discriminator
}.

(** [CViViT.__init__] *)
Definition CViViT_init (a : CViViT_args) (w : Weights) : result CViViT :=
  let '(patch_height, patch_width) := arg_patch_size a in
  let '(image_height, image_width) := arg_image_size a in
  let channels := arg_channels a in
  let dim := arg_dim a in
  let pt := arg_temporal_patch_size a in
  do rh <- py_mod image_height patch_height;
  do ok <- (if rh =? 0
            then do rw <- py_mod image_width patch_width; Ok (rw =? 0)
            else Ok false);
  do _ <- py_assert ok;
  let n_first := channels * patch_width * patch_height in
  let n_rest := channels * patch_width * patch_height * pt in
  let trained := arg_use_vgg_and_gan a in
  Ok {| wandb_mode_disabled := arg_wandb_mode_disabled a;
        commit_loss_w := arg_commit_loss_w a;
        gen_loss_w := arg_gen_loss_w a;
        perceptual_loss_w := arg_perceptual_loss_w a;
        i3d_loss_w := arg_i3d_loss_w a;
        recon_loss_w := arg_recon_loss_w a;
        gp_weight := arg_gp_weight a;
        use_discr := arg_use_discr a;
        image_size := arg_image_size a;
        patch_size := arg_patch_size a;
        temporal_patch_size := pt;
        spatial_rel_pos_bias := w_spatial_rel_pos_bias w;
        to_patch_emb_first_frame :=
          [ patches_of_first_frame patch_height patch_width;
            LayerNorm_forward {| normalized_shape := n_first;
                                 layer_norm_fn := w_first_norm_in w |};
            Linear_forward {| in_features := n_first; out_features := dim;
                              linear_fn := w_first_proj w |};
            LayerNorm_forward {| normalized_shape := dim;
                                 layer_norm_fn := w_first_norm_out w |} ];
        to_patch_emb :=
          [ patches_of_frames patch_height patch_width pt;
            LayerNorm_forward {| normalized_shape := n_rest;
                                 layer_norm_fn := w_rest_norm_in w |};
            Linear_forward {| in_features := n_rest; out_features := dim;
                              linear_fn := w_rest_proj w |};
            LayerNorm_forward {| normalized_shape := dim;
                                 layer_norm_fn := w_rest_norm_out w |} ];
        enc_spatial_transformer := w_enc_spatial w;
        enc_temporal_transformer := w_enc_temporal w;
        vq := w_vq w;
        dec_spatial_transformer := w_dec_spatial w;
        dec_temporal_transformer := w_dec_temporal w;
        to_pixels_first_frame :=
          [ Linear_forward {| in_features := dim; out_features := n_first;
                              linear_fn := w_pixels_first w |};
            first_frame_of_patches patch_height patch_width ];
        to_pixels :=
          [ Linear_forward {| in_features := dim; out_features := n_rest;
                              linear_fn := w_pixels_rest w |};
            frames_of_patches patch_height patch_width pt ];
        vgg := None;
        discr := if trained && arg_use_discr a then Some (w_discr w) else None;
        use_vgg_and_gan := trained;
        loss_fn_lpips := if trained then Some (w_lpips w) else None;
        i3d := if trained then Some (w_i3d w) else None;
        discr_loss :=
          if trained
          then Some (if arg_use_hinge_loss a then hinge_discr_loss else bce_discr_loss)
          else None;
        gen_loss :=
          if trained
          then Some (if arg_use_hinge_loss a then hinge_gen_loss else bce_gen_loss)
          else None |}.

(** Reading an attribute that may be missing. *)
Definition getattr {A : Type} (attr : option A) : result A :=
  match attr with
  | Some v => Ok v
  | None => Raise AttributeError
  end.

(** [patch_height_width] *)
Definition patch_height_width (self : CViViT) : result (Z * Z) :=
  do h <- py_floordiv (fst (image_size self)) (fst (patch_size self));
  do w <- py_floordiv (snd (image_size self)) (snd (patch_size self));
  Ok (h, w).

(** [image_num_tokens] *)
Definition image_num_tokens (self : CViViT) : result Z :=
  do h <- py_int_truediv (fst (image_size self)) (fst (patch_size self));
  do w <- py_int_truediv (snd (image_size self)) (snd (patch_size self));
  Ok (h * w).

(** [frames_per_num_tokens] *)
Definition frames_per_num_tokens (self : CViViT) (num_tokens : Z) : result Z :=
  do tokens_per_frame <- image_num_tokens self;
  do r <- py_mod num_tokens tokens_per_frame;
  do _ <- py_assert (r =? 0);
  do _ <- py_assert (0 <? num_tokens);
  do pseudo_frames <- py_floordiv num_tokens tokens_per_frame;
  Ok ((pseudo_frames - 1) * temporal_patch_size self + 1).

(** [num_tokens_per_frames] *)
Definition num_tokens_per_frames (self : CViViT) (num_frames : Z)
  (include_first_frame : bool) : result Z :=
  do image_num_tokens <- image_num_tokens self;
  let total_tokens := 0 in
  let '(num_frames, total_tokens) :=
    if include_first_frame
    then (num_frames - 1, total_tokens + image_num_tokens)
    else (num_frames, total_tokens) in
  do r <- py_mod num_frames (temporal_patch_size self);
  do _ <- py_assert (r =? 0);
  do q <- py_int_truediv num_frames (temporal_patch_size self);
  Ok (total_tokens + q * image_num_tokens).

(** [calculate_video_token_mask] *)
Definition calculate_video_token_mask (self : CViViT) (videos : tensor R)
  (video_frame_mask : tensor bool) : result (tensor bool) :=
  match rev (shape videos) with
  | w :: h :: _ =>
      let '(ph, pw) := patch_size self in
      match shape video_frame_mask with
      | [b; t] =>
          let sums := map (fun r => Z.of_nat (length (filter (fun x => x = true) r)))
                          (rows t b (data video_frame_mask)) in
          do rems <- (fold_right (fun s acc => do l <- acc;
                                               do r <- py_mod (s - 1) (temporal_patch_size self);
                                               Ok (r :: l)) (Ok []) sums);
          do _ <- py_assert (forallb (fun r => r =? 0) rems);
          let first_frame_mask := slice_first 1 video_frame_mask in
          let rest_frame_mask := slice_rest 1 video_frame_mask in
          let p := temporal_patch_size self in
          do f <- einops_infer (nth 1 (shape rest_frame_mask) 0) p;
          let rest_any := mkTensor [b; f] (map (existsb (fun x => x))
                                               (rows p (b * f) (data rest_frame_mask))) in
          do video_mask <- torch_cat 1 first_frame_mask rest_any;
          do hp <- py_floordiv h ph;
          do wp <- py_floordiv w pw;
          repeat_over_positions (hp * wp) video_mask
      | _ => Raise IndexError
      end
  | _ => Raise RuntimeError
  end.

(** [encode] *)
Definition encode (self : CViViT) (tokens : tensor R) : result (tensor R) :=
  match shape tokens with
  | [] => Raise IndexError
  | b :: _ =>
      do (h, w) <- patch_height_width self;
      let video_shape := removelast (shape tokens) in
      do tokens <- merge_frames tokens;
      let attn_bias := position_bias_fn (spatial_rel_pos_bias self) h w in
      let tokens := Transformer_forward (enc_spatial_transformer self) tokens
                      (Some attn_bias) video_shape in
      do tokens <- split_frames b h w tokens;
      do tokens <- merge_positions tokens;
      let tokens := Transformer_forward (enc_temporal_transformer self) tokens
                      None video_shape in
      split_positions b h w tokens
  end.

(** [decode] *)
Definition decode (self : CViViT) (tokens : tensor R) : result (tensor R) :=
  match shape tokens with
  | [] => Raise IndexError
  | b :: _ =>
      do (h, w) <- patch_height_width self;
      do tokens <- (if ndim tokens =? 3 then split_tokens h w tokens else Ok tokens);
      let video_shape := removelast (shape tokens) in
      do tokens <- merge_positions tokens;
      let tokens := Transformer_forward (dec_temporal_transformer self) tokens
                      None video_shape in
      do tokens <- split_positions b h w tokens;
      do tokens <- merge_frames tokens;
      let attn_bias := position_bias_fn (spatial_rel_pos_bias self) h w in
      let tokens := Transformer_forward (dec_spatial_transformer self) tokens
                      (Some attn_bias) video_shape in
      do tokens <- split_frames b h w tokens;
      let first_frame_token := slice_first 1 tokens in
      let rest_frames_tokens := slice_rest 1 tokens in
      do first_frame <- Sequential_forward (to_pixels_first_frame self) first_frame_token;
      do rest_frames <- Sequential_forward (to_pixels self) rest_frames_tokens;
      torch_cat 2 first_frame rest_frames
  end.

(** ** [forward] *)

(** What a call of [forward] returns.  [NotImplementedError_class] is the
    exception class itself, handed back by [return NotImplementedError]. *)
Inductive output : Type :=
| Indices (indices : tensor Z)
| Recon (returned_recon : tensor R)
| Loss (loss : fval)
| LossRecon (loss : fval) (returned_recon : tensor R)
| NotImplementedError_class.

(** [exists(val)] *)
Definition exists_ {A : Type} (val : option A) : bool :=
  match val with
  | Some _ => true
  | None => false
  end.

(** [2 * t - 1] *)
Definition rescale (t : tensor R) : tensor R :=
  mkTensor (shape t) (map (fun x => (2 * x - 1)%R) (data t)).

(** [log_wandb_all_losses]: [accelerator.log] on a missing tracker is an
    AttributeError; the logged values do not flow back. *)
Definition log_wandb_all_losses (accelerator : option unit) : result unit :=
  match accelerator with
  | Some _ => Ok tt
  | None => Raise AttributeError
  end.

Section Forward.

Variable torch_grad : tensor R -> tensor R -> list R.

(** The locals of [forward] after the quantizer (line 709). *)
Record quantized : Type := {
  q_is_image : bool;
  q_video : tensor R;
  q_c : Z;
  q_h : Z;
  q_w : Z;
  q_packed_fhw_shape : list Z;
  q_tokens : tensor R;
  q_indices : tensor Z;
  q_commit_loss : R
}.

(** Lines 664-709 of [forward]: shape checks, patch embedding, encoder,
    quantizer. *)
Definition forward_quantize (self : CViViT) (video : tensor R)
  (mask : option (tensor bool)) : result quantized :=
  do _ <- py_assert (bool_decide (ndim video = 4 \/ ndim video = 5));
  let is_image := ndim video =? 4 in
  do video <- (if is_image
               then do video <- add_time_axis video;
                    do _ <- py_assert (negb (exists_ mask));
                    Ok video
               else Ok video);
  match shape video with
  | [b; c; f; image_height; image_width] =>
      do _ <- py_assert (bool_decide ((image_height, image_width) = image_size self));
      do _ <- (match mask with
               | None => Ok tt
               | Some m =>
                   match shape m with
                   | [] => Raise IndexError
                   | sh => py_assert (List.last sh 0 =? f)
                   end
               end);
      do ok <- divisible_by (f - 1) (temporal_patch_size self);
      do _ <- py_assert ok;
      let first_frame := slice_first 2 video in
      let rest_frames := slice_rest 2 video in
      do first_frame_tokens <- Sequential_forward (to_patch_emb_first_frame self) first_frame;
      do rest_frames_tokens <- Sequential_forward (to_patch_emb self) rest_frames;
      do tokens <- torch_cat 1 first_frame_tokens rest_frames_tokens;
      match shape tokens with
      | [_; _; h; w; _] =>
          do tokens <- encode self tokens;
          do (tokens, packed_fhw_shape) <- pack_b_star_d tokens;
          do vq_mask <- (match mask with
                         | Some m => do vm <- calculate_video_token_mask self video m;
                                     Ok (Some vm)
                         | None => Ok None
                         end);
          let '(tokens, indices, commit_loss) :=
            VectorQuantize_forward (vq self) tokens vq_mask in
          Ok {| q_is_image := is_image; q_video := video; q_c := c; q_h := h; q_w := w;
                q_packed_fhw_shape := packed_fhw_shape; q_tokens := tokens;
                q_indices := indices; q_commit_loss := commit_loss |}
      | _ => Raise RuntimeError
      end
  | _ => Raise RuntimeError
  end.

(** Lines 715-721: decoder, and the image squeezed back out of a one-frame
    video.  The result is [(recon_video, returned_recon)]. *)
Definition forward_reconstruct (self : CViViT) (q : quantized)
  : result (tensor R * tensor R) :=
  do tokens <- split_tokens (q_h q) (q_w q) (q_tokens q);
  do recon_video <- decode self tokens;
  do returned_recon <- (if q_is_image q then drop_time_axis recon_video
                        else Ok recon_video);
  Ok (recon_video, returned_recon).

(** Lines 764-768: the discriminator loss on the flattened frames; the
    reconstruction is detached, which leaves its values as they are. *)
Definition discriminator_loss_of (self : CViViT) (discr : Discriminator)
  (recon_video_flattened input_video_flattened : tensor R) : result fval :=
  let recon_video_discr_logits := Discriminator_forward discr recon_video_flattened in
  let video_discr_logits := Discriminator_forward discr input_video_flattened in
  do discr_loss_fn <- getattr (discr_loss self);
  discr_loss_fn recon_video_discr_logits video_discr_logits.

(** The discriminator-training branch, lines 751-779. *)
Definition forward_discr_branch (self : CViViT) (video recon_video returned_recon : tensor R)
  (return_recons apply_grad_penalty : bool) : result output :=
  do _ <- py_assert (exists_ (discr self));
  do discr <- getattr (discr self);
  do input_video_flattened <- frames_to_batch video;
  do recon_video_flattened <- frames_to_batch recon_video;
  do discr_loss <- discriminator_loss_of self discr recon_video_flattened
                     input_video_flattened;
  do loss <- (if apply_grad_penalty
              then do gp <- gradient_penalty torch_grad input_video_flattened
                              (Discriminator_forward discr input_video_flattened)
                              (gp_weight self);
                   Ok (Some (fadd discr_loss gp))
              else Ok None);
  (* [loss] is a local of [forward] that is only bound under
     [apply_grad_penalty]: reading it unbound is an UnboundLocalError. *)
  match loss with
  | None => Raise UnboundLocalError
  | Some loss =>
      if return_recons then Ok (LossRecon loss returned_recon) else Ok (Loss loss)
  end.

(** Lines 793-803: the perceptual loss. *)
Definition perceptual_loss_of (self : CViViT)
  (input_video_flattened recon_video_flattened : tensor R) : result fval :=
  do lpips <- getattr (loss_fn_lpips self);
  Ok (mean (lpips_fn lpips (rescale input_video_flattened) (rescale recon_video_flattened))).

(** Lines 807-815: the video-level perceptual loss. *)
Definition i3d_video_perceptual_loss_of (self : CViViT) (video recon_video : tensor R)
  : result fval :=
  if 1 <? nth 2 (shape video) 0
  then do i3d_model <- getattr (i3d self);
       do features_video <- i3d_inference video i3d_model;
       do features_recon_video <- i3d_inference recon_video i3d_model;
       mse_loss features_video features_recon_video
  else Ok (Num 0).

(** Lines 819-837: the generator loss. *)
Definition generator_loss_of (self : CViViT) (recon_video_flattened : tensor R)
  : result fval :=
  if use_discr self
  then do gen_loss_fn <- getattr (gen_loss self);
       match discr self with
       | Some discr => gen_loss_fn (Discriminator_forward discr recon_video_flattened)
       | None => Raise TypeError
       end
  else Ok (Num 0).

(** Lines 841-843: the weighted sum. *)
Definition combine_losses (self : CViViT) (commit_loss : R)
  (gen_loss perceptual_loss i3d_video_perceptual_loss recon_loss : fval) : fval :=
  fadd (fadd (fadd (fadd (fscale (commit_loss_w self) (Num commit_loss))
                         (fscale (gen_loss_w self) gen_loss))
                   (fscale (perceptual_loss_w self) perceptual_loss))
             (fscale (i3d_loss_w self) i3d_video_perceptual_loss))
       (fscale (recon_loss_w self) recon_loss).

(** The generator-training branch, lines 781-852. *)
Definition forward_gen_branch (self : CViViT) (video recon_video returned_recon : tensor R)
  (commit_loss : R) (recon_loss : fval) (return_recons : bool)
  (accelerator_tracker : option unit) : result output :=
  if negb (use_vgg_and_gan self)
  then (if return_recons then Ok (LossRecon recon_loss returned_recon)
        else Ok (Loss recon_loss))
  else
    do input_video_flattened <- frames_to_batch video;
    do recon_video_flattened <- frames_to_batch recon_video;
    do perceptual_loss <- perceptual_loss_of self input_video_flattened
                            recon_video_flattened;
    do i3d_video_perceptual_loss <- i3d_video_perceptual_loss_of self video recon_video;
    do gen_loss <- generator_loss_of self recon_video_flattened;
    let loss := combine_losses self commit_loss gen_loss perceptual_loss
                  i3d_video_perceptual_loss recon_loss in
    do _ <- (if negb (wandb_mode_disabled self)
             then log_wandb_all_losses accelerator_tracker
             else Ok tt);
    if return_recons then Ok (LossRecon loss returned_recon) else Ok (Loss loss).

(** [forward] *)
Definition forward (self : CViViT) (video : tensor R) (mask : option (tensor bool))
  (return_recons return_recons_only return_discr_loss apply_grad_penalty
   return_only_codebook_ids : bool) (accelerator_tracker : option unit)
  : result output :=
  do q <- forward_quantize self video mask;
  if return_only_codebook_ids
  then do indices <- unpack_b_star (q_indices q) (q_packed_fhw_shape q);
       Ok (Indices indices)
  else
    do (recon_video, returned_recon) <- forward_reconstruct self q;
    if return_recons_only
    then Ok (Recon returned_recon)
    else
      do recon_loss <- reconstruction_loss (q_video q) recon_video mask (q_c q);
      if exists_ mask
      then Ok NotImplementedError_class
      else if return_discr_loss
      then forward_discr_branch self (q_video q) recon_video returned_recon
             return_recons apply_grad_penalty
      else forward_gen_branch self (q_video q) recon_video returned_recon
             (q_commit_loss q) recon_loss return_recons accelerator_tracker.

End Forward.

(** ** Serialization: [remove_vgg], [state_dict], [load_state_dict]

    For [nn.Module.state_dict] an instance is its attributes: registered
    sub-modules, which carry parameters and buffers, and other values.  The
    state dictionary is followed through its keys. *)

Inductive attribute : Type :=
| Submodule (tensors : list string)
| PyNone
| PyValue.

(** [nn.Module.state_dict]: the keys [attr.tensor] of the registered
    sub-modules. *)
Definition Module_state_dict (self : gmap string attribute) : list string :=
  flat_map (fun entry : string * attribute =>
              match snd entry with
              | Submodule tensors =>
                  map (fun t => String.append (fst entry) (String.append "." t)) tensors
              | _ => []
              end) (map_to_list self).

(** [nn.Module.load_state_dict(state, strict)]: the missing and the unexpected
    keys, which are an error under [strict]. *)
Definition Module_load_state_dict (state : list string) (strict : bool)
  (self : gmap string attribute) : result (list string * list string) :=
  let expected := Module_state_dict self in
  let missing_keys := filter (fun k => k ∉ state) expected in
  let unexpected_keys := filter (fun k => k ∉ expected) state in
  if strict && negb (bool_decide (missing_keys = [] /\ unexpected_keys = []))
  then Raise RuntimeError
  else Ok (missing_keys, unexpected_keys).

(** [remove_vgg]: the decorated method runs on the instance without its [vgg]
    attribute, which is put back once the method has returned; an exception
    leaves [inner] before that.  The result is the instance afterwards and
    what the call returned. *)
Definition remove_vgg {X : Type} (fn : gmap string attribute -> result X)
  (self : gmap string attribute) : gmap string attribute * result X :=
  let has_vgg := bool_decide (is_Some (self !! "vgg"%string)) in
  let vgg := self !! "vgg"%string in
  let self := if has_vgg then delete "vgg"%string self else self in
  match fn self with
  | Ok out =>
      (match vgg with
       | Some v => <["vgg"%string := v]> self
       | None => self
       end, Ok out)
  | Raise e => (self, Raise e)
  end.

(** [CViViT.state_dict] *)
Definition state_dict (self : gmap string attribute)
  : gmap string attribute * result (list string) :=
  remove_vgg (fun self => Ok (Module_state_dict self)) self.

(** [CViViT.load_state_dict] *)
Definition load_state_dict (state : list string) (strict : bool)
  (self : gmap string attribute)
  : gmap string attribute * result (list string * list string) :=
  remove_vgg (Module_load_state_dict state strict) self.

(** The attributes [__init__] sets, with the tensor names of each sub-module
    given by [tensors_of]. *)
Definition CViViT_attributes (tensors_of : string -> list string)
  (use_vgg_and_gan use_discr : bool) : gmap string attribute :=
  let sub name := (name, Submodule (tensors_of name)) in
  let val name := (name, PyValue) in
  list_to_map
    (List.app
     [ val "wandb_mode"; val "force_cpu"; val "commit_loss_w"; val "gen_loss_w";
       val "perceptual_loss_w"; val "i3d_loss_w"; val "recon_loss_w"; val "gp_weight";
       val "use_discr"; val "image_size"; val "patch_size"; val "temporal_patch_size";
       val "local_vgg";
       sub "spatial_rel_pos_bias"; sub "to_patch_emb_first_frame"; sub "to_patch_emb";
       sub "enc_spatial_transformer"; sub "enc_temporal_transformer"; sub "vq";
       sub "dec_spatial_transformer"; sub "dec_temporal_transformer";
       sub "to_pixels_first_frame"; sub "to_pixels";
       ("vgg", PyNone);
       (if use_vgg_and_gan && use_discr then sub "discr" else ("discr", PyNone));
       val "use_vgg_and_gan" ]
     (if use_vgg_and_gan
      then [ sub "loss_fn_lpips"; sub "i3d"; val "discr_loss"; val "gen_loss" ]
      else []))%string.

(** ** Further methods of the module *)

(** [get_video_patch_shape] *)
Definition get_video_patch_shape (self : CViViT) (num_frames : Z)
  (include_first_frame : bool) : result (list Z) :=
  let patch_frames := 0 in
  let '(num_frames, patch_frames) :=
    if include_first_frame
    then (num_frames - 1, patch_frames + 1)
    else (num_frames, patch_frames) in
  do q <- py_floordiv num_frames (temporal_patch_size self);
  let patch_frames := patch_frames + q in
  do (h, w) <- patch_height_width self;
  Ok [patch_frames; h; w].

(** [calculate_video_token_mask_firstframe] *)
Definition calculate_video_token_mask_firstframe (self : CViViT) (videos : tensor R)
  (video_frame_mask : tensor bool) : result (tensor bool) :=
  match rev (shape videos) with
  | w :: h :: _ =>
      let '(ph, pw) := patch_size self in
      match shape video_frame_mask with
      | [b; t] =>
          let sums := map (fun r => Z.of_nat (length (filter (fun x => x = true) r)))
                          (rows t b (data video_frame_mask)) in
          do rems <- (fold_right (fun s acc => do l <- acc;
                                               do r <- py_mod (s - 1) (temporal_patch_size self);
                                               Ok (r :: l)) (Ok []) sums);
          do _ <- py_assert (forallb (fun r => r =? 0) rems);
          let rest_frame_mask := slice_rest 1 video_frame_mask in
          let p := temporal_patch_size self in
          do f <- einops_infer (nth 1 (shape rest_frame_mask) 0) p;
          let video_mask := mkTensor [b; f] (map (existsb (fun x => x))
                                                 (rows p (b * f) (data rest_frame_mask))) in
          do hp <- py_floordiv h ph;
          do wp <- py_floordiv w pw;
          repeat_over_positions (hp * wp) video_mask
      | _ => Raise IndexError
      end
  | _ => Raise RuntimeError
  end.

(** [table[indices]] for a two-dimensional [table] and an integer tensor
    [indices]: one row per index; an index counts from the end when negative
    and is an IndexError outside [-size, size). *)
Definition index_rows (table : tensor R) (indices : tensor Z) : result (tensor R) :=
  match shape table with
  | [size; d] =>
      do picked <-
        fold_right (fun i acc =>
                      do l <- acc;
                      do _ <- require IndexError ((- size <=? i) && (i <? size));
                      Ok (take (Z.to_nat d) (drop (Z.to_nat ((i mod size) * d)) (data table))
                          :: l))
                   (Ok []) (data indices);
      Ok (mkTensor (shape indices ++ [d]) (concat picked))
  | _ => Raise IndexError
  end.

(** [self.vq.codebook] and [self.vq.project_out] of the library's
    [VectorQuantize]: the table of code vectors, [codebook_size] rows of
    [codebook_dim] values, and the projection back to the model dimension. *)
Record Codebook : Type := {
  codebook : tensor R;
  project_out : Linear
}.

(** [decode_from_codebook_indices] *)
Definition decode_from_codebook_indices (self : CViViT) (cb : Codebook)
  (indices : tensor Z) : result (tensor R) :=
  do codes <- index_rows (codebook cb) indices;
  do projected_out_codes <- Linear_forward (project_out cb) codes;
  decode self projected_out_codes.

(** ** Checkpoints: [load] and [load_safetensors] *)

(** What the methods see of a path: whether the file exists, [Path.suffix],
    and the keys of the state in the file, which is in the format that its
    suffix says: [load_file] reads a [.safetensors] file, [torch.load] the
    others. *)
Record checkpoint_file : Type := {
  file_exists : bool;
  file_suffix : string;
  file_keys : list string
}.

(** How a loading method ends; [ValueError] is raised by [load_safetensors]
    itself, [UnpicklingError] by [torch.load] on a file that is not a pickled
    state. *)
Inductive load_outcome : Type :=
| Loaded
| LoadRaise (e : exn)
| ValueError
| UnpicklingError.

(** [CViViT.load]: [torch.load] whatever the suffix, which a safetensors file
    does not survive. *)
Definition load (path : checkpoint_file) (self : gmap string attribute)
  : gmap string attribute * load_outcome :=
  if negb (file_exists path) then (self, LoadRaise AssertionError)
  else if String.eqb (file_suffix path) ".safetensors" then (self, UnpicklingError)
  else
    let pt := file_keys path in
    match load_state_dict pt true self with
    | (self, Ok _) => (self, Loaded)
    | (self, Raise e) => (self, LoadRaise e)
    end.

(** [CViViT.load_safetensors] *)
Definition load_safetensors (path : checkpoint_file) (self : gmap string attribute)
  : gmap string attribute * load_outcome :=
  if negb (file_exists path) then (self, LoadRaise AssertionError)
  else if negb (String.eqb (file_suffix path) ".bin" ||
                String.eqb (file_suffix path) ".safetensors")
  then (self, ValueError)
  else
    let pt := file_keys path in
    (* print(..., self.state_dict().keys()) *)
    match state_dict self with
    | (self, Raise e) => (self, LoadRaise e)
    | (self, Ok _) =>
        match load_state_dict pt false self with
        | (self, Raise e) => (self, LoadRaise e)
        | (self, Ok _) =>
            match load_state_dict pt true self with
            | (self, Ok _) => (self, Loaded)
            | (self, Raise e) => (self, LoadRaise e)
            end
        end
    end.

(** ** The discriminator network

    The structure behind [discr_fn]: [DiscriminatorBlock] and [Discriminator]
    with the shapes of their convolutions; the numeric maps of the learned
    layers are functions, as before. *)

(** [nn.Conv2d(in_channels, out_channels, kernel_size, stride, padding)] with a
    square kernel. *)
Record Conv2d : Type := {
  in_channels : Z;
  out_channels : Z;
  kernel_size : Z;
  stride_ : Z;
  padding : Z;
  conv_fn : tensor R -> list R
}.

(** The output length of a convolution along one axis; a kernel larger than
    the padded input is an error. *)
Definition conv_output_size (cv : Conv2d) (n : Z) : result Z :=
  do _ <- require RuntimeError (kernel_size cv <=? n + 2 * padding cv);
  Ok ((n + 2 * padding cv - kernel_size cv) / stride_ cv + 1).

(** [Conv2d.forward], on a batch [b c h w] or on one unbatched image [c h w]. *)
Definition Conv2d_forward (cv : Conv2d) : layer := fun x =>
  match shape x with
  | [b; c; h; w] =>
      do _ <- require RuntimeError (c =? in_channels cv);
      do h' <- conv_output_size cv h;
      do w' <- conv_output_size cv w;
      Ok (mkTensor [b; out_channels cv; h'; w'] (conv_fn cv x))
  | [c; h; w] =>
      do _ <- require RuntimeError (c =? in_channels cv);
      do h' <- conv_output_size cv h;
      do w' <- conv_output_size cv w;
      Ok (mkTensor [out_channels cv; h'; w'] (conv_fn cv x))
  | _ => Raise RuntimeError
  end.

(** [leaky_relu(p)], that is [nn.LeakyReLU(p)] *)
Definition leaky_relu (p : R) : layer := fun x =>
  Ok (mkTensor (shape x) (map (fun v => (Rmax 0 v + p * Rmin 0 v)%R) (data x))).

(** [Rearrange('b c (h p1) (w p2) -> b (c p1 p2) h w', p1=2, p2=2)] *)
Definition space_to_depth {A : Type} (t : tensor A) : result (tensor A) :=
  match shape t with
  | [b; c; hh; ww] =>
      do h <- einops_infer hh 2;
      do w <- einops_infer ww 2;
      Ok (einops_apply [b; c; h; 2; w; 2] [0; 1; 3; 5; 2; 4]%nat [b; c * 2 * 2; h; w] t)
  | _ => Raise EinopsError
  end.

(** [(x + res) * (1 / math.sqrt(2))].  The two tensors of a block always have
    one shape when the sum is reached. *)
Definition add_and_normalize (x res : tensor R) : result (tensor R) :=
  do _ <- require RuntimeError (bool_decide (shape x = shape res));
  Ok (mkTensor (shape x)
        (zip_with (fun u v => ((u + v) * (1 / sqrt 2))%R) (data x) (data res))).

(** [DiscriminatorBlock] *)
Record DiscriminatorBlock : Type := {
  conv_res : Conv2d;
  net : Sequential;
  downsample : option Sequential
}.

(** The numeric maps of the four convolutions of a block. *)
Record BlockWeights : Type := {
  bw_conv_res : tensor R -> list R;
  bw_net_1 : tensor R -> list R;
  bw_net_2 : tensor R -> list R;
  bw_downsample : tensor R -> list R
}.

(** [DiscriminatorBlock.__init__] *)
Definition DiscriminatorBlock_init (input_channels filters : Z) (downsample : bool)
  (bw : BlockWeights) : DiscriminatorBlock :=
  {| conv_res := {| in_channels := input_channels; out_channels := filters;
                    kernel_size := 1; stride_ := if downsample then 2 else 1;
                    padding := 0; conv_fn := bw_conv_res bw |};
     net := [ Conv2d_forward {| in_channels := input_channels; out_channels := filters;
                                kernel_size := 3; stride_ := 1; padding := 1;
                                conv_fn := bw_net_1 bw |};
              leaky_relu (1 / 10);
              Conv2d_forward {| in_channels := filters; out_channels := filters;
                                kernel_size := 3; stride_ := 1; padding := 1;
                                conv_fn := bw_net_2 bw |};
              leaky_relu (1 / 10) ];
     downsample :=
       if downsample
       then Some [ space_to_depth;
                   Conv2d_forward {| in_channels := filters * 4; out_channels := filters;
                                     kernel_size := 1; stride_ := 1; padding := 0;
                                     conv_fn := bw_downsample bw |} ]
       else None |}.

(** [DiscriminatorBlock.forward] *)
Definition DiscriminatorBlock_forward (block : DiscriminatorBlock) : layer := fun x =>
  do res <- Conv2d_forward (conv_res block) x;
  do x <- Sequential_forward (net block) x;
  do x <- (match downsample block with
           | Some d => Sequential_forward d x
           | None => Ok x
           end);
  add_and_normalize x res.

(** Modelled from the spec: [Attention], of EchoPulse_pytorch/attention.py,
    which is not among the sources; it operates over the flattened spatial
    positions of a block output, a [batch, positions, channels] tensor, and
    its result is added to that tensor. *)
Record Attention : Type := {
  attention_fn : tensor R -> list R
}.

(** The body of [if exists(attn_block)] in [Discriminator.forward]. *)
Definition attend (attn_block : Attention) (x : tensor R) : result (tensor R) :=
  match shape x with
  | b :: c :: ps =>
      (* pack([x], 'b c *') and 'b c n -> b n c' *)
      let n := prodZ ps in
      let x := einops_apply [b; c; n] [0; 2; 1]%nat [b; n; c] x in
      (* attn_block(x) + x *)
      let x := mkTensor (shape x)
                 (zip_with Rplus (attention_fn attn_block x) (data x)) in
      (* 'b n c -> b c n' and unpack(x, ps, 'b c *') *)
      Ok (einops_apply [b; n; c] [0; 2; 1]%nat (b :: c :: ps) x)
  | _ => Raise EinopsError
  end.

(** [Rearrange('b 1 -> b')] *)
Definition squeeze_logit {A : Type} (t : tensor A) : result (tensor A) :=
  match shape t with
  | [b; one] =>
      do _ <- require EinopsError (one =? 1);
      Ok (mkTensor [b] (data t))
  | _ => Raise EinopsError
  end.

(** [Discriminator] *)
Record DiscriminatorNet : Type := {
  blocks : list DiscriminatorBlock;
  attn_blocks : list (option Attention);
  to_logits : Sequential
}.

(** The numeric maps of the layers of a discriminator. *)
Record DiscriminatorWeights : Type := {
  dw_block : nat -> BlockWeights;
  dw_attn : nat -> Attention;
  dw_logits_conv : tensor R -> list R;
  dw_logits_linear : list R -> list R
}.

(** [layer_dims] of [Discriminator.__init__] *)
Definition layer_dims (dim channels max_dim num_layers : Z) : list Z :=
  map (fun layer_dim => Z.min layer_dim max_dim)
      (channels :: map (fun i => dim * 4 * 2 ^ i) (seqZ 0 (num_layers + 1))).

(** [zip(layer_dims[:-1], layer_dims[1:])] *)
Definition layer_dims_in_out (dims : list Z) : list (Z * Z) :=
  zip (removelast dims) (tail dims).

(** The loop of [Discriminator.__init__] over [enumerate(layer_dims_in_out)],
    from index [ind] on: the blocks with their attention blocks. *)
Fixpoint build_blocks (dw : DiscriminatorWeights) (attn_res_layers : list Z)
  (last_ind : Z) (ind : nat) (image_resolution : Z) (pairs : list (Z * Z))
  : list (DiscriminatorBlock * option Attention) :=
  match pairs with
  | [] => []
  | (in_chan, out_chan) :: rest =>
      let is_not_last := negb (Z.of_nat ind =? last_ind) in
      let block := DiscriminatorBlock_init in_chan out_chan is_not_last (dw_block dw ind) in
      let attn_block :=
        if bool_decide (image_resolution ∈ attn_res_layers)
        then Some (dw_attn dw ind) else None in
      (block, attn_block)
      :: build_blocks dw attn_res_layers last_ind (S ind) (image_resolution / 2) rest
  end.

(** [Discriminator.__init__], for an image resolution of at least 4, where
    [int(math.log2(min_image_resolution) - 2)] is [Z.log2] of the resolution
    less 2; [attn_res_layers] is a tuple. *)
Definition Discriminator_init (dim : Z) (image_size : Z * Z) (channels : Z)
  (attn_res_layers : list Z) (max_dim : Z) (dw : DiscriminatorWeights)
  : DiscriminatorNet :=
  let min_image_resolution := Z.min (fst image_size) (snd image_size) in
  let num_layers := Z.log2 min_image_resolution - 2 in
  let dims := layer_dims dim channels max_dim num_layers in
  let in_out := layer_dims_in_out dims in
  let built := build_blocks dw attn_res_layers (Z.of_nat (length in_out) - 1) 0
                 min_image_resolution in_out in
  let dim_last := List.last dims 0 in
  let downsample_factor := 2 ^ num_layers in
  let last_fmap_size := (fst image_size / downsample_factor,
                         snd image_size / downsample_factor) in
  let latent_dim := fst last_fmap_size * snd last_fmap_size * dim_last in
  {| blocks := map fst built;
     attn_blocks := map snd built;
     to_logits :=
       [ Conv2d_forward {| in_channels := dim_last; out_channels := dim_last;
                           kernel_size := 3; stride_ := 1; padding := 1;
                           conv_fn := dw_logits_conv dw |};
         leaky_relu (1 / 10);
         flatten_per_sample;
         Linear_forward {| in_features := latent_dim; out_features := 1;
                           linear_fn := dw_logits_linear dw |};
         squeeze_logit ] |}.

(** One turn of the loop of [Discriminator.forward]. *)
Definition discriminator_step (acc : result (tensor R))
  (pair : DiscriminatorBlock * option Attention) : result (tensor R) :=
  do x <- acc;
  do x <- DiscriminatorBlock_forward (fst pair) x;
  match snd pair with
  | Some attn_block => attend attn_block x
  | None => Ok x
  end.

(** [Discriminator.forward] *)
Definition DiscriminatorNet_forward (d : DiscriminatorNet) (x : tensor R)
  : result (tensor R) :=
  do x <- fold_left discriminator_step (zip (blocks d) (attn_blocks d)) (Ok x);
  Sequential_forward (to_logits d) x.

(** The function of a discriminator network, as [Discriminator_forward] takes
    it: the logits where the network returns. *)
Definition Discriminator_of (d : DiscriminatorNet) : Discriminator :=
  {| discr_fn := fun x => match DiscriminatorNet_forward d x with
                          | Ok logits => data logits
                          | Raise _ => []
                          end |}.

(** ** Predicates used in the statements *)

(** What a successful [__init__] established. *)
Record initialised (a : CViViT_args) (w : Weights) (self : CViViT) : Prop := {
  init_patch_height : fst (arg_patch_size a) <> 0;
  init_patch_width : snd (arg_patch_size a) <> 0;
  init_height : fst (arg_image_size a) mod fst (arg_patch_size a) = 0;
  init_width : snd (arg_image_size a) mod snd (arg_patch_size a) = 0;
  init_self : CViViT_init a w = Ok self
}.

(** A mask that [forward] accepts for a video of [f] frames: there is none,
    or it is a mask for a rank-5 video whose last axis has length [f] and
    whose token mask can be computed. *)
Definition mask_accepted (self : CViViT) (video : tensor R) (f : Z)
  (mask : option (tensor bool)) : Prop :=
  match mask with
  | None => True
  | Some m =>
      ndim video = 5 /\ shape m <> [] /\ List.last (shape m) 0 = f /\
      exists vm, calculate_video_token_mask self video m = Ok vm
  end.

(** The inputs for which the pipeline runs: an image batch or a video of
    [1 + t * temporal_patch_size] frames, of the configured channels and size. *)
Definition valid_input (a : CViViT_args) (video : tensor R) (b t : Z) : Prop :=
  0 < arg_temporal_patch_size a /\
  0 < fst (arg_image_size a) /\ 0 < snd (arg_image_size a) /\
  0 < b /\ 0 <= t /\
  ((shape video = [b; arg_channels a; fst (arg_image_size a); snd (arg_image_size a)] /\
    t = 0) \/
   shape video = [b; arg_channels a; 1 + t * arg_temporal_patch_size a;
                  fst (arg_image_size a); snd (arg_image_size a)]).

(** [torch.full((b, f), v)] for a boolean [v]. *)
Definition full_mask (v : bool) (b f : Z) : tensor bool :=
  mkTensor [b; f] (replicate (Z.to_nat (b * f)) v).

(** A geometry for which the token arithmetic is exact. *)
Definition sensible_geometry (a : CViViT_args) : Prop :=
  0 < fst (arg_patch_size a) /\ 0 < snd (arg_patch_size a) /\
  0 < fst (arg_image_size a) < 2 ^ 53 /\ 0 < snd (arg_image_size a) < 2 ^ 53 /\
  0 < arg_temporal_patch_size a.

(** The number of valid frames in each row of a frame mask. *)
Definition valid_frame_counts (mask : tensor bool) : list Z :=
  map (fun r => Z.of_nat (length (filter (fun x => x = true) r)))
      (rows (nth 1 (shape mask) 0) (nth 0 (shape mask) 0) (data mask)).

(** Whether a state has exactly the keys that the instance expects once its
    [vgg] attribute is detached. *)
Definition keys_match (state : list string) (self : gmap string attribute) : Prop :=
  filter (fun k => k ∉ state) (Module_state_dict (delete "vgg"%string self)) = [] /\
  filter (fun k => k ∉ Module_state_dict (delete "vgg"%string self)) state = [].

(** [self.discr] is the network that [__init__] builds (lines 438-444) from
    [discr_base_dim] and [discr_attn_res_layers], and it runs on the frames of
    the module's videos: on every batch of images of the module's size
    [Discriminator.forward] returns, with the logits that
    [Discriminator_forward] takes from [w_discr].  It does not on an image
    size that the blocks cannot halve [num_layers] times. *)
Definition discriminator_runs (a : CViViT_args) (w : Weights) (discr_base_dim : Z)
  (discr_attn_res_layers : list Z) (dw : DiscriminatorWeights) : Prop :=
  forall (x : tensor R) (n : Z),
    shape x = [n; arg_channels a; fst (arg_image_size a); snd (arg_image_size a)] ->
    DiscriminatorNet_forward
      (Discriminator_init discr_base_dim (arg_image_size a) (arg_channels a)
         discr_attn_res_layers 512 dw) x =
    Ok (Discriminator_forward (w_discr w) x).

(** The feature extractor gives one vector of [k] features per clip, so that
    the reshape of [i3d_inference] goes through. *)
Definition feature_vectors (m : InceptionI3d) : Prop :=
  exists k, forall (x : tensor R) (b c f h w : Z),
    shape x = [b; c; f; h; w] ->
    exists ones, shape (extract_features_fn m x) = b :: k :: ones /\ prodZ ones = 1.

(** ** A concrete module

    Trivial numeric maps for the learned layers, to instantiate the theorems. *)
Definition demo_weights : Weights := {|
  w_first_norm_in := fun r => r;
  w_first_proj := fun r => r;
  w_first_norm_out := fun r => r;
  w_rest_norm_in := fun r => r;
  w_rest_proj := fun r => r;
  w_rest_norm_out := fun r => r;
  w_spatial_rel_pos_bias := {| position_bias_fn := fun h w => mkTensor [h; w] [] |};
  w_enc_spatial := {| transformer_fn := fun _ _ _ d => d |};
  w_enc_temporal := {| transformer_fn := fun _ _ _ d => d |};
  w_vq := {| vq_fn := fun t _ => (data t, [], 0%R) |};
  w_dec_spatial := {| transformer_fn := fun _ _ _ d => d |};
  w_dec_temporal := {| transformer_fn := fun _ _ _ d => d |};
  w_pixels_first := fun r => r;
  w_pixels_rest := fun r => r;
  w_lpips := {| lpips_fn := fun _ _ => [] |};
  w_i3d := {| extract_features_fn := fun x => mkTensor [nth 0 (shape x) 0; 1] [] |};
  w_discr := {| discr_fn := fun _ => [] |}
|}.

Definition demo_args (image patch pt : Z) (gan hinge discr : bool) : CViViT_args := {|
  arg_dim := 512;
  arg_image_size := (image, image);
  arg_patch_size := (patch, patch);
  arg_temporal_patch_size := pt;
  arg_wandb_mode_disabled := true;
  arg_channels := 3;
  arg_use_vgg_and_gan := gan;
  arg_use_hinge_loss := hinge;
  arg_commit_loss_w := 1;
  arg_gen_loss_w := 1;
  arg_perceptual_loss_w := 1;
  arg_i3d_loss_w := 1;
  arg_recon_loss_w := 1;
  arg_use_discr := discr;
  arg_gp_weight := 10000
|}.


(** [torch.zeros(sh)] *)
Definition zeros (sh : list Z) : tensor R :=
  mkTensor sh (replicate (Z.to_nat (prodZ sh)) 0%R).

(** An autograd that returns no gradient elements. *)
Definition no_grad : tensor R -> tensor R -> list R := fun _ _ => [].

(** A codebook of four code vectors of two values each, projected out to the
    model dimension. *)
Definition demo_codebook : Codebook := {|
  codebook := zeros [4; 2];
  project_out := {| in_features := 2; out_features := 512; linear_fn := fun r => r |}
|}.

(** Trivial numeric maps for the layers of a discriminator. *)
Definition demo_discriminator_weights : DiscriminatorWeights := {|
  dw_block := fun _ => {| bw_conv_res := fun _ => []; bw_net_1 := fun _ => [];
                          bw_net_2 := fun _ => []; bw_downsample := fun _ => [] |};
  dw_attn := fun _ => {| attention_fn := fun _ => [] |};
  dw_logits_conv := fun _ => [];
  dw_logits_linear := fun r => r
|}.

(** The attributes of an instance whose sub-modules each hold one tensor,
    [weight]. *)
Definition demo_attributes : gmap string attribute :=
  CViViT_attributes (fun _ => ["weight"%string]) true true.

(** The arguments of [demo_args] with the adversarial and perceptual losses,
    and with logging enabled. *)
Definition demo_args_logging (image patch pt : Z) : CViViT_args := {|
  arg_dim := 512;
  arg_image_size := (image, image);
  arg_patch_size := (patch, patch);
  arg_temporal_patch_size := pt;
  arg_wandb_mode_disabled := false;
  arg_channels := 3;
  arg_use_vgg_and_gan := true;
  arg_use_hinge_loss := true;
  arg_commit_loss_w := 1;
  arg_gen_loss_w := 1;
  arg_perceptual_loss_w := 1;
  arg_i3d_loss_w := 1;
  arg_recon_loss_w := 1;
  arg_use_discr := true;
  arg_gp_weight := 10000
|}.

(** Numeric maps for a discriminator whose logit is 1 on every image. *)
Definition unit_discriminator_weights : DiscriminatorWeights := {|
  dw_block := fun _ => {| bw_conv_res := fun _ => []; bw_net_1 := fun _ => [];
                          bw_net_2 := fun _ => []; bw_downsample := fun _ => [] |};
  dw_attn := fun _ => {| attention_fn := fun _ => [] |};
  dw_logits_conv := fun _ => [];
  dw_logits_linear := fun _ => [1%R]
|}.

(** The weights of [demo_weights] with the discriminator that [__init__]
    builds for images of 128 by 128, a perceptual distance of 0 for every pair
    of images and a feature vector of one value for every clip. *)
Definition demo_gan_weights : Weights := {|
  w_first_norm_in := w_first_norm_in demo_weights;
  w_first_proj := w_first_proj demo_weights;
  w_first_norm_out := w_first_norm_out demo_weights;
  w_rest_norm_in := w_rest_norm_in demo_weights;
  w_rest_proj := w_rest_proj demo_weights;
  w_rest_norm_out := w_rest_norm_out demo_weights;
  w_spatial_rel_pos_bias := w_spatial_rel_pos_bias demo_weights;
  w_enc_spatial := w_enc_spatial demo_weights;
  w_enc_temporal := w_enc_temporal demo_weights;
  w_vq := w_vq demo_weights;
  w_dec_spatial := w_dec_spatial demo_weights;
  w_dec_temporal := w_dec_temporal demo_weights;
  w_pixels_first := w_pixels_first demo_weights;
  w_pixels_rest := w_pixels_rest demo_weights;
  w_lpips := {| lpips_fn := fun x _ => replicate (Z.to_nat (nth 0 (shape x) 0)) 0%R |};
  w_i3d := {| extract_features_fn := fun x =>
                mkTensor [nth 0 (shape x) 0; 1; 1; 1; 1]
                         (replicate (Z.to_nat (nth 0 (shape x) 0)) 0%R) |};
  w_discr := Discriminator_of
               (Discriminator_init 16 (128, 128) 3 [16] 512 unit_discriminator_weights)
|}.

(** * Properties *)

(** ** Shapes through the layers *)

Lemma einops_infer_ok (n k : Z) :
  k <> 0 -> n mod k = 0 -> einops_infer n k = Ok (n / k).
Proof.
  intros Hk Hn. unfold einops_infer.
  destruct (Z.eqb_spec k 0); [contradiction |].
  rewrite Hn. reflexivity.
Qed.

Lemma einops_infer_mul (q k : Z) :
  k <> 0 -> einops_infer (q * k) k = Ok q.
Proof.
  intros Hk. rewrite einops_infer_ok by (auto using Z.mod_mul).
  rewrite Z.div_mul by assumption. reflexivity.
Qed.

Lemma patches_of_first_frame_shape (p1 p2 b c h w : Z) (x : tensor R) :
  p1 <> 0 -> p2 <> 0 -> shape x = [b; c; 1; h * p1; w * p2] ->
  exists y, patches_of_first_frame p1 p2 x = Ok y /\ shape y = [b; 1; h; w; c * p1 * p2].
Proof.
  intros H1 H2 Hx. unfold patches_of_first_frame. rewrite Hx.
  rewrite Z.eqb_refl. cbn [require rbind].
  rewrite !einops_infer_mul by assumption. cbn [rbind].
  eexists. split; reflexivity.
Qed.

Lemma patches_of_frames_shape (p1 p2 pt b c f h w : Z) (x : tensor R) :
  p1 <> 0 -> p2 <> 0 -> pt <> 0 -> shape x = [b; c; f * pt; h * p1; w * p2] ->
  exists y, patches_of_frames p1 p2 pt x = Ok y /\
            shape y = [b; f; h; w; c * pt * p1 * p2].
Proof.
  intros H1 H2 H3 Hx. unfold patches_of_frames. rewrite Hx.
  rewrite !einops_infer_mul by assumption. cbn [rbind].
  eexists. split; reflexivity.
Qed.

Lemma first_frame_of_patches_shape (p1 p2 b c h w : Z) (x : tensor R) :
  p1 <> 0 -> p2 <> 0 -> shape x = [b; 1; h; w; c * p2 * p1] ->
  exists y, first_frame_of_patches p1 p2 x = Ok y /\
            shape y = [b; c; 1; h * p1; w * p2].
Proof.
  intros H1 H2 Hx. unfold first_frame_of_patches. rewrite Hx.
  rewrite Z.eqb_refl. cbn [require rbind].
  replace (c * p2 * p1) with (c * (p1 * p2)) by ring.
  rewrite einops_infer_mul by lia. cbn [rbind].
  eexists. split; reflexivity.
Qed.

Lemma frames_of_patches_shape (p1 p2 pt b c f h w : Z) (x : tensor R) :
  p1 <> 0 -> p2 <> 0 -> pt <> 0 -> shape x = [b; f; h; w; c * p2 * p1 * pt] ->
  exists y, frames_of_patches p1 p2 pt x = Ok y /\
            shape y = [b; c; f * pt; h * p1; w * p2].
Proof.
  intros H1 H2 H3 Hx. unfold frames_of_patches. rewrite Hx.
  replace (c * p2 * p1 * pt) with (c * (pt * p1 * p2)) by ring.
  rewrite einops_infer_mul by lia. cbn [rbind].
  eexists. split; reflexivity.
Qed.

Lemma Linear_forward_shape (l : Linear) (lead : list Z) (x : tensor R) :
  shape x = lead ++ [in_features l] ->
  exists y, Linear_forward l x = Ok y /\ shape y = lead ++ [out_features l].
Proof.
  intros Hx. unfold Linear_forward. rewrite Hx.
  destruct (lead ++ [in_features l]) eqn:E.
  - destruct lead; discriminate.
  - rewrite <- E. rewrite removelast_last, last_last.
    rewrite Z.eqb_refl. cbn [require rbind].
    eexists. split; reflexivity.
Qed.

Lemma LayerNorm_forward_shape (l : LayerNorm) (lead : list Z) (x : tensor R) :
  shape x = lead ++ [normalized_shape l] ->
  exists y, LayerNorm_forward l x = Ok y /\ shape y = shape x.
Proof.
  intros Hx. unfold LayerNorm_forward. rewrite Hx.
  destruct (lead ++ [normalized_shape l]) eqn:E.
  - destruct lead; discriminate.
  - rewrite <- E. rewrite last_last.
    rewrite Z.eqb_refl. cbn [require rbind].
    eexists. split; reflexivity.
Qed.

Lemma slice_first_shape {A} (axis : nat) (x : tensor A) :
  1 <= nth axis (shape x) 0 ->
  shape (slice_first axis x) = <[axis := 1]> (shape x).
Proof.
  intros H. unfold slice_first, slice_axis. cbn [shape].
  f_equal. lia.
Qed.

Lemma slice_rest_shape {A} (axis : nat) (x : tensor A) :
  1 <= nth axis (shape x) 0 ->
  shape (slice_rest axis x) = <[axis := nth axis (shape x) 0 - 1]> (shape x).
Proof.
  intros H. unfold slice_rest, slice_axis. cbn [shape].
  f_equal. lia.
Qed.

Lemma torch_cat_shape {A} (axis : nat) (t1 t2 : tensor A) :
  length (shape t1) = length (shape t2) ->
  (axis < length (shape t1))%nat ->
  take axis (shape t1) = take axis (shape t2) ->
  drop (S axis) (shape t1) = drop (S axis) (shape t2) ->
  exists y, torch_cat axis t1 t2 = Ok y /\
            shape y = <[axis := nth axis (shape t1) 0 + nth axis (shape t2) 0]> (shape t1).
Proof.
  intros H1 H2 H3 H4. unfold torch_cat.
  rewrite bool_decide_eq_true_2 by auto.
  cbn [require rbind]. eexists. split; reflexivity.
Qed.

Lemma merge_frames_shape {A} (b f h w d : Z) (x : tensor A) :
  shape x = [b; f; h; w; d] ->
  exists y, merge_frames x = Ok y /\ shape y = [b * f; h * w; d].
Proof. intros Hx. unfold merge_frames. rewrite Hx. eexists. split; reflexivity. Qed.

Lemma split_frames_shape {A} (b f h w d : Z) (x : tensor A) :
  b <> 0 -> shape x = [b * f; h * w; d] ->
  exists y, split_frames b h w x = Ok y /\ shape y = [b; f; h; w; d].
Proof.
  intros Hb Hx. unfold split_frames. rewrite Hx.
  rewrite (Z.mul_comm b f), einops_infer_mul by assumption.
  cbn [rbind]. rewrite Z.eqb_refl. cbn [require rbind].
  eexists. split; reflexivity.
Qed.

Lemma merge_positions_shape {A} (b f h w d : Z) (x : tensor A) :
  shape x = [b; f; h; w; d] ->
  exists y, merge_positions x = Ok y /\ shape y = [b * h * w; f; d].
Proof. intros Hx. unfold merge_positions. rewrite Hx. eexists. split; reflexivity. Qed.

Lemma split_positions_shape {A} (b f h w d : Z) (x : tensor A) :
  shape x = [b * h * w; f; d] ->
  exists y, split_positions b h w x = Ok y /\ shape y = [b; f; h; w; d].
Proof.
  intros Hx. unfold split_positions. rewrite Hx.
  rewrite Z.eqb_refl. cbn [require rbind].
  eexists. split; reflexivity.
Qed.

Lemma split_tokens_shape {A} (b f h w d : Z) (x : tensor A) :
  h * w <> 0 -> shape x = [b; f * (h * w); d] ->
  exists y, split_tokens h w x = Ok y /\ shape y = [b; f; h; w; d].
Proof.
  intros Hhw Hx. unfold split_tokens. rewrite Hx.
  rewrite einops_infer_mul by assumption. cbn [rbind].
  eexists. split; reflexivity.
Qed.

(** Chaining: a step that succeeds with a known shape. *)
Ltac step L :=
  let y := fresh "y" in
  let Hy := fresh "Hy" in
  let Hs := fresh "Hs" in
  edestruct L as (y & Hy & Hs); [..| rewrite Hy; cbn [rbind]].

Lemma encode_shape (self : CViViT) (b f h w d : Z) (x : tensor R) :
  b <> 0 -> patch_height_width self = Ok (h, w) ->
  shape x = [b; f; h; w; d] ->
  exists y, encode self x = Ok y /\ shape y = [b; f; h; w; d].
Proof.
  intros Hb Hp Hx. unfold encode. rewrite Hx, Hp. cbn [rbind].
  edestruct (merge_frames_shape b f h w d x) as (y1 & E1 & S1); [exact Hx |].
  rewrite E1. cbn [rbind].
  edestruct (split_frames_shape b f h w d
    (Transformer_forward (enc_spatial_transformer self) y1
       (Some (position_bias_fn (spatial_rel_pos_bias self) h w))
       (removelast [b; f; h; w; d]))) as (y2 & E2 & S2); [exact Hb | exact S1 |].
  rewrite E2. cbn [rbind].
  edestruct (merge_positions_shape b f h w d y2) as (y3 & E3 & S3); [exact S2 |].
  rewrite E3. cbn [rbind].
  apply split_positions_shape. exact S3.
Qed.


Lemma CViViT_init_initialised a w self :
  CViViT_init a w = Ok self -> initialised a w self.
Proof.
  intros H. pose proof H as H0. unfold CViViT_init in H.
  destruct (arg_patch_size a) as [ph pw] eqn:Ep, (arg_image_size a) as [ih iw] eqn:Ei.
  unfold py_mod in H.
  destruct (Z.eqb_spec ph 0); [discriminate |].
  cbn [rbind] in H.
  destruct (Z.eqb_spec (ih mod ph) 0); [| discriminate].
  destruct (Z.eqb_spec pw 0); [discriminate |].
  cbn [rbind] in H.
  destruct (Z.eqb_spec (iw mod pw) 0); [| discriminate].
  split; rewrite ?Ep, ?Ei; cbn [fst snd]; assumption.
Qed.

Ltac shape_eq :=
  cbn [app normalized_shape in_features out_features];
  repeat (apply (f_equal2 (@cons Z)); [ring |]); reflexivity.

(** The attributes of an initialised module. *)
Ltac init_fields H :=
  let H' := fresh in
  pose proof (init_self _ _ _ H) as H';
  pose proof (init_patch_height _ _ _ H);
  pose proof (init_patch_width _ _ _ H);
  pose proof (init_height _ _ _ H);
  pose proof (init_width _ _ _ H);
  unfold CViViT_init in H';
  destruct (arg_patch_size _) as [?ph ?pw], (arg_image_size _) as [?ih ?iw];
  cbn [fst snd] in *;
  unfold py_mod in H';
  repeat match type of H' with
         | context [?x =? 0] => destruct (Z.eqb_spec x 0); try lia; cbn [rbind py_assert] in H'
         end;
  injection H' as <-.

Lemma init_patch_height_width a w self :
  initialised a w self ->
  patch_height_width self =
    Ok (fst (arg_image_size a) / fst (arg_patch_size a),
        snd (arg_image_size a) / snd (arg_patch_size a)).
Proof.
  intros H. init_fields H.
  unfold patch_height_width, py_floordiv. cbn [image_size patch_size fst snd].
  destruct (Z.eqb_spec ph 0); [contradiction |].
  destruct (Z.eqb_spec pw 0); [contradiction |]. reflexivity.
Qed.

Lemma init_to_patch_emb_first_frame a w self b h wd (x : tensor R) :
  initialised a w self ->
  shape x = [b; arg_channels a; 1; h * fst (arg_patch_size a); wd * snd (arg_patch_size a)] ->
  exists y, Sequential_forward (to_patch_emb_first_frame self) x = Ok y /\
            shape y = [b; 1; h; wd; arg_dim a].
Proof.
  intros H Hx. init_fields H.
  cbn [to_patch_emb_first_frame Sequential_forward fold_left rbind].
  step (patches_of_first_frame_shape ph pw b (arg_channels a) h wd x); eauto.
  step (LayerNorm_forward_shape
          {| normalized_shape := arg_channels a * pw * ph; layer_norm_fn := w_first_norm_in w |}
          [b; 1; h; wd] y).
  { rewrite Hs. shape_eq. }
  rewrite Hs in Hs0.
  step (Linear_forward_shape
          {| in_features := arg_channels a * pw * ph; out_features := arg_dim a;
             linear_fn := w_first_proj w |} [b; 1; h; wd] y0).
  { rewrite Hs0. shape_eq. }
  step (LayerNorm_forward_shape
          {| normalized_shape := arg_dim a; layer_norm_fn := w_first_norm_out w |}
          [b; 1; h; wd] y1).
  { exact Hs1. }
  eexists. split; [reflexivity |]. rewrite Hs2. exact Hs1.
Qed.

Lemma init_to_patch_emb a w self b f h wd (x : tensor R) :
  initialised a w self -> arg_temporal_patch_size a <> 0 ->
  shape x = [b; arg_channels a; f * arg_temporal_patch_size a;
             h * fst (arg_patch_size a); wd * snd (arg_patch_size a)] ->
  exists y, Sequential_forward (to_patch_emb self) x = Ok y /\
            shape y = [b; f; h; wd; arg_dim a].
Proof.
  intros H Hpt Hx. init_fields H.
  cbn [to_patch_emb Sequential_forward fold_left rbind].
  step (patches_of_frames_shape ph pw (arg_temporal_patch_size a) b (arg_channels a) f h wd x);
    eauto.
  step (LayerNorm_forward_shape
          {| normalized_shape := arg_channels a * pw * ph * arg_temporal_patch_size a;
             layer_norm_fn := w_rest_norm_in w |} [b; f; h; wd] y).
  { rewrite Hs. shape_eq. }
  rewrite Hs in Hs0.
  step (Linear_forward_shape
          {| in_features := arg_channels a * pw * ph * arg_temporal_patch_size a;
             out_features := arg_dim a; linear_fn := w_rest_proj w |} [b; f; h; wd] y0).
  { rewrite Hs0. shape_eq. }
  step (LayerNorm_forward_shape
          {| normalized_shape := arg_dim a; layer_norm_fn := w_rest_norm_out w |}
          [b; f; h; wd] y1).
  { exact Hs1. }
  eexists. split; [reflexivity |]. rewrite Hs2. exact Hs1.
Qed.

Lemma init_to_pixels_first_frame a w self b h wd (x : tensor R) :
  initialised a w self ->
  shape x = [b; 1; h; wd; arg_dim a] ->
  exists y, Sequential_forward (to_pixels_first_frame self) x = Ok y /\
            shape y = [b; arg_channels a; 1; h * fst (arg_patch_size a);
                       wd * snd (arg_patch_size a)].
Proof.
  intros H Hx. init_fields H.
  cbn [to_pixels_first_frame Sequential_forward fold_left rbind].
  step (Linear_forward_shape
          {| in_features := arg_dim a; out_features := arg_channels a * pw * ph;
             linear_fn := w_pixels_first w |} [b; 1; h; wd] x).
  { exact Hx. }
  apply first_frame_of_patches_shape; auto.
Qed.

Lemma init_to_pixels a w self b f h wd (x : tensor R) :
  initialised a w self -> arg_temporal_patch_size a <> 0 ->
  shape x = [b; f; h; wd; arg_dim a] ->
  exists y, Sequential_forward (to_pixels self) x = Ok y /\
            shape y = [b; arg_channels a; f * arg_temporal_patch_size a;
                       h * fst (arg_patch_size a); wd * snd (arg_patch_size a)].
Proof.
  intros H Hpt Hx. init_fields H.
  cbn [to_pixels Sequential_forward fold_left rbind].
  step (Linear_forward_shape
          {| in_features := arg_dim a;
             out_features := arg_channels a * pw * ph * arg_temporal_patch_size a;
             linear_fn := w_pixels_rest w |} [b; f; h; wd] x).
  { exact Hx. }
  apply frames_of_patches_shape; auto.
Qed.

Lemma init_temporal_patch_size a w self :
  initialised a w self -> temporal_patch_size self = arg_temporal_patch_size a.
Proof. intros H. init_fields H. reflexivity. Qed.

Lemma init_image_size a w self :
  initialised a w self -> image_size self = arg_image_size a.
Proof. intros H. init_fields H. reflexivity. Qed.

Lemma init_patch_size a w self :
  initialised a w self -> patch_size self = arg_patch_size a.
Proof. intros H. init_fields H. reflexivity. Qed.

Lemma decode_shape a w self (b f : Z) (x : tensor R) :
  initialised a w self -> arg_temporal_patch_size a <> 0 ->
  b <> 0 -> 0 <= f ->
  shape x = [b; 1 + f; fst (arg_image_size a) / fst (arg_patch_size a);
             snd (arg_image_size a) / snd (arg_patch_size a); arg_dim a] ->
  exists y, decode self x = Ok y /\
            shape y = [b; arg_channels a; 1 + f * arg_temporal_patch_size a;
                       fst (arg_image_size a); snd (arg_image_size a)].
Proof.
  intros Hi Hpt Hb Hf Hx.
  set (h := fst (arg_image_size a) / fst (arg_patch_size a)) in *.
  set (wd := snd (arg_image_size a) / snd (arg_patch_size a)) in *.
  unfold decode. rewrite Hx.
  rewrite (init_patch_height_width a w self Hi). fold h wd. cbn [rbind].
  replace (ndim x =? 3) with false by (unfold ndim; rewrite Hx; reflexivity).
  cbn [rbind]. rewrite Hx.
  step (merge_positions_shape b (1 + f) h wd (arg_dim a) x); [exact Hx |].
  step (split_positions_shape b (1 + f) h wd (arg_dim a)
          (Transformer_forward (dec_temporal_transformer self) y None
             (removelast [b; 1 + f; h; wd; arg_dim a]))); [exact Hs |].
  step (merge_frames_shape b (1 + f) h wd (arg_dim a) y0); [exact Hs0 |].
  step (split_frames_shape b (1 + f) h wd (arg_dim a)
          (Transformer_forward (dec_spatial_transformer self) y1
             (Some (position_bias_fn (spatial_rel_pos_bias self) h wd))
             (removelast [b; 1 + f; h; wd; arg_dim a]))); [exact Hb | exact Hs1 |].
  assert (Hn : 1 <= nth 1 (shape y2) 0) by (rewrite Hs2; cbn; lia).
  step (init_to_pixels_first_frame a w self b h wd (slice_first 1 y2)); [exact Hi | |].
  { rewrite slice_first_shape by exact Hn. rewrite Hs2. reflexivity. }
  step (init_to_pixels a w self b f h wd (slice_rest 1 y2)); [exact Hi | exact Hpt | |].
  { rewrite slice_rest_shape by exact Hn. rewrite Hs2. cbn.
    repeat (apply (f_equal2 (@cons Z)); [ring |]); reflexivity. }
  edestruct (torch_cat_shape 2 y3 y4) as (y5 & E5 & S5).
  1-4: rewrite ?Hs3, ?Hs4; cbn; try reflexivity; lia.
  exists y5. split; [exact E5 |].
  rewrite S5, Hs3, Hs4. cbn.
  pose proof (init_height _ _ _ Hi) as Hh. pose proof (init_width _ _ _ Hi) as Hw.
  pose proof (init_patch_height _ _ _ Hi). pose proof (init_patch_width _ _ _ Hi).
  apply Z.div_exact in Hh; [| assumption]. apply Z.div_exact in Hw; [| assumption].
  fold h in Hh. fold wd in Hw.
  repeat (apply (f_equal2 (@cons Z)); [lia |]); reflexivity.
Qed.



Lemma forward_quantize_ok a w self (video : tensor R) (b t : Z) mask :
  initialised a w self ->
  valid_input a video b t ->
  mask_accepted self video (1 + t * arg_temporal_patch_size a) mask ->
  exists q,
    forward_quantize self video mask = Ok q /\
    q_is_image q = (ndim video =? 4) /\
    shape (q_video q) = [b; arg_channels a; 1 + t * arg_temporal_patch_size a;
                         fst (arg_image_size a); snd (arg_image_size a)] /\
    data (q_video q) = data video /\
    q_c q = arg_channels a /\
    q_h q = fst (arg_image_size a) / fst (arg_patch_size a) /\
    q_w q = snd (arg_image_size a) / snd (arg_patch_size a) /\
    q_packed_fhw_shape q = [1 + t; q_h q; q_w q] /\
    shape (q_tokens q) = [b; prodZ [1 + t; q_h q; q_w q]; arg_dim a] /\
    shape (q_indices q) = [b; prodZ [1 + t; q_h q; q_w q]].
Proof.
  intros Hi (Hpt & HH & HW & Hb & Ht & Hv) Hm.
  pose proof (init_height _ _ _ Hi) as Hh. pose proof (init_width _ _ _ Hi) as Hw.
  pose proof (init_patch_height _ _ _ Hi) as Hph.
  pose proof (init_patch_width _ _ _ Hi) as Hpw.
  apply Z.div_exact in Hh; [| assumption]. apply Z.div_exact in Hw; [| assumption].
  set (pt := arg_temporal_patch_size a) in *.
  set (c := arg_channels a) in *.
  set (h := fst (arg_image_size a) / fst (arg_patch_size a)) in *.
  set (wd := snd (arg_image_size a) / snd (arg_patch_size a)) in *.
  assert (Himg : ((ndim video =? 4) = true /\
                  shape video = [b; c; fst (arg_image_size a); snd (arg_image_size a)] /\
                  t = 0) \/
                 ((ndim video =? 4) = false /\
                  shape video = [b; c; 1 + t * pt; fst (arg_image_size a);
                                 snd (arg_image_size a)])).
  { unfold ndim. destruct Hv as [[Hv ->] | Hv]; rewrite Hv; [left | right]; auto. }
  clear Hv.
  set (video5 := if ndim video =? 4
                 then mkTensor [b; c; 1; fst (arg_image_size a); snd (arg_image_size a)]
                               (data video)
                 else video).
  assert (Hs5 : shape video5 = [b; c; 1 + t * pt; fst (arg_image_size a); snd (arg_image_size a)]).
  { unfold video5. destruct Himg as [(E & Hv & ->) | (E & Hv)]; rewrite E;
      [reflexivity | exact Hv]. }
  assert (Hd5 : data video5 = data video).
  { unfold video5. destruct (ndim video =? 4); reflexivity. }
  assert (Hnd : bool_decide (ndim video = 4 \/ ndim video = 5) = true).
  { apply bool_decide_eq_true_2. unfold ndim.
    destruct Himg as [(_ & Hv & _) | (_ & Hv)]; rewrite Hv; cbn; auto. }
  assert (Hmask5 : forall m, mask = Some m ->
            (ndim video =? 4) = false /\ video5 = video /\ shape m <> [] /\
            List.last (shape m) 0 = 1 + t * pt /\
            exists vm, calculate_video_token_mask self video m = Ok vm).
  { intros m ->. destruct Hm as (H5 & Hne & Hl & Hvm).
    assert (E : (ndim video =? 4) = false) by (rewrite H5; reflexivity).
    unfold video5. rewrite E. auto. }
  assert (Hpromote :
    (if ndim video =? 4
     then do v <- add_time_axis video; do _ <- py_assert (negb (exists_ mask)); Ok v
     else Ok video) = Ok video5).
  { unfold video5, add_time_axis.
    destruct Himg as [(E & Hv & _) | (E & Hv)]; rewrite E; [rewrite Hv | reflexivity].
    destruct mask as [m |]; [| reflexivity].
    destruct (Hmask5 m eq_refl) as (E' & _). congruence. }
  (* patch embedding *)
  assert (Hn : 1 <= nth 2 (shape video5) 0) by (rewrite Hs5; cbn; nia).
  edestruct (init_to_patch_emb_first_frame a w self b h wd (slice_first 2 video5))
    as (ff & Eff & Sff); [exact Hi | |].
  { rewrite slice_first_shape by exact Hn. rewrite Hs5. cbn. fold c.
    repeat (apply (f_equal2 (@cons Z)); [lia |]); reflexivity. }
  edestruct (init_to_patch_emb a w self b t h wd (slice_rest 2 video5))
    as (rf & Erf & Srf); [exact Hi | fold pt; lia | |].
  { rewrite slice_rest_shape by exact Hn. rewrite Hs5. cbn. fold c pt.
    repeat (apply (f_equal2 (@cons Z)); [lia |]); reflexivity. }
  edestruct (torch_cat_shape 1 ff rf) as (tk & Etk & Stk).
  1-4: rewrite ?Sff, ?Srf; cbn; try reflexivity; lia.
  rewrite Sff, Srf in Stk. cbn in Stk.
  (* encoder and quantizer *)
  edestruct (encode_shape self b (1 + t) h wd (arg_dim a) tk) as (en & Een & Sen);
    [lia | exact (init_patch_height_width a w self Hi) | exact Stk |].
  set (packed := mkTensor [b; prodZ [1 + t; h; wd]; arg_dim a] (data en)).
  assert (Epack : pack_b_star_d en = Ok (packed, [1 + t; h; wd])).
  { unfold pack_b_star_d. rewrite Sen. reflexivity. }
  assert (Evm : exists vq_mask,
            match mask with
            | Some m => do vm <- calculate_video_token_mask self video5 m; Ok (Some vm)
            | None => Ok None
            end = Ok vq_mask).
  { destruct mask as [m |]; [| eexists; reflexivity].
    destruct (Hmask5 m eq_refl) as (_ & -> & _ & _ & vm & ->). eexists; reflexivity. }
  destruct Evm as (vq_mask & Evm).
  destruct (vq_fn (vq self) packed vq_mask) as [[quantized indices] commit_loss] eqn:Evq.
  eexists. split.
  { unfold forward_quantize.
    rewrite Hnd. cbn [py_assert rbind].
    rewrite Hpromote. cbn [rbind]. rewrite Hs5.
    replace (bool_decide ((fst (arg_image_size a), snd (arg_image_size a)) = image_size self))
      with true.
    2:{ symmetry. apply bool_decide_eq_true_2.
        rewrite (init_image_size a w self Hi). destruct (arg_image_size a); reflexivity. }
    cbn [py_assert rbind].
    assert (Hlast : match mask with
                    | Some m => match shape m with
                                | [] => Raise IndexError
                                | z :: l => py_assert (List.last (z :: l) 0 =? 1 + t * pt)
                                end
                    | None => Ok tt
                    end = Ok tt).
    { destruct mask as [m |]; [| reflexivity].
      destruct (Hmask5 m eq_refl) as (_ & _ & Hne & Hl & _).
      destruct (shape m); [contradiction |]. rewrite Hl, Z.eqb_refl. reflexivity. }
    rewrite Hlast.
    cbn [rbind].
    rewrite (init_temporal_patch_size a w self Hi). fold pt.
    unfold divisible_by, py_mod.
    destruct (Z.eqb_spec pt 0); [lia |]. cbn [rbind].
    replace (1 + t * pt - 1) with (t * pt) by lia.
    rewrite Z.mod_mul by assumption. cbn [Z.eqb py_assert rbind].
    rewrite Eff. cbn [rbind]. rewrite Erf. cbn [rbind]. rewrite Etk. cbn [rbind].
    rewrite Stk. rewrite Een. cbn [rbind]. rewrite Epack. cbn [rbind].
    rewrite Evm. cbn [rbind].
    unfold VectorQuantize_forward. rewrite Evq. reflexivity. }
  cbn [q_is_image q_video q_c q_h q_w q_packed_fhw_shape q_tokens q_indices shape].
  repeat split; try reflexivity; assumption.
Qed.

Lemma forward_reconstruct_ok a w self (video : tensor R) (b t : Z) (q : quantized) :
  initialised a w self ->
  valid_input a video b t ->
  q_is_image q = (ndim video =? 4) ->
  q_h q = fst (arg_image_size a) / fst (arg_patch_size a) ->
  q_w q = snd (arg_image_size a) / snd (arg_patch_size a) ->
  shape (q_tokens q) = [b; prodZ [1 + t; q_h q; q_w q]; arg_dim a] ->
  exists recon_video returned_recon,
    forward_reconstruct self q = Ok (recon_video, returned_recon) /\
    shape recon_video = [b; arg_channels a; 1 + t * arg_temporal_patch_size a;
                         fst (arg_image_size a); snd (arg_image_size a)] /\
    shape returned_recon = shape video /\
    data returned_recon = data recon_video.
Proof.
  intros Hi (Hpt & HH & HW & Hb & Ht & Hv) Himg Hqh Hqw Hst.
  pose proof (init_height _ _ _ Hi) as Hh. pose proof (init_width _ _ _ Hi) as Hw.
  pose proof (init_patch_height _ _ _ Hi) as Hph.
  pose proof (init_patch_width _ _ _ Hi) as Hpw.
  apply Z.div_exact in Hh; [| assumption]. apply Z.div_exact in Hw; [| assumption].
  rewrite Hqh, Hqw in Hst.
  set (h := fst (arg_image_size a) / fst (arg_patch_size a)) in *.
  set (wd := snd (arg_image_size a) / snd (arg_patch_size a)) in *.
  assert (Hhw : h * wd <> 0) by nia.
  unfold forward_reconstruct. rewrite Hqh, Hqw, Himg.
  edestruct (split_tokens_shape b (1 + t) h wd (arg_dim a) (q_tokens q)) as (st & Est & Sst);
    [exact Hhw | rewrite Hst; cbn; repeat (apply (f_equal2 (@cons Z)); [ring |]); reflexivity |].
  rewrite Est. cbn [rbind].
  edestruct (decode_shape a w self b t st) as (rv & Erv & Srv);
    [exact Hi | lia | lia | exact Ht | exact Sst |].
  rewrite Erv. cbn [rbind].
  destruct Hv as [[Hv ->] | Hv].
  - replace (ndim video =? 4) with true by (unfold ndim; rewrite Hv; reflexivity).
    unfold drop_time_axis. rewrite Srv. cbn [Z.mul Z.add Z.eqb Pos.eqb require rbind].
    eexists _, _. split; [reflexivity |]. cbn [shape data]. rewrite Hv. auto.
  - replace (ndim video =? 4) with false by (unfold ndim; rewrite Hv; reflexivity).
    cbn [rbind]. eexists _, _. split; [reflexivity |]. rewrite Hv. auto.
Qed.

(** ** Arithmetic of Python integers *)

Lemma round_half_even_exact (k d : Z) :
  0 < d -> round_half_even (k * d) d = k.
Proof.
  intros Hd. unfold round_half_even.
  rewrite Z.mod_mul by lia. rewrite Z.div_mul by lia.
  destruct (Z.ltb_spec (2 * 0) d); [reflexivity | lia].
Qed.

(** Below [2^53] the binary64 quotient of an exact division is exact. *)
Lemma int_of_float_quotient_exact (k b : Z) :
  0 < b -> 0 < k < 2 ^ 53 ->
  int_of_float_quotient (k * b) b = Some k.
Proof.
  intros Hb [Hk0 Hk].
  assert (Ha : 0 < k * b) by nia.
  unfold int_of_float_quotient.
  set (d := Z.log2 (k * b) - Z.log2 b).
  assert (Hd0 : 0 <= d).
  { unfold d. assert (Z.log2 b <= Z.log2 (k * b)) by (apply Z.log2_le_mono; nia). lia. }
  assert (Hd53 : d <= 53).
  { unfold d.
    assert (Hlb : b < 2 ^ (Z.log2 b + 1)).
    { pose proof (Z.log2_spec b Hb) as Hs. rewrite <- Z.add_1_r in Hs. lia. }
    assert (Hlt : k * b < 2 ^ (Z.log2 b + 54)).
    { replace (Z.log2 b + 54) with (53 + (Z.log2 b + 1)) by lia.
      rewrite Z.pow_add_r by (pose proof (Z.log2_nonneg b); lia).
      nia. }
    apply Z.log2_lt_pow2 in Hlt; lia. }
  set (e := if k * b * 2 ^ Z.max 0 (- d) <? b * 2 ^ Z.max 0 d then d - 1 else d).
  assert (He : 0 <= e <= 52).
  { unfold e. rewrite (Z.max_l 0 (- d)) by lia. rewrite (Z.max_r 0 d) by lia.
    rewrite Z.pow_0_r, Z.mul_1_r.
    destruct (Z.ltb_spec (k * b) (b * 2 ^ d)) as [Hlt | Hge].
    - assert (d <> 0) by (intros ->; rewrite Z.pow_0_r in Hlt; nia). lia.
    - assert (d <> 53); [| lia].
      intros ->. nia. }
  cbv zeta.
  set (s := e - 52).
  assert (Hs : -52 <= s <= 0) by (unfold s; lia).
  rewrite (Z.max_l 0 s) by lia. rewrite (Z.max_r 0 (- s)) by lia.
  rewrite Z.pow_0_r, Z.mul_1_r.
  assert (Hp : 0 < 2 ^ (- s)) by (apply Z.pow_pos_nonneg; lia).
  replace (k * b * 2 ^ (- s)) with (k * 2 ^ (- s) * b) by ring.
  rewrite round_half_even_exact by lia.
  assert (Ht : (if 0 <=? s then k * 2 ^ (- s) * 2 ^ s else k * 2 ^ (- s) / 2 ^ (- s)) = k).
  { destruct (Z.leb_spec 0 s).
    - assert (s = 0) by lia. subst s. replace (e - 52) with 0 by lia.
      simpl. lia.
    - apply Z.div_mul. lia. }
  rewrite Ht.
  destruct (Z.leb_spec (2 ^ 1024) k) as [Hbig | _]; [| reflexivity].
  assert (2 ^ 53 < 2 ^ 1024) by (apply Z.pow_lt_mono_r; lia). lia.
Qed.

Lemma py_int_truediv_exact (k b : Z) :
  0 < b -> 0 <= k < 2 ^ 53 ->
  py_int_truediv (k * b) b = Ok k.
Proof.
  intros Hb [Hk0 Hk]. unfold py_int_truediv.
  destruct (Z.eqb_spec b 0) as [-> | _]; [lia |].
  destruct (Z.eqb_spec (k * b) 0) as [H0 | Hn0].
  - f_equal. nia.
  - assert (0 < k) by nia.
    rewrite (Z.abs_eq (k * b)) by nia. rewrite (Z.abs_eq b) by lia.
    rewrite int_of_float_quotient_exact by lia.
    rewrite (Z.sgn_pos (k * b)) by nia. rewrite (Z.sgn_pos b) by lia.
    f_equal. lia.
Qed.


Lemma image_num_tokens_ok a w self :
  initialised a w self -> sensible_geometry a ->
  image_num_tokens self =
    Ok (fst (arg_image_size a) / fst (arg_patch_size a) *
        (snd (arg_image_size a) / snd (arg_patch_size a))) /\
  0 < fst (arg_image_size a) / fst (arg_patch_size a) *
      (snd (arg_image_size a) / snd (arg_patch_size a)).
Proof.
  intros Hi (Hph & Hpw & HH & HW & _).
  pose proof (init_height _ _ _ Hi) as Hh. pose proof (init_width _ _ _ Hi) as Hw.
  apply Z.div_exact in Hh; [| lia]. apply Z.div_exact in Hw; [| lia].
  set (h := fst (arg_image_size a) / fst (arg_patch_size a)) in *.
  set (wd := snd (arg_image_size a) / snd (arg_patch_size a)) in *.
  assert (0 < h < 2 ^ 53) by nia. assert (0 < wd < 2 ^ 53) by nia.
  split; [| nia].
  unfold image_num_tokens.
  rewrite (init_image_size a w self Hi), (init_patch_size a w self Hi).
  rewrite Hh at 1. rewrite (Z.mul_comm _ h), py_int_truediv_exact by lia.
  cbn [rbind].
  rewrite Hw at 1. rewrite (Z.mul_comm _ wd), py_int_truediv_exact by lia.
  reflexivity.
Qed.


(** ** Lists, sums and masks *)


Lemma map_const_replicate {A B} (f : A -> B) (c : B) (l : list A) :
  (forall x, In x l -> f x = c) -> map f l = replicate (length l) c.
Proof.
  induction l as [| x l IH]; intros H; [reflexivity |].
  cbn. rewrite H by (left; reflexivity). f_equal. apply IH.
  intros y Hy. apply H. right. exact Hy.
Qed.

Lemma concat_replicate_replicate {A} (k n : nat) (v : A) :
  concat (replicate k (replicate n v)) = replicate (k * n) v.
Proof.
  induction k as [| k IH]; [reflexivity |].
  cbn [replicate concat]. rewrite IH. rewrite <- replicate_add. reflexivity.
Qed.

Lemma rows_length {A} (n count : Z) (d : list A) :
  length (rows n count d) = Z.to_nat count.
Proof. unfold rows. rewrite length_map. apply length_seqZ. Qed.

Lemma concat_rows {A} (n : Z) (k : nat) (d : list A) :
  0 <= n -> concat (rows n (Z.of_nat k) d) = take (Z.to_nat n * k) d.
Proof.
  intros Hn. unfold rows. induction k as [| k IH].
  - rewrite Nat.mul_0_r. reflexivity.
  - rewrite seqZ_S, map_app, concat_app, IH. cbn [map concat].
    rewrite app_nil_r.
    replace (Z.to_nat ((0 + Z.of_nat k) * n)) with (Z.to_nat n * k)%nat by nia.
    rewrite take_take_drop. f_equal. lia.
Qed.

Lemma rows_replicate {A} (n : Z) (k : nat) (v : A) :
  0 <= n ->
  rows n (Z.of_nat k) (replicate (Z.to_nat n * k) v) = replicate k (replicate (Z.to_nat n) v).
Proof.
  intros Hn. unfold rows.
  rewrite (map_const_replicate _ (replicate (Z.to_nat n) v)).
  - rewrite length_seqZ, Nat2Z.id. reflexivity.
  - intros i Hi. apply list_elem_of_In, elem_of_seqZ in Hi.
    rewrite drop_replicate, take_replicate. f_equal. nia.
Qed.

Lemma flat_map_replicate {A B} (g : A -> list B) (k : nat) (x : A) :
  flat_map g (replicate k x) = concat (replicate k (g x)).
Proof. induction k as [| k IH]; [reflexivity |]. cbn. rewrite IH. reflexivity. Qed.

(** The index [repeat(mask, 'b t -> b c t')] of a constant mask is constant. *)
Lemma repeat_over_channels_full (v : bool) (b c f : Z) :
  0 <= b -> 0 <= c -> 0 <= f ->
  repeat_over_channels c (full_mask v b f) =
    Ok (mkTensor [b; c; f] (replicate (Z.to_nat (b * c * f)) v)).
Proof.
  intros Hb Hc Hf. unfold repeat_over_channels, full_mask. cbn [shape data].
  do 2 f_equal.
  rewrite <- (Z2Nat.id b) at 1 by exact Hb.
  replace (Z.to_nat (b * f)) with (Z.to_nat f * Z.to_nat b)%nat by nia.
  rewrite rows_replicate by exact Hf.
  rewrite flat_map_replicate, !concat_replicate_replicate. f_equal. nia.
Qed.

Lemma filter_zip_false {A} (n : nat) (l : list A) :
  filter (fun p : bool * A => fst p = true) (zip (replicate n false) l) = [].
Proof.
  revert l. induction n as [| n IH]; intros [| x l]; try reflexivity.
  cbn [replicate zip zip_with]. rewrite filter_cons_False by (cbn; discriminate).
  apply IH.
Qed.

Lemma filter_zip_true {A} (n : nat) (l : list A) :
  map snd (filter (fun p : bool * A => fst p = true) (zip (replicate n true) l)) = take n l.
Proof.
  revert l. induction n as [| n IH]; intros [| x l]; try reflexivity.
  cbn [replicate zip zip_with]. rewrite filter_cons_True by reflexivity.
  cbn [map snd take]. f_equal. apply IH.
Qed.

Lemma boolean_index_full_false {A} (t : tensor A) (b c f : Z) (rest : list Z) :
  shape t = b :: c :: f :: rest ->
  exists y, boolean_index t (mkTensor [b; c; f] (replicate (Z.to_nat (b * c * f)) false))
              = Ok y /\ data y = [].
Proof.
  intros Ht. unfold boolean_index. cbn [shape data length].
  rewrite Ht. cbn [take]. rewrite bool_decide_eq_true_2 by reflexivity.
  cbn [require rbind]. eexists. split; [reflexivity |].
  cbn [data]. rewrite filter_zip_false. reflexivity.
Qed.

Lemma boolean_index_full_true {A} (t : tensor A) (b c f : Z) (rest : list Z) :
  0 <= b -> 0 <= c -> 0 <= f -> 0 <= prodZ rest ->
  shape t = b :: c :: f :: rest ->
  length (data t) = Z.to_nat (b * c * f * prodZ rest) ->
  exists y, boolean_index t (mkTensor [b; c; f] (replicate (Z.to_nat (b * c * f)) true))
              = Ok y /\ data y = data t.
Proof.
  intros Hb Hc Hf Hr Ht Hl. unfold boolean_index. cbn [shape data length].
  rewrite Ht. cbn [take drop]. rewrite bool_decide_eq_true_2 by reflexivity.
  cbn [require rbind]. eexists. split; [reflexivity |].
  cbn [data]. rewrite filter_zip_true.
  rewrite take_ge.
  2:{ rewrite rows_length. cbn [prodZ fold_right].
      replace (b * (c * (f * 1))) with (b * c * f) by ring. lia. }
  replace (prodZ [b; c; f]) with (Z.of_nat (Z.to_nat (b * c * f))).
  2:{ cbn [prodZ fold_right]. rewrite Z2Nat.id by nia. ring. }
  rewrite concat_rows by exact Hr.
  assert (Hbcf : 0 <= b * c * f) by (repeat apply Z.mul_nonneg_nonneg; assumption).
  apply take_ge. rewrite Hl, <- Z2Nat.inj_mul by assumption.
  apply Nat.eq_le_incl. apply (f_equal Z.to_nat). rewrite drop_0. ring.
Qed.

Lemma Rsum_cons (x : R) (l : list R) : Rsum (x :: l) = (x + Rsum l)%R.
Proof. reflexivity. Qed.

Lemma Rsum_nonneg (l : list R) :
  (forall x, In x l -> (0 <= x)%R) -> (0 <= Rsum l)%R.
Proof.
  induction l as [| x l IH]; intros H; [cbn; lra |].
  rewrite Rsum_cons.
  assert (0 <= x)%R by (apply H; left; reflexivity).
  assert (0 <= Rsum l)%R by (apply IH; intros y Hy; apply H; right; exact Hy).
  lra.
Qed.

Lemma Rsum_zero_iff (l : list R) :
  (forall x, In x l -> (0 <= x)%R) ->
  Rsum l = 0%R <-> (forall x, In x l -> x = 0%R).
Proof.
  induction l as [| x l IH]; intros H.
  - split; [intros _ y [] | reflexivity].
  - rewrite Rsum_cons.
    assert (Hx : (0 <= x)%R) by (apply H; left; reflexivity).
    assert (Hl : forall y, In y l -> (0 <= y)%R) by (intros y Hy; apply H; right; exact Hy).
    pose proof (Rsum_nonneg l Hl) as Hs. specialize (IH Hl).
    split.
    + intros E y [<- | Hy]; [lra |]. apply IH; [lra | exact Hy].
    + intros E. assert (x = 0%R) by (apply E; left; reflexivity).
      assert (Rsum l = 0%R) by (apply IH; intros y Hy; apply E; right; exact Hy).
      lra.
Qed.

Lemma square_zero_iff (x : R) : ((x - 1) * (x - 1) = 0 <-> x = 1)%R.
Proof.
  split; [| intros ->; lra].
  intros H. apply Rmult_integral in H. lra.
Qed.


(** ** Branches of [forward] *)

Lemma frames_to_batch_shape {A} (b c f h w : Z) (x : tensor A) :
  shape x = [b; c; f; h; w] ->
  exists y, frames_to_batch x = Ok y /\ shape y = [b * f; c; h; w].
Proof. intros Hx. unfold frames_to_batch. rewrite Hx. eexists. split; reflexivity. Qed.

Lemma reconstruction_loss_unmasked (video recon_video : tensor R) (c : Z) :
  shape recon_video = shape video ->
  reconstruction_loss video recon_video None c =
    Ok (mean (zip_with sqdiff (data video) (data recon_video))).
Proof.
  intros Hs. unfold reconstruction_loss, mse_loss, mse_loss_none.
  rewrite bool_decide_eq_true_2 by auto. reflexivity.
Qed.

Lemma i3d_inference_ok (m : InceptionI3d) :
  feature_vectors m ->
  exists k, forall (x : tensor R) (b c f h w : Z),
    shape x = [b; c; f; h; w] ->
    exists y, i3d_inference x m = Ok y /\ shape y = [b; k].
Proof.
  intros [k Hk]. exists k. intros x b c f h w Hx.
  destruct (Hk x b c f h w Hx) as (ones & Hs & Hp).
  unfold i3d_inference. rewrite Hx, Hs.
  replace (prodZ (b :: k :: ones) =? b * k) with true.
  - eexists. split; reflexivity.
  - symmetry. apply Z.eqb_eq. cbn [prodZ fold_right]. fold (prodZ ones). rewrite Hp. ring.
Qed.

Lemma i3d_video_perceptual_loss_ok (self : CViViT) (m : InceptionI3d)
  (video recon_video : tensor R) (b c f h w : Z) :
  i3d self = Some m ->
  shape video = [b; c; f; h; w] -> shape recon_video = [b; c; f; h; w] ->
  (1 < f -> feature_vectors m) ->
  exists l, i3d_video_perceptual_loss_of self video recon_video = Ok l /\
            (f = 1 -> l = Num 0).
Proof.
  intros Hm Sv Srv Hfv. unfold i3d_video_perceptual_loss_of. rewrite Sv. cbn [nth].
  destruct (Z.ltb_spec 1 f) as [Hlt | Hge].
  - rewrite Hm. cbn [getattr rbind].
    destruct (i3d_inference_ok m (Hfv Hlt)) as (k & Hk).
    destruct (Hk video b c f h w Sv) as (fv & -> & Sfv).
    destruct (Hk recon_video b c f h w Srv) as (fr & -> & Sfr).
    cbn [rbind]. unfold mse_loss, mse_loss_none. rewrite Sfv, Sfr.
    rewrite bool_decide_eq_true_2 by reflexivity. cbn [require rbind].
    eexists. split; [reflexivity |]. lia.
  - eexists. split; [reflexivity | reflexivity].
Qed.

Lemma init_attributes a w self :
  initialised a w self ->
  use_vgg_and_gan self = arg_use_vgg_and_gan a /\
  use_discr self = arg_use_discr a /\
  wandb_mode_disabled self = arg_wandb_mode_disabled a /\
  vgg self = None /\
  discr self = (if arg_use_vgg_and_gan a && arg_use_discr a then Some (w_discr w) else None) /\
  loss_fn_lpips self = (if arg_use_vgg_and_gan a then Some (w_lpips w) else None) /\
  i3d self = (if arg_use_vgg_and_gan a then Some (w_i3d w) else None) /\
  discr_loss self = (if arg_use_vgg_and_gan a
                     then Some (if arg_use_hinge_loss a then hinge_discr_loss
                                else bce_discr_loss)
                     else None) /\
  gen_loss self = (if arg_use_vgg_and_gan a
                   then Some (if arg_use_hinge_loss a then hinge_gen_loss else bce_gen_loss)
                   else None).
Proof. intros H. init_fields H. cbn. repeat split. Qed.

Lemma reconstruction_loss_masked_ok (video recon_video : tensor R) (m : tensor bool)
  (b c f : Z) (rest : list Z) :
  shape video = b :: c :: f :: rest -> shape recon_video = shape video ->
  shape m = [b; f] ->
  exists l, reconstruction_loss video recon_video (Some m) c = Ok l.
Proof.
  intros Sv Sr Sm. unfold reconstruction_loss, mse_loss_none.
  rewrite bool_decide_eq_true_2 by congruence. cbn [require rbind].
  unfold repeat_over_channels. rewrite Sm. cbn [rbind].
  unfold boolean_index. cbn [shape length]. rewrite Sv. cbn [take].
  rewrite bool_decide_eq_true_2 by reflexivity. cbn [require rbind].
  eexists. reflexivity.
Qed.


(** ** Serialization *)

Lemma Module_state_dict_key (self : gmap string attribute) (name t : string)
  (tensors : list string) :
  self !! name = Some (Submodule tensors) -> In t tensors ->
  In (String.append name (String.append "." t)) (Module_state_dict self).
Proof.
  intros Hl Ht. unfold Module_state_dict. apply in_flat_map.
  exists (name, Submodule tensors). split.
  - apply list_elem_of_In, elem_of_map_to_list. exact Hl.
  - cbn [fst snd]. apply in_map_iff. exists t. split; [reflexivity | exact Ht].
Qed.

Lemma CViViT_attributes_vgg tensors_of trained use_discr :
  CViViT_attributes tensors_of trained use_discr !! "vgg"%string = Some PyNone.
Proof. destruct trained, use_discr; reflexivity. Qed.

Lemma CViViT_attributes_lpips tensors_of use_discr :
  CViViT_attributes tensors_of true use_discr !! "loss_fn_lpips"%string =
    Some (Submodule (tensors_of "loss_fn_lpips"%string)).
Proof. destruct use_discr; reflexivity. Qed.

Lemma remove_vgg_returns {X} (fn : gmap string attribute -> result X)
  (self : gmap string attribute) (v : attribute) (out : X) :
  self !! "vgg"%string = Some v ->
  fn (delete "vgg"%string self) = Ok out ->
  remove_vgg fn self = (self, Ok out).
Proof.
  intros Hv Hf. unfold remove_vgg. rewrite Hv.
  rewrite bool_decide_eq_true_2 by eauto. rewrite Hf.
  rewrite insert_delete_id by exact Hv. reflexivity.
Qed.

Lemma remove_vgg_raises {X} (fn : gmap string attribute -> result X)
  (self : gmap string attribute) (v : attribute) (e : exn) :
  self !! "vgg"%string = Some v ->
  fn (delete "vgg"%string self) = Raise e ->
  remove_vgg fn self = (delete "vgg"%string self, Raise e).
Proof.
  intros Hv Hf. unfold remove_vgg. rewrite Hv.
  rewrite bool_decide_eq_true_2 by eauto. rewrite Hf. reflexivity.
Qed.


(** * Properties of the specification *)

(** C3 (amended).  For a module with a sensible geometry and every frame count
    [f >= 1] with [f - 1] divisible by the temporal patch size and
    [(f - 1) / temporal_patch_size] below [2^53] (where [int(a / b)] is exact),
    [frames_per_num_tokens(num_tokens_per_frames(f))] returns [f]; and each
    function raises on an input that violates its divisibility constraint. *)
Theorem token_frame_conversions_inverse (a : CViViT_args) (w : Weights) (self : CViViT)
  (f : Z) :
  CViViT_init a w = Ok self ->
  sensible_geometry a ->
  1 <= f ->
  (f - 1) mod arg_temporal_patch_size a = 0 ->
  (f - 1) / arg_temporal_patch_size a < 2 ^ 53 ->
  (exists n, num_tokens_per_frames self f true = Ok n /\
             frames_per_num_tokens self n = Ok f) /\
  (forall f', (f' - 1) mod arg_temporal_patch_size a <> 0 ->
              raises (num_tokens_per_frames self f' true)) /\
  (forall n tokens_per_frame,
     image_num_tokens self = Ok tokens_per_frame ->
     n mod tokens_per_frame <> 0 ->
     raises (frames_per_num_tokens self n)).
Proof.
  intros Hinit Hg Hf Hdiv Hbound.
  apply CViViT_init_initialised in Hinit.
  destruct (image_num_tokens_ok a w self Hinit Hg) as (Etok & Htok).
  destruct Hg as (_ & _ & _ & _ & Hpt).
  set (tok := fst (arg_image_size a) / fst (arg_patch_size a) *
              (snd (arg_image_size a) / snd (arg_patch_size a))) in *.
  set (pt := arg_temporal_patch_size a) in *.
  set (t := (f - 1) / pt) in *.
  assert (Hft : f - 1 = t * pt) by (unfold t; apply Z.div_exact in Hdiv; lia).
  assert (Ht : 0 <= t) by (unfold t; apply Z.div_pos; lia).
  split; [| split].
  - exists (tok + t * tok). split.
    + unfold num_tokens_per_frames. rewrite Etok. cbn [rbind].
      rewrite (init_temporal_patch_size a w self Hinit). fold pt.
      unfold py_mod. destruct (Z.eqb_spec pt 0); [lia |]. cbn [rbind].
      rewrite Hdiv. cbn [Z.eqb py_assert rbind].
      rewrite Hft, py_int_truediv_exact by lia. reflexivity.
    + unfold frames_per_num_tokens. rewrite Etok. cbn [rbind].
      unfold py_mod, py_floordiv. destruct (Z.eqb_spec tok 0); [lia |]. cbn [rbind].
      replace (tok + t * tok) with ((1 + t) * tok) by ring.
      rewrite Z.mod_mul by assumption. cbn [Z.eqb py_assert rbind].
      destruct (Z.ltb_spec 0 ((1 + t) * tok)); [| nia]. cbn [py_assert rbind].
      rewrite Z.div_mul by assumption.
      rewrite (init_temporal_patch_size a w self Hinit). fold pt.
      f_equal. lia.
  - intros f' Hf'. unfold raises, num_tokens_per_frames. rewrite Etok. cbn [rbind].
    rewrite (init_temporal_patch_size a w self Hinit). fold pt.
    unfold py_mod. destruct (Z.eqb_spec pt 0); [lia |]. cbn [rbind].
    destruct (Z.eqb_spec ((f' - 1) mod pt) 0); [contradiction |].
    cbn [py_assert rbind]. eauto.
  - intros n tpf Etpf Hn. unfold raises, frames_per_num_tokens. rewrite Etpf.
    cbn [rbind]. unfold py_mod. destruct (Z.eqb_spec tpf 0); cbn [rbind]; [eauto |].
    destruct (Z.eqb_spec (n mod tpf) 0); [contradiction |].
    cbn [py_assert rbind]. eauto.
Qed.

Section Penalty.

Variable torch_grad : tensor R -> tensor R -> list R.

(** In exact arithmetic, for a non-empty image batch and a positive weight,
    [gradient_penalty] is a non-negative number, which is zero exactly when the
    2-norm of the gradient, flattened per sample, is 1 for every sample. *)
Lemma gradient_penalty_exact_zero_iff_unit_norm (images output : tensor R)
  (weight : R) (b : Z) (rest : list Z) :
  shape images = b :: rest -> 0 < b -> (0 < weight)%R ->
  exists v,
    gradient_penalty torch_grad images output weight = Ok (Num v) /\
    (0 <= v)%R /\
    (v = 0%R <->
     forall g, In g (rows (prodZ rest) b (torch_grad output images)) -> norm2 g = 1%R).
Proof.
  intros Hs Hb Hw. unfold gradient_penalty, flatten_per_sample. cbn [shape data].
  rewrite Hs. cbn [rbind shape data].
  set (rws := rows (prodZ rest) b (torch_grad output images)).
  set (sq := fun x : R => ((x - 1) * (x - 1))%R).
  set (l := map sq (map norm2 rws)).
  assert (Hne : exists x l', l = x :: l').
  { unfold l, rws, rows. rewrite seqZ_cons by exact Hb. cbn [map]. eauto. }
  destruct Hne as (x & l' & El).
  assert (Hpos : forall y, In y l -> (0 <= y)%R).
  { intros y Hy. unfold l in Hy. apply in_map_iff in Hy as (z & <- & _).
    apply (Rle_0_sqr (z - 1)). }
  assert (Hn : (0 < INR (length l))%R).
  { rewrite El. cbn [length]. apply lt_0_INR. lia. }
  pose proof (Rsum_nonneg l Hpos) as Hsum.
  exists (weight * (Rsum l / INR (length l)))%R.
  split; [rewrite El; reflexivity |].
  assert (Hq : (0 <= Rsum l / INR (length l))%R).
  { apply Rmult_le_pos; [exact Hsum |]. left. apply Rinv_0_lt_compat. exact Hn. }
  split; [nra |].
  split.
  - intros Hv g Hg.
    assert (Hz : Rsum l = 0%R).
    { apply Rmult_integral in Hv as [Hv | Hv]; [lra |].
      apply Rmult_integral in Hv as [Hv | Hv]; [exact Hv |].
      pose proof (Rinv_0_lt_compat _ Hn). lra. }
    apply square_zero_iff. fold (sq (norm2 g)).
    apply (proj1 (Rsum_zero_iff l Hpos) Hz).
    unfold l. rewrite map_map. apply in_map_iff. eauto.
  - intros Hall.
    assert (Hz : Rsum l = 0%R).
    { apply Rsum_zero_iff; [exact Hpos |].
      intros y Hy. unfold l in Hy. rewrite map_map in Hy.
      apply in_map_iff in Hy as (g & <- & Hg).
      apply square_zero_iff. apply Hall. exact Hg. }
    rewrite Hz. unfold Rdiv. ring.
Qed.

End Penalty.

(** ** Signs of the floating-point operations *)

Section FloatSigns.

Variables prec emax : Z.












(** Small integers are exact. *)

Hypothesis Hprec : 1 < prec <= emax.



End FloatSigns.



Section PenaltyFloat.

Variables prec emax : Z.
Variable torch_grad : tensor spec_float -> tensor spec_float -> list spec_float.


End PenaltyFloat.

(** C8 (amended).  With an all-false frame mask the reconstruction loss does not
    raise: nothing is selected and the mean of the empty selection is NaN.
    With an all-true mask the masked reconstruction loss equals the loss
    computed without a mask on the same input. *)
Theorem reconstruction_loss_full_masks (video recon_video : tensor R) (b c f h w : Z) :
  0 <= b -> 0 <= c -> 0 <= f -> 0 <= h -> 0 <= w ->
  shape video = [b; c; f; h; w] ->
  shape recon_video = [b; c; f; h; w] ->
  length (data video) = Z.to_nat (b * c * f * h * w) ->
  length (data recon_video) = Z.to_nat (b * c * f * h * w) ->
  reconstruction_loss video recon_video (Some (full_mask false b f)) c = Ok NaN /\
  reconstruction_loss video recon_video (Some (full_mask true b f)) c =
    reconstruction_loss video recon_video None c.
Proof.
  intros Hb Hc Hf Hh Hw Sv Sr Lv Lr.
  unfold reconstruction_loss, mse_loss, mse_loss_none.
  rewrite bool_decide_eq_true_2 by congruence. cbn [require rbind].
  rewrite !repeat_over_channels_full by assumption. cbn [rbind].
  set (sq := mkTensor (shape video) (zip_with sqdiff (data video) (data recon_video))).
  split.
  - destruct (boolean_index_full_false sq b c f [h; w] Sv) as (y & Ey & Dy).
    rewrite Ey. cbn [rbind]. rewrite Dy. reflexivity.
  - destruct (boolean_index_full_true sq b c f [h; w]) as (y & Ey & Dy);
      try assumption; [| | rewrite Ey; cbn [rbind]; rewrite Dy; reflexivity].
    + cbn [prodZ fold_right]. nia.
    + unfold sq. cbn [data prodZ fold_right]. rewrite length_zip_with, Lv, Lr.
      rewrite Nat.min_id. apply (f_equal Z.to_nat). ring.
Qed.

(** C9 (what the code does).  [remove_vgg] detaches the attribute [vgg], which
    [__init__] always sets to [None]; the perceptual metric is registered as
    [loss_fn_lpips], so every one of its tensors is a key of [state_dict()].
    The instance is the same after the call. *)
Theorem state_dict_keeps_perceptual_metric (tensors_of : string -> list string)
  (use_discr : bool) (t : string) :
  In t (tensors_of "loss_fn_lpips"%string) ->
  exists keys,
    state_dict (CViViT_attributes tensors_of true use_discr) =
      (CViViT_attributes tensors_of true use_discr, Ok keys) /\
    In (String.append "loss_fn_lpips." t) keys.
Proof.
  intros Ht. set (self := CViViT_attributes tensors_of true use_discr).
  exists (Module_state_dict (delete "vgg"%string self)).
  split.
  - unfold state_dict.
    apply (remove_vgg_returns _ self PyNone); [apply CViViT_attributes_vgg | reflexivity].
  - apply (Module_state_dict_key _ "loss_fn_lpips"%string t
             (tensors_of "loss_fn_lpips"%string)); [| exact Ht].
    rewrite lookup_delete_ne by discriminate. apply CViViT_attributes_lpips.
Qed.

(** A strict load of a state without a key of the perceptual metric raises,
    and leaves the instance without its [vgg] attribute. *)
Lemma load_state_dict_wants_perceptual_metric (tensors_of : string -> list string)
  (use_discr : bool) (t : string) (state : list string) :
  In t (tensors_of "loss_fn_lpips"%string) ->
  ~ In (String.append "loss_fn_lpips." t) state ->
  load_state_dict state true (CViViT_attributes tensors_of true use_discr) =
    (delete "vgg"%string (CViViT_attributes tensors_of true use_discr),
     Raise RuntimeError).
Proof.
  intros Ht Hs. set (self := CViViT_attributes tensors_of true use_discr).
  unfold load_state_dict.
  apply (remove_vgg_raises _ self PyNone); [apply CViViT_attributes_vgg |].
  unfold Module_load_state_dict.
  rewrite bool_decide_eq_false_2; [reflexivity |].
  intros [Hm _].
  assert (Hin : String.append "loss_fn_lpips." t ∈
                filter (fun k => k ∉ state) (Module_state_dict (delete "vgg"%string self))).
  { apply list_elem_of_filter. split.
    - intros H. apply Hs, list_elem_of_In. exact H.
    - apply list_elem_of_In.
      apply (Module_state_dict_key _ "loss_fn_lpips"%string t
               (tensors_of "loss_fn_lpips"%string)); [| exact Ht].
      rewrite lookup_delete_ne by discriminate. apply CViViT_attributes_lpips. }
  rewrite Hm in Hin. inversion Hin.
Qed.

Section ForwardClaims.

Variable torch_grad : tensor R -> tensor R -> list R.

Lemma forward_masked (a : CViViT_args) (w : Weights)
  (self : CViViT) (video : tensor R) (mask vm : tensor bool) (b t : Z)
  (return_recons return_discr_loss apply_grad_penalty : bool)
  (accelerator_tracker : option unit) :
  initialised a w self ->
  valid_input a video b t ->
  ndim video = 5 ->
  shape mask = [b; 1 + t * arg_temporal_patch_size a] ->
  calculate_video_token_mask self video mask = Ok vm ->
  forward torch_grad self video (Some mask) return_recons false return_discr_loss
    apply_grad_penalty false accelerator_tracker = Ok NotImplementedError_class.
Proof.
  intros Hinit Hvalid H5 Sm Hvm.
  assert (Hacc : mask_accepted self video (1 + t * arg_temporal_patch_size a) (Some mask)).
  { split; [exact H5 |]. rewrite Sm. split; [discriminate |]. split; [reflexivity |]. eauto. }
  destruct (forward_quantize_ok a w self video b t (Some mask) Hinit Hvalid Hacc)
    as (q & Eq & Himg & Sv & _ & Hc & Hqh & Hqw & _ & Hst & _).
  destruct (forward_reconstruct_ok a w self video b t q Hinit Hvalid Himg Hqh Hqw Hst)
    as (rv & rr & Er & Srv & _ & _).
  destruct (reconstruction_loss_masked_ok (q_video q) rv mask b (arg_channels a)
              (1 + t * arg_temporal_patch_size a) _ Sv (eq_trans Srv (eq_sym Sv)) Sm)
    as (l & El).
  unfold forward. rewrite Eq. cbn [rbind]. rewrite Er. cbn [rbind].
  rewrite Hc, El. reflexivity.
Qed.

(** C6 (what the code does).  A call of [forward] with a frame mask that gets
    past the early exits does not raise: it returns the class
    [NotImplementedError] as an ordinary value. *)
Theorem forward_with_mask_returns_exception_class (a : CViViT_args) (w : Weights)
  (self : CViViT) (video : tensor R) (mask vm : tensor bool) (b t : Z)
  (return_recons return_discr_loss apply_grad_penalty : bool)
  (accelerator_tracker : option unit) :
  CViViT_init a w = Ok self ->
  valid_input a video b t ->
  ndim video = 5 ->
  shape mask = [b; 1 + t * arg_temporal_patch_size a] ->
  calculate_video_token_mask self video mask = Ok vm ->
  forward torch_grad self video (Some mask) return_recons false return_discr_loss
    apply_grad_penalty false accelerator_tracker = Ok NotImplementedError_class.
Proof.
  intros Hinit Hvalid H5 Sm Hvm.
  apply (forward_masked a w self video mask vm b t); try assumption.
  apply CViViT_init_initialised. exact Hinit.
Qed.

(** C1.  For an image batch or a video of the configured channels and image
    size whose frame count [f] has [f - 1] divisible by the temporal patch
    size, [forward] with [return_recons_only=True] returns a reconstruction of
    exactly the shape of the input. *)
Theorem forward_recons_only_preserves_shape (a : CViViT_args) (w : Weights)
  (self : CViViT) (video : tensor R) (b f : Z)
  (return_recons return_discr_loss apply_grad_penalty : bool)
  (accelerator_tracker : option unit) :
  CViViT_init a w = Ok self ->
  0 < arg_temporal_patch_size a ->
  0 < fst (arg_image_size a) -> 0 < snd (arg_image_size a) ->
  0 < b -> 1 <= f -> (f - 1) mod arg_temporal_patch_size a = 0 ->
  (shape video = [b; arg_channels a; fst (arg_image_size a); snd (arg_image_size a)] /\
   f = 1) \/
  shape video = [b; arg_channels a; f; fst (arg_image_size a); snd (arg_image_size a)] ->
  exists recon,
    forward torch_grad self video None return_recons true return_discr_loss
      apply_grad_penalty false accelerator_tracker = Ok (Recon recon) /\
    shape recon = shape video.
Proof.
  intros Hinit Hpt HH HW Hb Hf Hdiv Hv.
  apply CViViT_init_initialised in Hinit.
  set (t := (f - 1) / arg_temporal_patch_size a).
  assert (Hft : f = 1 + t * arg_temporal_patch_size a).
  { unfold t. apply Z.div_exact in Hdiv; lia. }
  assert (Ht : 0 <= t) by (unfold t; apply Z.div_pos; lia).
  assert (Hvalid : valid_input a video b t).
  { repeat split; try assumption.
    destruct Hv as [[Hv ->] | Hv]; [left | right; rewrite <- Hft; exact Hv].
    split; [exact Hv |]. nia. }
  destruct (forward_quantize_ok a w self video b t None Hinit Hvalid I)
    as (q & Eq & Himg & _ & _ & _ & Hqh & Hqw & _ & Hst & _).
  destruct (forward_reconstruct_ok a w self video b t q Hinit Hvalid Himg Hqh Hqw Hst)
    as (rv & rr & Er & _ & Srr & _).
  exists rr. split; [| exact Srr].
  unfold forward. rewrite Eq. cbn [rbind]. rewrite Er. reflexivity.
Qed.

(** C2.  Without a mask and with [return_discr_loss=False], the loss that
    [forward] returns from the generator branch is
    [commit_loss_w * commit_loss + gen_loss_w * gen_loss +
     perceptual_loss_w * perceptual_loss + i3d_loss_w * i3d_video_perceptual_loss
     + recon_loss_w * recon_loss], each term being what the corresponding
    lines compute from the video and its reconstruction: the generator loss
    from the logits of the discriminator network on the reconstructed frames,
    or zero without a discriminator; the video-level perceptual term is zero
    when the clip has one frame.  The discriminator, where there is one, and
    the feature extractor, where the clip has more frames, are taken to
    accept their inputs. *)
Theorem forward_generator_loss_weighted_sum (a : CViViT_args) (w : Weights)
  (self : CViViT) (video : tensor R) (b t : Z)
  (return_recons apply_grad_penalty : bool) (accelerator_tracker : option unit)
  (discr_base_dim : Z) (discr_attn_res_layers : list Z) (dw : DiscriminatorWeights) :
  CViViT_init a w = Ok self ->
  valid_input a video b t ->
  arg_use_vgg_and_gan a = true ->
  arg_use_hinge_loss a = true \/ arg_use_discr a = false ->
  arg_wandb_mode_disabled a = true \/ accelerator_tracker <> None ->
  (arg_use_discr a = true ->
   discriminator_runs a w discr_base_dim discr_attn_res_layers dw) ->
  (1 <= t -> feature_vectors (w_i3d w)) ->
  exists q recon_video returned_recon input_video_flattened recon_video_flattened
         recon_loss perceptual_loss i3d_video_perceptual_loss gen_loss,
    forward_quantize self video None = Ok q /\
    forward_reconstruct self q = Ok (recon_video, returned_recon) /\
    frames_to_batch (q_video q) = Ok input_video_flattened /\
    frames_to_batch recon_video = Ok recon_video_flattened /\
    reconstruction_loss (q_video q) recon_video None (q_c q) = Ok recon_loss /\
    perceptual_loss_of self input_video_flattened recon_video_flattened =
      Ok perceptual_loss /\
    i3d_video_perceptual_loss_of self (q_video q) recon_video =
      Ok i3d_video_perceptual_loss /\
    generator_loss_of self recon_video_flattened = Ok gen_loss /\
    (arg_use_discr a = true ->
     exists logits,
       DiscriminatorNet_forward
         (Discriminator_init discr_base_dim (arg_image_size a) (arg_channels a)
            discr_attn_res_layers 512 dw) recon_video_flattened = Ok logits /\
       hinge_gen_loss logits = Ok gen_loss) /\
    (arg_use_discr a = false -> gen_loss = Num 0) /\
    (nth 2 (shape (q_video q)) 0 = 1 -> i3d_video_perceptual_loss = Num 0) /\
    let loss :=
      fadd (fadd (fadd (fadd (fscale (commit_loss_w self) (Num (q_commit_loss q)))
                             (fscale (gen_loss_w self) gen_loss))
                       (fscale (perceptual_loss_w self) perceptual_loss))
                 (fscale (i3d_loss_w self) i3d_video_perceptual_loss))
           (fscale (recon_loss_w self) recon_loss) in
    forward torch_grad self video None return_recons false false apply_grad_penalty
      false accelerator_tracker =
    Ok (if return_recons then LossRecon loss returned_recon else Loss loss).
Proof.
  intros Hinit Hvalid Hgan Hhinge Hlog Hruns Hfeat.
  apply CViViT_init_initialised in Hinit.
  destruct (forward_quantize_ok a w self video b t None Hinit Hvalid I)
    as (q & Eq & Himg & Sv & _ & Hc & Hqh & Hqw & _ & Hst & _).
  destruct (forward_reconstruct_ok a w self video b t q Hinit Hvalid Himg Hqh Hqw Hst)
    as (rv & rr & Er & Srv & _ & _).
  destruct (init_attributes a w self Hinit)
    as (Ugan & Udiscr & Uwandb & _ & Adiscr & Alpips & Ai3d & _ & Agen).
  pose proof Hvalid as (Hpt & _ & _ & _ & Ht & _).
  rewrite Hgan in *. cbn [andb] in Adiscr.
  destruct (frames_to_batch_shape _ _ _ _ _ (q_video q) Sv) as (fi & Efi & _).
  destruct (frames_to_batch_shape _ _ _ _ _ rv Srv) as (fr & Efr & Sfr).
  assert (Er_loss := reconstruction_loss_unmasked (q_video q) rv (q_c q)
                       (eq_trans Srv (eq_sym Sv))).
  assert (Ep : perceptual_loss_of self fi fr =
               Ok (mean (lpips_fn (w_lpips w) (rescale fi) (rescale fr)))).
  { unfold perceptual_loss_of. rewrite Alpips. reflexivity. }
  assert (Ei : exists l, i3d_video_perceptual_loss_of self (q_video q) rv = Ok l /\
                         (nth 2 (shape (q_video q)) 0 = 1 -> l = Num 0)).
  { destruct (i3d_video_perceptual_loss_ok self (w_i3d w) (q_video q) rv _ _ _ _ _
                Ai3d Sv Srv) as (l & El & Hl0).
    - intros Hlt. apply Hfeat. nia.
    - exists l. split; [exact El |]. rewrite Sv. exact Hl0. }
  destruct Ei as (il & Ei & Hi0).
  assert (Eg : exists g, generator_loss_of self fr = Ok g /\
                 (arg_use_discr a = true ->
                  hinge_gen_loss (Discriminator_forward (w_discr w) fr) = Ok g) /\
                 (arg_use_discr a = false -> g = Num 0)).
  { unfold generator_loss_of. rewrite Udiscr, Agen, Adiscr.
    destruct (arg_use_discr a).
    - destruct Hhinge as [-> | ?]; [| discriminate].
      cbn [getattr rbind]. eexists. split; [reflexivity |].
      split; [reflexivity | discriminate].
    - eexists. split; [reflexivity |]. split; [discriminate | reflexivity]. }
  destruct Eg as (g & Eg & Hg1 & Hg0).
  exists q, rv, rr, fi, fr. eexists _, _, il, g.
  split; [exact Eq |]. split; [exact Er |]. split; [exact Efi |]. split; [exact Efr |].
  split; [exact Er_loss |]. split; [exact Ep |]. split; [exact Ei |].
  split; [exact Eg |].
  split.
  { intros Hu. eexists. split; [apply (Hruns Hu fr _ Sfr) | apply Hg1; exact Hu]. }
  split; [exact Hg0 |]. split; [exact Hi0 |].
  cbv zeta. unfold forward. rewrite Eq. cbn [rbind]. rewrite Er. cbn [rbind].
  rewrite Er_loss. cbn [rbind exists_].
  unfold forward_gen_branch. rewrite Ugan. cbn [negb].
  rewrite Efi. cbn [rbind]. rewrite Efr. cbn [rbind]. rewrite Ep. cbn [rbind].
  rewrite Ei. cbn [rbind]. rewrite Eg. cbn [rbind].
  rewrite Uwandb.
  assert (El : (if negb (arg_wandb_mode_disabled a)
                then log_wandb_all_losses accelerator_tracker else Ok tt) = Ok tt).
  { destruct Hlog as [-> | Hne]; [reflexivity |].
    destruct (arg_wandb_mode_disabled a); [reflexivity |].
    destruct accelerator_tracker as [[] |]; [reflexivity | contradiction]. }
  rewrite El. cbn [rbind]. unfold combine_losses.
  destruct return_recons; reflexivity.
Qed.

(** C5 (what the code does).  In the discriminator branch with
    [apply_grad_penalty=False] nothing is returned: [loss] is read before it is
    bound (UnboundLocalError); with the BCE loss the call already stops at the
    undefined name [log] (NameError). *)
Theorem forward_discr_loss_unbound_without_grad_penalty (a : CViViT_args) (w : Weights)
  (self : CViViT) (video : tensor R) (b t : Z)
  (return_recons : bool) (accelerator_tracker : option unit) :
  CViViT_init a w = Ok self ->
  valid_input a video b t ->
  arg_use_vgg_and_gan a = true ->
  arg_use_discr a = true ->
  forward torch_grad self video None return_recons false true false false
    accelerator_tracker =
  Raise (if arg_use_hinge_loss a then UnboundLocalError else NameError).
Proof.
  intros Hinit Hvalid Hgan Hdiscr.
  apply CViViT_init_initialised in Hinit.
  destruct (forward_quantize_ok a w self video b t None Hinit Hvalid I)
    as (q & Eq & Himg & Sv & _ & Hc & Hqh & Hqw & _ & Hst & _).
  destruct (forward_reconstruct_ok a w self video b t q Hinit Hvalid Himg Hqh Hqw Hst)
    as (rv & rr & Er & Srv & _ & _).
  destruct (init_attributes a w self Hinit)
    as (_ & _ & _ & _ & Adiscr & _ & _ & Aloss & _).
  rewrite Hgan, Hdiscr in *. cbn [andb] in Adiscr.
  destruct (frames_to_batch_shape _ _ _ _ _ (q_video q) Sv) as (fi & Efi & _).
  destruct (frames_to_batch_shape _ _ _ _ _ rv Srv) as (fr & Efr & _).
  unfold forward. rewrite Eq. cbn [rbind]. rewrite Er. cbn [rbind].
  rewrite (reconstruction_loss_unmasked (q_video q) rv (q_c q) (eq_trans Srv (eq_sym Sv))).
  cbn [rbind exists_]. unfold forward_discr_branch. rewrite Adiscr.
  cbn [exists_ py_assert getattr rbind]. rewrite Efi. cbn [rbind]. rewrite Efr.
  cbn [rbind]. unfold discriminator_loss_of. rewrite Aloss. cbn [getattr rbind].
  destruct (arg_use_hinge_loss a); reflexivity.
Qed.

(** X12.  With the gradient penalty and the hinge loss the discriminator
    branch returns the sum of the discriminator loss and the penalty, each
    computed on the frames of the video and of its reconstruction taken as a
    batch of images, from the logits that the discriminator network returns
    on them; the network is taken to accept the frames. *)
Lemma forward_discr_loss_with_grad_penalty (a : CViViT_args) (w : Weights)
  (self : CViViT) (video : tensor R) (b t : Z)
  (return_recons : bool) (accelerator_tracker : option unit)
  (discr_base_dim : Z) (discr_attn_res_layers : list Z) (dw : DiscriminatorWeights) :
  CViViT_init a w = Ok self ->
  valid_input a video b t ->
  arg_use_vgg_and_gan a = true ->
  arg_use_discr a = true ->
  arg_use_hinge_loss a = true ->
  discriminator_runs a w discr_base_dim discr_attn_res_layers dw ->
  exists q recon_video returned_recon input_video_flattened recon_video_flattened
         recon_video_discr_logits video_discr_logits discr_loss gp,
    forward_quantize self video None = Ok q /\
    forward_reconstruct self q = Ok (recon_video, returned_recon) /\
    frames_to_batch (q_video q) = Ok input_video_flattened /\
    frames_to_batch recon_video = Ok recon_video_flattened /\
    DiscriminatorNet_forward
      (Discriminator_init discr_base_dim (arg_image_size a) (arg_channels a)
         discr_attn_res_layers 512 dw) recon_video_flattened =
      Ok recon_video_discr_logits /\
    DiscriminatorNet_forward
      (Discriminator_init discr_base_dim (arg_image_size a) (arg_channels a)
         discr_attn_res_layers 512 dw) input_video_flattened =
      Ok video_discr_logits /\
    hinge_discr_loss recon_video_discr_logits video_discr_logits = Ok discr_loss /\
    gradient_penalty torch_grad input_video_flattened video_discr_logits
      (gp_weight self) = Ok gp /\
    forward torch_grad self video None return_recons false true true false
      accelerator_tracker =
    Ok (if return_recons then LossRecon (fadd discr_loss gp) returned_recon
        else Loss (fadd discr_loss gp)).
Proof.
  intros Hinit Hvalid Hgan Hdiscr Hhinge Hruns.
  apply CViViT_init_initialised in Hinit.
  destruct (forward_quantize_ok a w self video b t None Hinit Hvalid I)
    as (q & Eq & Himg & Sv & _ & Hc & Hqh & Hqw & _ & Hst & _).
  destruct (forward_reconstruct_ok a w self video b t q Hinit Hvalid Himg Hqh Hqw Hst)
    as (rv & rr & Er & Srv & _ & _).
  destruct (init_attributes a w self Hinit)
    as (_ & _ & _ & _ & Adiscr & _ & _ & Aloss & _).
  rewrite Hgan, Hdiscr, Hhinge in *. cbn [andb] in Adiscr.
  destruct (frames_to_batch_shape _ _ _ _ _ (q_video q) Sv) as (fi & Efi & Sfi).
  destruct (frames_to_batch_shape _ _ _ _ _ rv Srv) as (fr & Efr & Sfr).
  assert (Egp : exists gp, gradient_penalty torch_grad fi
                  (Discriminator_forward (w_discr w) fi) (gp_weight self) = Ok gp).
  { unfold gradient_penalty, flatten_per_sample. cbn [shape]. rewrite Sfi.
    cbn [rbind shape]. eexists. reflexivity. }
  destruct Egp as (gp & Egp).
  exists q, rv, rr, fi, fr. eexists _, _, _, gp.
  split; [exact Eq |]. split; [exact Er |]. split; [exact Efi |]. split; [exact Efr |].
  split; [apply (Hruns fr _ Sfr) |]. split; [apply (Hruns fi _ Sfi) |].
  split; [reflexivity |]. split; [exact Egp |].
  unfold forward. rewrite Eq. cbn [rbind]. rewrite Er. cbn [rbind].
  rewrite (reconstruction_loss_unmasked (q_video q) rv (q_c q) (eq_trans Srv (eq_sym Sv))).
  cbn [rbind exists_]. unfold forward_discr_branch. rewrite Adiscr.
  cbn [exists_ py_assert getattr rbind]. rewrite Efi. cbn [rbind]. rewrite Efr.
  cbn [rbind]. unfold discriminator_loss_of. rewrite Aloss. cbn [getattr rbind].
  unfold hinge_discr_loss at 1. cbn [rbind]. rewrite Egp. cbn [rbind].
  destruct return_recons; reflexivity.
Qed.

(** C7 (amended).  Without a discriminator, [forward] with
    [return_discr_loss=True] raises unless an earlier exit is taken
    ([return_only_codebook_ids], [return_recons_only] or a mask); and whatever
    the mask and the flags it returns no loss: a discriminator loss is only
    ever returned when a discriminator exists. *)
Theorem forward_discr_loss_requires_discriminator (self : CViViT) (video : tensor R)
  (mask : option (tensor bool))
  (return_recons return_recons_only apply_grad_penalty return_only_codebook_ids : bool)
  (accelerator_tracker : option unit) :
  discr self = None ->
  (mask = None -> return_recons_only = false -> return_only_codebook_ids = false ->
   raises (forward torch_grad self video mask return_recons return_recons_only true
             apply_grad_penalty return_only_codebook_ids accelerator_tracker)) /\
  (forall out,
     forward torch_grad self video mask return_recons return_recons_only true
       apply_grad_penalty return_only_codebook_ids accelerator_tracker = Ok out ->
     match out with
     | Loss _ | LossRecon _ _ => False
     | _ => True
     end).
Proof.
  intros Hd. split.
  - intros -> -> ->. unfold forward, raises.
    destruct (forward_quantize self video None) as [q | e]; [| eauto].
    cbn [rbind].
    destruct (forward_reconstruct self q) as [[rv rr] | e]; [| eauto].
    cbn [rbind].
    destruct (reconstruction_loss (q_video q) rv None (q_c q)) as [l | e]; [| eauto].
    cbn [rbind exists_]. unfold forward_discr_branch. rewrite Hd.
    cbn [exists_ py_assert rbind]. eauto.
  - intros out. unfold forward.
    destruct (forward_quantize self video mask) as [q | e]; [| discriminate].
    cbn [rbind]. destruct return_only_codebook_ids.
    { destruct (unpack_b_star (q_indices q) (q_packed_fhw_shape q)); cbn [rbind];
        intros E; inversion E; exact I. }
    destruct (forward_reconstruct self q) as [[rv rr] | e]; [| discriminate].
    cbn [rbind]. destruct return_recons_only.
    { intros E; inversion E; exact I. }
    destruct (reconstruction_loss (q_video q) rv mask (q_c q)) as [l | e];
      [| discriminate].
    cbn [rbind]. destruct mask as [m |]; cbn [exists_].
    { intros E; inversion E; exact I. }
    unfold forward_discr_branch. rewrite Hd. cbn [exists_ py_assert rbind].
    discriminate.
Qed.

(** C10.  For every rank-4 input, a call of [forward] that supplies a mask
    fails the assertion [not exists(mask)]. *)
Theorem forward_image_with_mask_rejected (self : CViViT) (video : tensor R)
  (mask : tensor bool)
  (return_recons return_recons_only return_discr_loss apply_grad_penalty
   return_only_codebook_ids : bool) (accelerator_tracker : option unit) :
  ndim video = 4 ->
  forward torch_grad self video (Some mask) return_recons return_recons_only
    return_discr_loss apply_grad_penalty return_only_codebook_ids accelerator_tracker =
  Raise AssertionError.
Proof.
  intros Hn. unfold forward, forward_quantize.
  rewrite bool_decide_eq_true_2 by auto. rewrite Hn. cbn [Z.eqb Pos.eqb py_assert rbind].
  unfold add_time_axis. unfold ndim in Hn.
  destruct (shape video) as [| b [| c [| h [| w [| x l]]]]]; cbn in Hn; try lia.
  reflexivity.
Qed.

End ForwardClaims.

(** * Instances

    The module of the spec's scenarios: image size 128, patch size 16,
    temporal patch size 4, three channels. *)

Lemma forward_recons_only_preserves_shape_witness :
  exists self,
    CViViT_init (demo_args 128 16 4 true true true) demo_weights = Ok self /\
    exists recon,
      forward no_grad self (zeros [2; 3; 128; 128]) None false true false true false None
        = Ok (Recon recon) /\
      shape recon = [2; 3; 128; 128].
Proof.
  eexists. split; [reflexivity |].
  apply (forward_recons_only_preserves_shape no_grad
           (demo_args 128 16 4 true true true) demo_weights _
           (zeros [2; 3; 128; 128]) 2 1);
    [reflexivity | reflexivity | reflexivity | reflexivity | reflexivity | reflexivity
    | reflexivity | left; split; reflexivity].
Defined.

Lemma valid_input_nine_frames :
  valid_input (demo_args 128 16 4 true true true) (zeros [2; 3; 9; 128; 128]) 2 2.
Proof.
  unfold valid_input. cbn [demo_args arg_temporal_patch_size arg_image_size fst snd].
  repeat split; try lia. right. reflexivity.
Defined.

Lemma token_frame_conversions_inverse_witness :
  exists self,
    CViViT_init (demo_args 128 16 4 true true true) demo_weights = Ok self /\
    exists n, num_tokens_per_frames self 9 true = Ok n /\
              frames_per_num_tokens self n = Ok 9.
Proof.
  eexists. split; [reflexivity |].
  apply (token_frame_conversions_inverse (demo_args 128 16 4 true true true)
           demo_weights _ 9); [reflexivity | | lia | reflexivity | reflexivity].
  unfold sensible_geometry. cbn [demo_args arg_patch_size arg_image_size
    arg_temporal_patch_size fst snd]. lia.
Defined.

(** C3, counterexample.  With temporal patch size 1 the frame count 0 passes the
    divisibility check of [num_tokens_per_frames], which returns 0 tokens;
    [frames_per_num_tokens] rejects 0 tokens by [assert (num_tokens > 0)]. *)
Lemma token_frame_roundtrip_fails_at_zero_frames :
  (0 - 1) mod 1 = 0 /\
  exists self,
    CViViT_init (demo_args 128 16 1 true true true) demo_weights = Ok self /\
    num_tokens_per_frames self 0 true = Ok 0 /\
    frames_per_num_tokens self 0 = Raise AssertionError.
Proof.
  split; [reflexivity |]. eexists. split; [reflexivity |].
  split; vm_compute; reflexivity.
Qed.

(** Beyond [2^53] the quotient [int(num_frames / temporal_patch_size)] goes
    through a binary64 that cannot hold it: the round trip of
    [2^53 + 2] frames gives [2^53 + 1]. *)
Lemma token_frame_roundtrip_inexact_beyond_binary64 :
  (2 ^ 53 + 2 - 1) mod 1 = 0 /\
  exists self,
    CViViT_init (demo_args 128 16 1 true true true) demo_weights = Ok self /\
    num_tokens_per_frames self (2 ^ 53 + 2) true = Ok (64 + 2 ^ 53 * 64) /\
    frames_per_num_tokens self (64 + 2 ^ 53 * 64) = Ok (2 ^ 53 + 1).
Proof.
  split; [reflexivity |]. eexists. split; [reflexivity |].
  split; vm_compute; reflexivity.
Qed.

Lemma gradient_penalty_exact_zero_iff_unit_norm_witness :
  exists v,
    gradient_penalty (fun _ _ => [3%R; 4%R]) (zeros [1; 2]) (zeros [1]) 10 = Ok (Num v) /\
    (0 <= v)%R /\
    (v = 0%R <->
     forall g, In g (rows (prodZ [2]) 1 [3%R; 4%R]) -> norm2 g = 1%R).
Proof.
  apply (gradient_penalty_exact_zero_iff_unit_norm (fun _ _ => [3%R; 4%R])
           (zeros [1; 2]) (zeros [1]) 10 1 [2]); [reflexivity | lia | lra].
Defined.

Lemma reconstruction_loss_full_masks_witness :
  reconstruction_loss (mkTensor [1; 1; 2; 1; 1] [1%R; 2%R]) (zeros [1; 1; 2; 1; 1])
    (Some (full_mask false 1 2)) 1 = Ok NaN /\
  reconstruction_loss (mkTensor [1; 1; 2; 1; 1] [1%R; 2%R]) (zeros [1; 1; 2; 1; 1])
    (Some (full_mask true 1 2)) 1 =
  reconstruction_loss (mkTensor [1; 1; 2; 1; 1] [1%R; 2%R]) (zeros [1; 1; 2; 1; 1]) None 1.
Proof.
  apply (reconstruction_loss_full_masks (mkTensor [1; 1; 2; 1; 1] [1%R; 2%R])
           (zeros [1; 1; 2; 1; 1]) 1 1 2 1 1); try lia; reflexivity.
Defined.

(** C8, counterexample.  The reconstruction loss under an all-false mask is a
    value, NaN, not an exception; and [forward] itself returns normally on an
    all-false mask when the temporal patch size is 1. *)
Lemma reconstruction_loss_all_false_mask_does_not_raise :
  reconstruction_loss (mkTensor [1; 1; 1; 1; 1] [1%R]) (mkTensor [1; 1; 1; 1; 1] [0%R])
    (Some (full_mask false 1 1)) 1 = Ok NaN /\
  ~ raises (reconstruction_loss (mkTensor [1; 1; 1; 1; 1] [1%R])
              (mkTensor [1; 1; 1; 1; 1] [0%R]) (Some (full_mask false 1 1)) 1) /\
  exists self,
    CViViT_init (demo_args 128 16 1 true true true) demo_weights = Ok self /\
    forward no_grad self (zeros [1; 3; 1; 128; 128]) (Some (full_mask false 1 1))
      false false false true false None = Ok NotImplementedError_class.
Proof.
  assert (E : reconstruction_loss (mkTensor [1; 1; 1; 1; 1] [1%R])
                (mkTensor [1; 1; 1; 1; 1] [0%R]) (Some (full_mask false 1 1)) 1 = Ok NaN)
    by reflexivity.
  split; [exact E |]. split.
  - rewrite E. intros [e He]. discriminate He.
  - eexists. split; [reflexivity |].
    eapply (forward_masked no_grad (demo_args 128 16 1 true true true) demo_weights
              _ _ _ _ 1 0).
    + apply CViViT_init_initialised. reflexivity.
    + unfold valid_input. cbn [demo_args arg_temporal_patch_size arg_image_size fst snd].
      repeat split; try lia. right. reflexivity.
    + reflexivity.
    + reflexivity.
    + vm_compute. reflexivity.
Qed.

Lemma state_dict_keeps_perceptual_metric_witness :
  exists keys,
    state_dict (CViViT_attributes (fun _ => ["weight"%string]) true true) =
      (CViViT_attributes (fun _ => ["weight"%string]) true true, Ok keys) /\
    In "loss_fn_lpips.weight"%string keys.
Proof.
  apply (state_dict_keeps_perceptual_metric (fun _ => ["weight"%string]) true
           "weight"%string).
  left. reflexivity.
Defined.

(** The spec's scenario of a 9-frame video in the discriminator step, with
    [apply_grad_penalty=False]. *)
Lemma forward_discr_loss_unbound_without_grad_penalty_witness :
  exists self,
    CViViT_init (demo_args 128 16 4 true true true) demo_weights = Ok self /\
    forward no_grad self (zeros [2; 3; 9; 128; 128]) None false false true false false
      None = Raise UnboundLocalError.
Proof.
  eexists. split; [reflexivity |].
  apply (forward_discr_loss_unbound_without_grad_penalty no_grad
           (demo_args 128 16 4 true true true) demo_weights _
           (zeros [2; 3; 9; 128; 128]) 2 2 false None
           eq_refl valid_input_nine_frames eq_refl eq_refl).
Defined.

Lemma forward_with_mask_returns_exception_class_witness :
  exists self,
    CViViT_init (demo_args 128 16 4 true true true) demo_weights = Ok self /\
    forward no_grad self (zeros [1; 3; 5; 128; 128]) (Some (full_mask true 1 5))
      false false false true false None = Ok NotImplementedError_class.
Proof.
  eexists. split; [reflexivity |].
  eapply (forward_with_mask_returns_exception_class no_grad
            (demo_args 128 16 4 true true true) demo_weights _ _ _ _ 1 1).
  - reflexivity.
  - unfold valid_input. cbn [demo_args arg_temporal_patch_size arg_image_size fst snd].
    repeat split; try lia. right. reflexivity.
  - reflexivity.
  - reflexivity.
  - vm_compute. reflexivity.
Defined.

Lemma forward_image_with_mask_rejected_witness :
  exists self,
    CViViT_init (demo_args 128 16 4 true true true) demo_weights = Ok self /\
    forward no_grad self (zeros [2; 3; 128; 128]) (Some (full_mask true 2 1))
      false true false true false None = Raise AssertionError.
Proof.
  eexists. split; [reflexivity |].
  apply (forward_image_with_mask_rejected no_grad). reflexivity.
Defined.

(** * Further properties of the code *)

(** ** Token and frame arithmetic *)

(** X1.  The two conversions are also inverse starting from tokens: for a
    positive token count [n] that is a multiple of the tokens of one frame,
    [frames_per_num_tokens n] is a frame count [f >= 1] and
    [num_tokens_per_frames f] gives [n] back (the number of frame groups
    within the range where [int(a / b)] is exact). *)
Theorem num_tokens_per_frames_of_frames_per_num_tokens (a : CViViT_args) (w : Weights)
  (self : CViViT) (tokens_per_frame n : Z) :
  CViViT_init a w = Ok self ->
  sensible_geometry a ->
  image_num_tokens self = Ok tokens_per_frame ->
  0 < n -> n mod tokens_per_frame = 0 -> n / tokens_per_frame <= 2 ^ 53 ->
  exists f, frames_per_num_tokens self n = Ok f /\
            1 <= f /\
            num_tokens_per_frames self f true = Ok n.
Proof.
  intros Hinit Hg Etok Hn Hdiv Hbound.
  apply CViViT_init_initialised in Hinit.
  destruct (image_num_tokens_ok a w self Hinit Hg) as (Etok' & Htok).
  rewrite Etok in Etok'. injection Etok' as ->.
  destruct Hg as (_ & _ & _ & _ & Hpt).
  set (tok := fst (arg_image_size a) / fst (arg_patch_size a) *
              (snd (arg_image_size a) / snd (arg_patch_size a))) in *.
  set (pt := arg_temporal_patch_size a) in *.
  set (k := n / tok) in *.
  assert (Hnk : n = k * tok) by (unfold k; apply Z.div_exact in Hdiv; lia).
  assert (Hk : 1 <= k) by nia.
  exists ((k - 1) * pt + 1). split; [| split; [nia |]].
  - unfold frames_per_num_tokens. rewrite Etok. cbn [rbind].
    unfold py_mod, py_floordiv. destruct (Z.eqb_spec tok 0); [lia |]. cbn [rbind].
    rewrite Hdiv. cbn [Z.eqb py_assert rbind].
    destruct (Z.ltb_spec 0 n); [| lia]. cbn [py_assert rbind].
    rewrite (init_temporal_patch_size a w self Hinit). reflexivity.
  - unfold num_tokens_per_frames. rewrite Etok. cbn [rbind].
    rewrite (init_temporal_patch_size a w self Hinit). fold pt.
    unfold py_mod. destruct (Z.eqb_spec pt 0); [lia |]. cbn [rbind].
    replace ((k - 1) * pt + 1 - 1) with ((k - 1) * pt) by lia.
    rewrite Z.mod_mul by assumption. cbn [Z.eqb py_assert rbind].
    rewrite py_int_truediv_exact by lia. cbn [rbind]. f_equal. lia.
Qed.

(** X2.  [image_num_tokens], computed as [int(a / b) * int(c / d)], is the
    product of the two entries of [patch_height_width], computed with [//];
    and the patch grid times the patch size is the image size. *)
Theorem image_num_tokens_is_patch_grid_size (a : CViViT_args) (w : Weights)
  (self : CViViT) :
  CViViT_init a w = Ok self ->
  sensible_geometry a ->
  exists h wd,
    patch_height_width self = Ok (h, wd) /\
    image_num_tokens self = Ok (h * wd) /\
    h * fst (patch_size self) = fst (image_size self) /\
    wd * snd (patch_size self) = snd (image_size self).
Proof.
  intros Hinit Hg. apply CViViT_init_initialised in Hinit.
  destruct (image_num_tokens_ok a w self Hinit Hg) as (Etok & _).
  exists (fst (arg_image_size a) / fst (arg_patch_size a)),
         (snd (arg_image_size a) / snd (arg_patch_size a)).
  split; [apply (init_patch_height_width a w self Hinit) |].
  split; [exact Etok |].
  rewrite (init_patch_size a w self Hinit), (init_image_size a w self Hinit).
  pose proof (init_height _ _ _ Hinit) as Hh. pose proof (init_width _ _ _ Hinit) as Hw.
  pose proof (init_patch_height _ _ _ Hinit). pose proof (init_patch_width _ _ _ Hinit).
  apply Z.div_exact in Hh; [| assumption]. apply Z.div_exact in Hw; [| assumption].
  lia.
Qed.

(** X3.  [get_video_patch_shape f] is
    [(1 + (f - 1) // temporal_patch_size, h, w)] with [(h, w)] the patch grid,
    and for every frame count that [num_tokens_per_frames] accepts the product
    of its entries is [num_tokens_per_frames f]. *)
Theorem get_video_patch_shape_counts_tokens (a : CViViT_args) (w : Weights)
  (self : CViViT) (f : Z) :
  CViViT_init a w = Ok self ->
  sensible_geometry a ->
  get_video_patch_shape self f true =
    Ok [1 + (f - 1) / arg_temporal_patch_size a;
        fst (arg_image_size a) / fst (arg_patch_size a);
        snd (arg_image_size a) / snd (arg_patch_size a)] /\
  (1 <= f -> (f - 1) mod arg_temporal_patch_size a = 0 ->
   (f - 1) / arg_temporal_patch_size a < 2 ^ 53 ->
   num_tokens_per_frames self f true =
     Ok (prodZ [1 + (f - 1) / arg_temporal_patch_size a;
                fst (arg_image_size a) / fst (arg_patch_size a);
                snd (arg_image_size a) / snd (arg_patch_size a)])).
Proof.
  intros Hinit Hg. pose proof Hinit as Hinit0.
  apply CViViT_init_initialised in Hinit.
  destruct (image_num_tokens_ok a w self Hinit Hg) as (Etok & Htok).
  pose proof Hg as (_ & _ & _ & _ & Hpt).
  split.
  - unfold get_video_patch_shape.
    rewrite (init_temporal_patch_size a w self Hinit).
    unfold py_floordiv. destruct (Z.eqb_spec (arg_temporal_patch_size a) 0); [lia |].
    cbn [rbind]. rewrite (init_patch_height_width a w self Hinit). reflexivity.
  - intros Hf Hdiv Hbound.
    set (pt := arg_temporal_patch_size a) in *.
    set (t := (f - 1) / pt) in *.
    assert (Hft : f - 1 = t * pt) by (unfold t; apply Z.div_exact in Hdiv; lia).
    assert (Ht : 0 <= t) by (unfold t; apply Z.div_pos; lia).
    unfold num_tokens_per_frames. rewrite Etok. cbn [rbind].
    rewrite (init_temporal_patch_size a w self Hinit). fold pt.
    unfold py_mod. destruct (Z.eqb_spec pt 0); [lia |]. cbn [rbind].
    rewrite Hdiv. cbn [Z.eqb py_assert rbind].
    rewrite Hft, py_int_truediv_exact by lia. cbn [rbind prodZ fold_right].
    f_equal. ring.
Qed.

(** ** Exits and checks of [forward] *)

Section ForwardExits.

Variable torch_grad : tensor R -> tensor R -> list R.

(** X4.  With [return_only_codebook_ids], [forward] returns the code indices,
    whatever the other flags, in the shape
    [(batch, *get_video_patch_shape(frames))]. *)
Theorem forward_codebook_ids_shape (a : CViViT_args) (w : Weights) (self : CViViT)
  (video : tensor R) (mask : option (tensor bool)) (b t : Z)
  (return_recons return_recons_only return_discr_loss apply_grad_penalty : bool)
  (accelerator_tracker : option unit) :
  CViViT_init a w = Ok self ->
  valid_input a video b t ->
  mask_accepted self video (1 + t * arg_temporal_patch_size a) mask ->
  exists indices grid,
    forward torch_grad self video mask return_recons return_recons_only
      return_discr_loss apply_grad_penalty true accelerator_tracker = Ok (Indices indices) /\
    get_video_patch_shape self (1 + t * arg_temporal_patch_size a) true = Ok grid /\
    shape indices = b :: grid.
Proof.
  intros Hinit Hvalid Hmask. apply CViViT_init_initialised in Hinit.
  destruct (forward_quantize_ok a w self video b t mask Hinit Hvalid Hmask)
    as (q & Eq & _ & _ & _ & _ & Hqh & Hqw & Hps & _ & Hsi).
  destruct Hvalid as (Hpt & _).
  eexists _, _. split; [| split].
  - unfold forward. rewrite Eq. cbn [rbind]. unfold unpack_b_star.
    rewrite Hsi, Hps, Z.eqb_refl. cbn [require rbind]. reflexivity.
  - unfold get_video_patch_shape.
    rewrite (init_temporal_patch_size a w self Hinit).
    unfold py_floordiv. destruct (Z.eqb_spec (arg_temporal_patch_size a) 0); [lia |].
    cbn [rbind]. rewrite (init_patch_height_width a w self Hinit). cbn [rbind].
    reflexivity.
  - cbn [shape]. rewrite Hqh, Hqw.
    replace (1 + t * arg_temporal_patch_size a - 1) with (t * arg_temporal_patch_size a)
      by lia.
    rewrite Z.div_mul by lia. replace (0 + 1 + t) with (1 + t) by lia. reflexivity.
Qed.

(** X5.  With [return_recons_only], [forward] returns the reconstruction, of
    the shape of the video, also when a mask is given: this exit comes before
    the masked loss and its [return NotImplementedError]. *)
Theorem forward_recons_only_with_mask (a : CViViT_args) (w : Weights) (self : CViViT)
  (video : tensor R) (mask : tensor bool) (b t : Z)
  (return_recons return_discr_loss apply_grad_penalty : bool)
  (accelerator_tracker : option unit) :
  CViViT_init a w = Ok self ->
  valid_input a video b t ->
  mask_accepted self video (1 + t * arg_temporal_patch_size a) (Some mask) ->
  exists recon,
    forward torch_grad self video (Some mask) return_recons true return_discr_loss
      apply_grad_penalty false accelerator_tracker = Ok (Recon recon) /\
    shape recon = shape video.
Proof.
  intros Hinit Hvalid Hmask. apply CViViT_init_initialised in Hinit.
  destruct (forward_quantize_ok a w self video b t (Some mask) Hinit Hvalid Hmask)
    as (q & Eq & Himg & _ & _ & _ & Hqh & Hqw & _ & Hst & _).
  destruct (forward_reconstruct_ok a w self video b t q Hinit Hvalid Himg Hqh Hqw Hst)
    as (rv & rr & Er & _ & Srr & _).
  exists rr. split; [| exact Srr].
  unfold forward. rewrite Eq. cbn [rbind]. rewrite Er. reflexivity.
Qed.

(** X6.  [forward] fails its first assertion on a tensor whose rank is
    neither 4 nor 5. *)
Theorem forward_rejects_wrong_rank (self : CViViT) (video : tensor R)
  (mask : option (tensor bool))
  (return_recons return_recons_only return_discr_loss apply_grad_penalty
   return_only_codebook_ids : bool) (accelerator_tracker : option unit) :
  ndim video <> 4 -> ndim video <> 5 ->
  forward torch_grad self video mask return_recons return_recons_only return_discr_loss
    apply_grad_penalty return_only_codebook_ids accelerator_tracker =
  Raise AssertionError.
Proof.
  intros H4 H5. unfold forward, forward_quantize.
  rewrite bool_decide_eq_false_2 by tauto. reflexivity.
Qed.

(** X7.  [forward] rejects (AssertionError) a video, or an image without a
    mask, whose height and width are not [image_size]. *)
Theorem forward_rejects_wrong_image_size (self : CViViT) (video : tensor R)
  (mask : option (tensor bool)) (b c f h w : Z)
  (return_recons return_recons_only return_discr_loss apply_grad_penalty
   return_only_codebook_ids : bool) (accelerator_tracker : option unit) :
  (shape video = [b; c; f; h; w] \/ (shape video = [b; c; h; w] /\ mask = None)) ->
  (h, w) <> image_size self ->
  forward torch_grad self video mask return_recons return_recons_only return_discr_loss
    apply_grad_penalty return_only_codebook_ids accelerator_tracker =
  Raise AssertionError.
Proof.
  intros Hs Hne. unfold forward, forward_quantize.
  destruct Hs as [Hs | [Hs ->]].
  - assert (Hn : ndim video = 5) by (unfold ndim; rewrite Hs; reflexivity).
    rewrite Hn, bool_decide_eq_true_2 by auto. change (5 =? 4) with false.
    cbn [py_assert rbind]. rewrite Hs.
    rewrite bool_decide_eq_false_2 by exact Hne. reflexivity.
  - assert (Hn : ndim video = 4) by (unfold ndim; rewrite Hs; reflexivity).
    rewrite Hn, bool_decide_eq_true_2 by auto. change (4 =? 4) with true.
    unfold add_time_axis. rewrite Hs.
    cbn [py_assert rbind exists_ negb shape].
    rewrite bool_decide_eq_false_2 by exact Hne. reflexivity.
Qed.

(** X8.  [forward] rejects (AssertionError) a video of the right size whose
    number of frames less one is not a multiple of the temporal patch size;
    with a temporal patch size of 0 the check itself divides by zero. *)
Theorem forward_rejects_indivisible_frame_count (self : CViViT) (video : tensor R)
  (b c f : Z)
  (return_recons return_recons_only return_discr_loss apply_grad_penalty
   return_only_codebook_ids : bool) (accelerator_tracker : option unit) :
  shape video = [b; c; f; fst (image_size self); snd (image_size self)] ->
  (f - 1) mod temporal_patch_size self <> 0 \/ temporal_patch_size self = 0 ->
  forward torch_grad self video None return_recons return_recons_only return_discr_loss
    apply_grad_penalty return_only_codebook_ids accelerator_tracker =
  Raise (if temporal_patch_size self =? 0 then ZeroDivisionError else AssertionError).
Proof.
  intros Hs Hf. unfold forward, forward_quantize.
  assert (Hn : ndim video = 5) by (unfold ndim; rewrite Hs; reflexivity).
  rewrite Hn, bool_decide_eq_true_2 by auto. change (5 =? 4) with false.
  cbn [py_assert rbind]. rewrite Hs.
  rewrite bool_decide_eq_true_2 by (destruct (image_size self); reflexivity).
  cbn [py_assert rbind]. unfold divisible_by, py_mod.
  destruct (Z.eqb_spec (temporal_patch_size self) 0) as [E | E]; [reflexivity |].
  cbn [rbind]. destruct Hf as [Hf | Hf]; [| contradiction].
  destruct (Z.eqb_spec ((f - 1) mod temporal_patch_size self) 0); [contradiction |].
  reflexivity.
Qed.

(** X9.  [forward] rejects (AssertionError) a mask whose last axis is not the
    number of frames of the video. *)
Theorem forward_rejects_mask_of_other_length (self : CViViT) (video : tensor R)
  (mask : tensor bool) (b c f : Z)
  (return_recons return_recons_only return_discr_loss apply_grad_penalty
   return_only_codebook_ids : bool) (accelerator_tracker : option unit) :
  shape video = [b; c; f; fst (image_size self); snd (image_size self)] ->
  shape mask <> [] ->
  List.last (shape mask) 0 <> f ->
  forward torch_grad self video (Some mask) return_recons return_recons_only
    return_discr_loss apply_grad_penalty return_only_codebook_ids accelerator_tracker =
  Raise AssertionError.
Proof.
  intros Hs Hne Hl. unfold forward, forward_quantize.
  assert (Hn : ndim video = 5) by (unfold ndim; rewrite Hs; reflexivity).
  rewrite Hn, bool_decide_eq_true_2 by auto. change (5 =? 4) with false.
  cbn [py_assert rbind]. rewrite Hs.
  rewrite bool_decide_eq_true_2 by (destruct (image_size self); reflexivity).
  cbn [py_assert rbind].
  destruct (shape mask) as [| z l] eqn:E; [contradiction |].
  destruct (Z.eqb_spec (List.last (z :: l) 0) f); [contradiction |]. reflexivity.
Qed.

(** X10.  Without [use_vgg_and_gan], [forward] returns the plain mean squared
    error between the video and the reconstruction that [return_recons_only]
    gives (with that reconstruction under [return_recons]); no perceptual
    metric, discriminator or tracker is consulted. *)
Theorem forward_without_vgg_and_gan_returns_plain_mse (a : CViViT_args) (w : Weights)
  (self : CViViT) (video : tensor R) (b t : Z)
  (return_recons apply_grad_penalty : bool) (accelerator_tracker : option unit) :
  CViViT_init a w = Ok self ->
  valid_input a video b t ->
  arg_use_vgg_and_gan a = false ->
  exists recon,
    forward torch_grad self video None false true false apply_grad_penalty false
      accelerator_tracker = Ok (Recon recon) /\
    let loss := mean (zip_with sqdiff (data video) (data recon)) in
    forward torch_grad self video None return_recons false false apply_grad_penalty false
      accelerator_tracker =
    Ok (if return_recons then LossRecon loss recon else Loss loss).
Proof.
  intros Hinit Hvalid Hgan. apply CViViT_init_initialised in Hinit.
  destruct (forward_quantize_ok a w self video b t None Hinit Hvalid I)
    as (q & Eq & Himg & Sv & Dv & _ & Hqh & Hqw & _ & Hst & _).
  destruct (forward_reconstruct_ok a w self video b t q Hinit Hvalid Himg Hqh Hqw Hst)
    as (rv & rr & Er & Srv & _ & Drr).
  destruct (init_attributes a w self Hinit) as (Ugan & _).
  exists rr. split.
  - unfold forward. rewrite Eq. cbn [rbind]. rewrite Er. reflexivity.
  - cbv zeta. unfold forward. rewrite Eq. cbn [rbind]. rewrite Er. cbn [rbind].
    rewrite (reconstruction_loss_unmasked (q_video q) rv (q_c q)
               (eq_trans Srv (eq_sym Sv))).
    cbn [rbind exists_]. unfold forward_gen_branch. rewrite Ugan, Hgan. cbn [negb].
    rewrite Dv, Drr. destruct return_recons; reflexivity.
Qed.

(** X11.  With logging enabled ([wandb_mode] other than "disabled") and no
    [accelerator_tracker], the generator branch of [forward] ends in an
    AttributeError at [accelerator.log], after all the losses are computed;
    the discriminator, where there is one, and the feature extractor, where
    the clip has more frames, are taken to accept their inputs. *)
Theorem forward_logging_without_tracker_raises (a : CViViT_args) (w : Weights)
  (self : CViViT) (video : tensor R) (b t : Z)
  (return_recons apply_grad_penalty : bool)
  (discr_base_dim : Z) (discr_attn_res_layers : list Z) (dw : DiscriminatorWeights) :
  CViViT_init a w = Ok self ->
  valid_input a video b t ->
  arg_use_vgg_and_gan a = true ->
  arg_use_hinge_loss a = true \/ arg_use_discr a = false ->
  arg_wandb_mode_disabled a = false ->
  (arg_use_discr a = true ->
   discriminator_runs a w discr_base_dim discr_attn_res_layers dw) ->
  (1 <= t -> feature_vectors (w_i3d w)) ->
  forward torch_grad self video None return_recons false false apply_grad_penalty
    false None = Raise AttributeError.
Proof.
  intros Hinit Hvalid Hgan Hhinge Hlog _ Hfeat.
  apply CViViT_init_initialised in Hinit.
  destruct (forward_quantize_ok a w self video b t None Hinit Hvalid I)
    as (q & Eq & Himg & Sv & _ & Hc & Hqh & Hqw & _ & Hst & _).
  destruct (forward_reconstruct_ok a w self video b t q Hinit Hvalid Himg Hqh Hqw Hst)
    as (rv & rr & Er & Srv & _ & _).
  destruct (init_attributes a w self Hinit)
    as (Ugan & Udiscr & Uwandb & _ & Adiscr & Alpips & Ai3d & _ & Agen).
  pose proof Hvalid as (Hpt & _ & _ & _ & Ht & _).
  rewrite Hgan in *. cbn [andb] in Adiscr.
  destruct (frames_to_batch_shape _ _ _ _ _ (q_video q) Sv) as (fi & Efi & _).
  destruct (frames_to_batch_shape _ _ _ _ _ rv Srv) as (fr & Efr & _).
  unfold forward. rewrite Eq. cbn [rbind]. rewrite Er. cbn [rbind].
  rewrite (reconstruction_loss_unmasked (q_video q) rv (q_c q) (eq_trans Srv (eq_sym Sv))).
  cbn [rbind exists_]. unfold forward_gen_branch. rewrite Ugan. cbn [negb].
  rewrite Efi. cbn [rbind]. rewrite Efr. cbn [rbind].
  unfold perceptual_loss_of. rewrite Alpips. cbn [getattr rbind].
  destruct (i3d_video_perceptual_loss_ok self (w_i3d w) (q_video q) rv _ _ _ _ _
              Ai3d Sv Srv) as (il & -> & _).
  { intros Hlt. apply Hfeat. nia. }
  cbn [rbind].
  assert (Eg : exists g, generator_loss_of self fr = Ok g).
  { unfold generator_loss_of. rewrite Udiscr, Agen, Adiscr.
    destruct (arg_use_discr a); [| eexists; reflexivity].
    destruct Hhinge as [-> | ?]; [| discriminate].
    cbn [getattr rbind]. eexists. reflexivity. }
  destruct Eg as (g & ->). cbn [rbind].
  rewrite Uwandb, Hlog. reflexivity.
Qed.

End ForwardExits.

(** ** [encode], [decode] and [decode_from_codebook_indices] *)

(** X13.  [encode] returns the tokens on the patch grid of the module: an input
    [b, f, h', w', d] whose [h' * w'] positions are as many as the grid
    [h * w] comes back in the shape [b, f, h, w, d]. *)
Theorem encode_regrids_tokens (a : CViViT_args) (w : Weights) (self : CViViT)
  (x : tensor R) (b f h' w' d : Z) :
  CViViT_init a w = Ok self ->
  b <> 0 ->
  shape x = [b; f; h'; w'; d] ->
  h' * w' = fst (arg_image_size a) / fst (arg_patch_size a) *
            (snd (arg_image_size a) / snd (arg_patch_size a)) ->
  exists y, encode self x = Ok y /\
            shape y = [b; f; fst (arg_image_size a) / fst (arg_patch_size a);
                       snd (arg_image_size a) / snd (arg_patch_size a); d].
Proof.
  intros Hinit Hb Hx E. apply CViViT_init_initialised in Hinit.
  set (h := fst (arg_image_size a) / fst (arg_patch_size a)) in *.
  set (wd := snd (arg_image_size a) / snd (arg_patch_size a)) in *.
  unfold encode. rewrite Hx, (init_patch_height_width a w self Hinit).
  fold h wd. cbn [rbind].
  destruct (merge_frames_shape b f h' w' d x Hx) as (y1 & E1 & S1).
  rewrite E1. cbn [rbind].
  set (y1' := Transformer_forward (enc_spatial_transformer self) y1
                (Some (position_bias_fn (spatial_rel_pos_bias self) h wd))
                (removelast [b; f; h'; w'; d])).
  assert (S1' : shape y1' = [b * f; h' * w'; d]) by exact S1.
  rewrite E in S1'.
  destruct (split_frames_shape b f h wd d y1' Hb S1') as (y2 & E2 & S2).
  rewrite E2. cbn [rbind].
  destruct (merge_positions_shape b f h wd d y2 S2) as (y3 & E3 & S3).
  rewrite E3. cbn [rbind].
  apply split_positions_shape. exact S3.
Qed.

(** X14.  [decode] takes the tokens flattened, [b, (t h w), d], as well as on
    the grid, [b, t, h, w, d], and gives the same video for both: [1 + t] token
    frames become [1 + t * temporal_patch_size] frames of the image size. *)
Theorem decode_flat_and_grid_tokens (a : CViViT_args) (w : Weights) (self : CViViT)
  (tokens : list R) (b t : Z) :
  CViViT_init a w = Ok self ->
  0 < fst (arg_image_size a) -> 0 < snd (arg_image_size a) ->
  arg_temporal_patch_size a <> 0 ->
  b <> 0 -> 0 <= t ->
  let h := fst (arg_image_size a) / fst (arg_patch_size a) in
  let wd := snd (arg_image_size a) / snd (arg_patch_size a) in
  exists video,
    decode self (mkTensor [b; 1 + t; h; wd; arg_dim a] tokens) = Ok video /\
    decode self (mkTensor [b; (1 + t) * (h * wd); arg_dim a] tokens) = Ok video /\
    shape video = [b; arg_channels a; 1 + t * arg_temporal_patch_size a;
                   fst (arg_image_size a); snd (arg_image_size a)].
Proof.
  intros Hinit HH HW Hpt Hb Ht h wd. apply CViViT_init_initialised in Hinit.
  destruct (decode_shape a w self b t (mkTensor [b; 1 + t; h; wd; arg_dim a] tokens)
              Hinit Hpt Hb Ht eq_refl) as (video & Ev & Sv).
  exists video. split; [exact Ev |]. split; [| exact Sv].
  rewrite <- Ev. unfold decode. cbn [shape].
  rewrite (init_patch_height_width a w self Hinit). fold h wd. cbn [rbind].
  change (ndim (mkTensor [b; (1 + t) * (h * wd); arg_dim a] tokens) =? 3) with true.
  change (ndim (mkTensor [b; 1 + t; h; wd; arg_dim a] tokens) =? 3) with false.
  unfold split_tokens. cbn [shape].
  assert (Hhw : h * wd <> 0).
  { pose proof (init_height _ _ _ Hinit) as Hh. pose proof (init_width _ _ _ Hinit) as Hw.
    pose proof (init_patch_height _ _ _ Hinit). pose proof (init_patch_width _ _ _ Hinit).
    apply Z.div_exact in Hh; [| assumption]. apply Z.div_exact in Hw; [| assumption].
    fold h in Hh. fold wd in Hw. nia. }
  rewrite einops_infer_mul by exact Hhw. reflexivity.
Qed.

(** The rows that [index_rows] picks when every index is in range. *)
Lemma index_rows_in_range (table : tensor R) (indices : tensor Z) (size d : Z) :
  shape table = [size; d] ->
  Forall (fun i => - size <= i < size) (data indices) ->
  exists codes, index_rows table indices = Ok codes /\
                shape codes = shape indices ++ [d].
Proof.
  intros Ht Hall. unfold index_rows. rewrite Ht.
  assert (E : exists picked,
            fold_right (fun i acc =>
                do l <- acc;
                do _ <- require IndexError ((- size <=? i) && (i <? size));
                Ok (take (Z.to_nat d) (drop (Z.to_nat ((i mod size) * d)) (data table))
                    :: l)) (Ok []) (data indices) = Ok picked).
  { induction Hall as [| i l Hi _ IH]; [eexists; reflexivity |].
    destruct IH as (picked & IH). cbn [fold_right]. rewrite IH. cbn [rbind].
    destruct (Z.leb_spec (- size) i); [| lia]. destruct (Z.ltb_spec i size); [| lia].
    cbn [andb require rbind]. eexists. reflexivity. }
  destruct E as (picked & ->). cbn [rbind]. eexists. split; reflexivity.
Qed.

Lemma index_rows_out_of_range (table : tensor R) (indices : tensor Z) (size d i : Z) :
  shape table = [size; d] ->
  In i (data indices) -> (i < - size \/ size <= i) ->
  index_rows table indices = Raise IndexError.
Proof.
  intros Ht Hin Hout. unfold index_rows. rewrite Ht.
  assert (E : fold_right (fun i acc =>
                do l <- acc;
                do _ <- require IndexError ((- size <=? i) && (i <? size));
                Ok (take (Z.to_nat d) (drop (Z.to_nat ((i mod size) * d)) (data table))
                    :: l)) (Ok []) (data indices) = Raise IndexError).
  { induction (data indices) as [| j l IH]; [destruct Hin |].
    cbn [fold_right].
    assert (Hacc : forall l',
              (exists p, fold_right (fun i acc =>
                do l <- acc;
                do _ <- require IndexError ((- size <=? i) && (i <? size));
                Ok (take (Z.to_nat d) (drop (Z.to_nat ((i mod size) * d)) (data table))
                    :: l)) (Ok []) l' = Ok p) \/
              fold_right (fun i acc =>
                do l <- acc;
                do _ <- require IndexError ((- size <=? i) && (i <? size));
                Ok (take (Z.to_nat d) (drop (Z.to_nat ((i mod size) * d)) (data table))
                    :: l)) (Ok []) l' = Raise IndexError).
    { induction l' as [| k l' IH']; [left; eexists; reflexivity |].
      cbn [fold_right]. destruct IH' as [(p & ->) | ->]; [| right; reflexivity].
      cbn [rbind]. destruct ((- size <=? k) && (k <? size)); cbn [require rbind];
        [left; eexists; reflexivity | right; reflexivity]. }
    destruct Hin as [-> | Hin].
    - destruct (Hacc l) as [(p & ->) | ->]; [| reflexivity]. cbn [rbind].
      replace ((- size <=? i) && (i <? size)) with false; [reflexivity |].
      symmetry. apply andb_false_iff.
      destruct Hout; [left; apply Z.leb_gt | right; apply Z.ltb_ge]; lia.
    - rewrite (IH Hin). reflexivity. }
  rewrite E. reflexivity.
Qed.

Section CodebookDecoding.

Variable torch_grad : tensor R -> tensor R -> list R.

(** X15.  [decode_from_codebook_indices] applies to the indices that [forward]
    returns under [return_only_codebook_ids]: when they lie within the
    codebook, the decoded video has the shape of the input video (a rank-5
    video also for an image). *)
Theorem decode_from_codebook_indices_of_forward (a : CViViT_args) (w : Weights)
  (self : CViViT) (cb : Codebook) (video : tensor R) (b t size : Z)
  (accelerator_tracker : option unit) :
  CViViT_init a w = Ok self ->
  valid_input a video b t ->
  shape (codebook cb) = [size; in_features (project_out cb)] ->
  out_features (project_out cb) = arg_dim a ->
  exists indices,
    forward torch_grad self video None false false false true true accelerator_tracker
      = Ok (Indices indices) /\
    (Forall (fun i => - size <= i < size) (data indices) ->
     exists recon,
       decode_from_codebook_indices self cb indices = Ok recon /\
       shape recon = [b; arg_channels a; 1 + t * arg_temporal_patch_size a;
                      fst (arg_image_size a); snd (arg_image_size a)]).
Proof.
  intros Hinit Hvalid Hcb Hout.
  apply CViViT_init_initialised in Hinit.
  destruct (forward_quantize_ok a w self video b t None Hinit Hvalid I)
    as (q & Eq & _ & _ & _ & _ & Hqh & Hqw & Hps & _ & Hsi).
  pose proof Hvalid as (Hpt & HH & HW & Hb & Ht & _).
  exists (mkTensor (b :: q_packed_fhw_shape q) (data (q_indices q))). split.
  { unfold forward. rewrite Eq. cbn [rbind]. unfold unpack_b_star.
    rewrite Hsi, Hps, Z.eqb_refl. reflexivity. }
  cbn [data]. intros Hall.
  set (indices := mkTensor (b :: q_packed_fhw_shape q) (data (q_indices q))).
  assert (Si : shape indices =
               [b; 1 + t; fst (arg_image_size a) / fst (arg_patch_size a);
                snd (arg_image_size a) / snd (arg_patch_size a)]).
  { unfold indices. cbn [shape]. rewrite Hps, Hqh, Hqw. reflexivity. }
  destruct (index_rows_in_range (codebook cb) indices size _ Hcb Hall)
    as (codes & Ec & Sc).
  destruct (Linear_forward_shape (project_out cb) (shape indices) codes Sc)
    as (proj & Ep & Sp).
  unfold decode_from_codebook_indices. rewrite Ec. cbn [rbind]. rewrite Ep. cbn [rbind].
  apply (decode_shape a w self b t proj Hinit); try lia.
  rewrite Sp, Si, Hout. reflexivity.
Qed.

(** X16.  [decode_from_codebook_indices] raises IndexError when some index is
    outside [[-codebook_size, codebook_size)]. *)
Theorem decode_from_codebook_indices_out_of_range (self : CViViT) (cb : Codebook)
  (indices : tensor Z) (size d i : Z) :
  shape (codebook cb) = [size; d] ->
  In i (data indices) -> (i < - size \/ size <= i) ->
  decode_from_codebook_indices self cb indices = Raise IndexError.
Proof.
  intros Hcb Hin Hout. unfold decode_from_codebook_indices.
  rewrite (index_rows_out_of_range (codebook cb) indices size d i Hcb Hin Hout).
  reflexivity.
Qed.

End CodebookDecoding.

(** ** Token masks *)

Lemma remainders_fold (p : Z) (sums : list Z) :
  p <> 0 ->
  fold_right (fun s acc => do l <- acc; do r <- py_mod (s - 1) p; Ok (r :: l)) (Ok []) sums
  = Ok (map (fun s => (s - 1) mod p) sums).
Proof.
  intros Hp. induction sums as [| s l IH]; [reflexivity |].
  cbn [fold_right map]. rewrite IH. cbn [rbind]. unfold py_mod.
  destruct (Z.eqb_spec p 0); [contradiction |]. reflexivity.
Qed.

Lemma forallb_remainders_true (p : Z) (sums : list Z) :
  Forall (fun s => (s - 1) mod p = 0) sums ->
  forallb (fun r => r =? 0) (map (fun s => (s - 1) mod p) sums) = true.
Proof.
  induction 1 as [| s l Hs _ IH]; [reflexivity |].
  cbn [map forallb]. rewrite Hs, IH. reflexivity.
Qed.

Lemma forallb_remainders_false (p : Z) (sums : list Z) :
  Exists (fun s => (s - 1) mod p <> 0) sums ->
  forallb (fun r => r =? 0) (map (fun s => (s - 1) mod p) sums) = false.
Proof.
  induction 1 as [s l Hs | s l _ IH]; cbn [map forallb].
  - destruct (Z.eqb_spec ((s - 1) mod p) 0); [contradiction | reflexivity].
  - rewrite IH. apply andb_false_r.
Qed.

(** X17.  [calculate_video_token_mask]: for a frame mask [b, 1 + t * p], [p]
    the temporal patch size, in whose rows the number of valid frames less one
    is a multiple of [p], the token mask has the shape
    [b, (1 + t) * ((h // ph) * (w // pw))]. *)
Theorem calculate_video_token_mask_shape (self : CViViT) (videos : tensor R)
  (mask : tensor bool) (n c f h w b t : Z) :
  shape videos = [n; c; f; h; w] ->
  0 < temporal_patch_size self ->
  fst (patch_size self) <> 0 -> snd (patch_size self) <> 0 ->
  0 <= t ->
  shape mask = [b; 1 + t * temporal_patch_size self] ->
  Forall (fun s => (s - 1) mod temporal_patch_size self = 0) (valid_frame_counts mask) ->
  exists token_mask,
    calculate_video_token_mask self videos mask = Ok token_mask /\
    shape token_mask = [b; (1 + t) * (h / fst (patch_size self) * (w / snd (patch_size self)))].
Proof.
  intros Hv Hp Hph Hpw Ht Hm Hrows.
  unfold valid_frame_counts in Hrows. rewrite Hm in Hrows. cbn [nth] in Hrows.
  unfold calculate_video_token_mask. rewrite Hv. cbn [rev app].
  destruct (patch_size self) as [ph pw]. cbn [fst snd] in *.
  rewrite Hm. rewrite remainders_fold by lia. cbn [rbind].
  rewrite forallb_remainders_true by exact Hrows. cbn [py_assert rbind].
  assert (Hn : 1 <= nth 1 (shape mask) 0) by (rewrite Hm; cbn; nia).
  assert (Hr : nth 1 (shape (slice_rest 1 mask)) 0 = t * temporal_patch_size self).
  { rewrite slice_rest_shape by exact Hn. rewrite Hm. cbn. lia. }
  rewrite Hr.
  rewrite einops_infer_mul by lia. cbn [rbind].
  edestruct (torch_cat_shape 1 (slice_first 1 mask)) as (vm & Evm & Svm);
    [| | | | rewrite Evm].
  1-4: rewrite slice_first_shape by exact Hn; rewrite Hm; cbn; try reflexivity; lia.
  rewrite slice_first_shape in Svm by exact Hn. rewrite Hm in Svm. cbn in Svm.
  cbn [rbind]. unfold py_floordiv.
  destruct (Z.eqb_spec ph 0); [contradiction |].
  destruct (Z.eqb_spec pw 0); [contradiction |]. cbn [rbind].
  unfold repeat_over_positions. rewrite Svm. eexists. split; reflexivity.
Qed.

(** X18.  [calculate_video_token_mask] fails its assertion as soon as one row
    of the frame mask has a number of valid frames which, less one, is not a
    multiple of the temporal patch size. *)
Theorem calculate_video_token_mask_rejects_bad_row (self : CViViT) (videos : tensor R)
  (mask : tensor bool) (n c f h w b t : Z) :
  shape videos = [n; c; f; h; w] ->
  temporal_patch_size self <> 0 ->
  shape mask = [b; t] ->
  Exists (fun s => (s - 1) mod temporal_patch_size self <> 0) (valid_frame_counts mask) ->
  calculate_video_token_mask self videos mask = Raise AssertionError.
Proof.
  intros Hv Hp Hm Hrows.
  unfold valid_frame_counts in Hrows. rewrite Hm in Hrows. cbn [nth] in Hrows.
  unfold calculate_video_token_mask. rewrite Hv. cbn [rev app].
  destruct (patch_size self) as [ph pw].
  rewrite Hm. rewrite remainders_fold by lia. cbn [rbind].
  rewrite forallb_remainders_false by exact Hrows. reflexivity.
Qed.

(** X19.  [calculate_video_token_mask_firstframe] leaves the first frame out:
    under the conditions of X17 its token mask has the shape
    [b, t * ((h // ph) * (w // pw))]. *)
Theorem calculate_video_token_mask_firstframe_shape (self : CViViT) (videos : tensor R)
  (mask : tensor bool) (n c f h w b t : Z) :
  shape videos = [n; c; f; h; w] ->
  0 < temporal_patch_size self ->
  fst (patch_size self) <> 0 -> snd (patch_size self) <> 0 ->
  0 <= t ->
  shape mask = [b; 1 + t * temporal_patch_size self] ->
  Forall (fun s => (s - 1) mod temporal_patch_size self = 0) (valid_frame_counts mask) ->
  exists token_mask,
    calculate_video_token_mask_firstframe self videos mask = Ok token_mask /\
    shape token_mask = [b; t * (h / fst (patch_size self) * (w / snd (patch_size self)))].
Proof.
  intros Hv Hp Hph Hpw Ht Hm Hrows.
  unfold valid_frame_counts in Hrows. rewrite Hm in Hrows. cbn [nth] in Hrows.
  unfold calculate_video_token_mask_firstframe. rewrite Hv. cbn [rev app].
  destruct (patch_size self) as [ph pw]. cbn [fst snd] in *.
  rewrite Hm. rewrite remainders_fold by lia. cbn [rbind].
  rewrite forallb_remainders_true by exact Hrows. cbn [py_assert rbind].
  assert (Hn : 1 <= nth 1 (shape mask) 0) by (rewrite Hm; cbn; nia).
  assert (Hr : nth 1 (shape (slice_rest 1 mask)) 0 = t * temporal_patch_size self).
  { rewrite slice_rest_shape by exact Hn. rewrite Hm. cbn. lia. }
  rewrite Hr.
  rewrite einops_infer_mul by lia. cbn [rbind]. unfold py_floordiv.
  destruct (Z.eqb_spec ph 0); [contradiction |].
  destruct (Z.eqb_spec pw 0); [contradiction |]. cbn [rbind].
  eexists. split; reflexivity.
Qed.

(** An all-false mask has no valid frame in any row. *)
Lemma valid_frame_counts_all_false (b f : Z) :
  0 <= b -> 0 <= f ->
  valid_frame_counts (full_mask false b f) = replicate (Z.to_nat b) 0.
Proof.
  intros Hb Hf. unfold valid_frame_counts, full_mask. cbn [shape data nth].
  replace (Z.to_nat (b * f)) with (Z.to_nat f * Z.to_nat b)%nat by nia.
  replace (rows f b) with (@rows bool f (Z.of_nat (Z.to_nat b)))
    by (rewrite Z2Nat.id by exact Hb; reflexivity).
  rewrite rows_replicate by exact Hf.
  rewrite (map_const_replicate _ 0).
  - rewrite length_replicate. reflexivity.
  - intros r Hr. apply list_elem_of_In, elem_of_replicate in Hr as [-> _].
    induction (Z.to_nat f) as [| k IH]; [reflexivity |].
    cbn [replicate]. rewrite filter_cons_False by discriminate. exact IH.
Qed.

(** With a temporal patch size of at least 2 a count of 0 valid frames fails
    the divisibility check: [(0 - 1) % p] is [p - 1]. *)
Lemma all_false_rows_fail (p b t : Z) :
  2 <= p -> 1 <= b -> 0 <= t ->
  Exists (fun s => (s - 1) mod p <> 0) (valid_frame_counts (full_mask false b t)).
Proof.
  intros Hp Hb Ht. rewrite valid_frame_counts_all_false by lia.
  destruct (Z.to_nat b) as [| k] eqn:E; [lia |].
  cbn [replicate]. apply Exists_cons_hd.
  change (0 - 1) with (-1).
  intros H. apply Z.mod_divide in H; [| lia].
  destruct H as [q Hq].
  assert (Hcases : q <= -1 \/ q = 0 \/ 1 <= q) by lia.
  destruct Hcases as [Hq' | [-> | Hq']]; nia.
Qed.

(** X20.  With a temporal patch size of at least 2,
    [calculate_video_token_mask] rejects (AssertionError) every all-false
    frame mask of a non-empty batch: [(0 - 1) % p] is not 0. *)
Theorem calculate_video_token_mask_all_false (self : CViViT) (videos : tensor R)
  (n c f h w b t : Z) :
  shape videos = [n; c; f; h; w] ->
  2 <= temporal_patch_size self ->
  1 <= b -> 0 <= t ->
  calculate_video_token_mask self videos (full_mask false b t) = Raise AssertionError.
Proof.
  intros Hv Hp Hb Ht.
  pose proof (all_false_rows_fail (temporal_patch_size self) b t Hp Hb Ht) as Hrows.
  unfold valid_frame_counts in Hrows. cbn [full_mask shape data nth] in Hrows.
  unfold calculate_video_token_mask. rewrite Hv. cbn [rev app].
  destruct (patch_size self) as [ph pw]. cbn [full_mask shape data].
  rewrite remainders_fold by lia. cbn [rbind].
  rewrite forallb_remainders_false by exact Hrows. reflexivity.
Qed.

(** The token mask is computed after the encoder: a video that [forward]
    takes without a mask stops at the error of the token mask. *)
Lemma forward_quantize_mask_raises (self : CViViT) (video : tensor R) (m : tensor bool)
  (e : exn) (q0 : quantized) :
  ndim video = 5 ->
  forward_quantize self video None = Ok q0 ->
  shape m <> [] -> List.last (shape m) 0 = nth 2 (shape video) 0 ->
  calculate_video_token_mask self video m = Raise e ->
  forward_quantize self video (Some m) = Raise e.
Proof.
  intros Hn Hq0 Hne Hlast Hmask. unfold forward_quantize in *.
  rewrite Hn in *. rewrite bool_decide_eq_true_2 in * by auto.
  change (5 =? 4) with false in *. cbn [py_assert rbind] in *.
  unfold ndim in Hn.
  destruct (shape video) as [| b [| c [| f [| ih [| iw [| x l]]]]]]; cbn in Hn; try lia.
  cbn [nth] in Hlast.
  destruct (bool_decide ((ih, iw) = image_size self)); cbn [py_assert rbind] in *;
    [| discriminate].
  destruct (shape m) as [| z sh]; [contradiction |].
  rewrite Hlast, Z.eqb_refl. cbn [py_assert rbind].
  destruct (divisible_by (f - 1) (temporal_patch_size self)) as [[|] | ?];
    cbn [py_assert rbind] in *; try discriminate.
  destruct (Sequential_forward (to_patch_emb_first_frame self) (slice_first 2 video))
    as [first_frame_tokens |]; cbn [rbind] in *; [| discriminate].
  destruct (Sequential_forward (to_patch_emb self) (slice_rest 2 video))
    as [rest_frames_tokens |]; cbn [rbind] in *; [| discriminate].
  destruct (torch_cat 1 first_frame_tokens rest_frames_tokens) as [tokens |];
    cbn [rbind] in *; [| discriminate].
  destruct (shape tokens) as [| ? [| ? [| ? [| ? [| ? [| ? ?]]]]]]; try discriminate.
  destruct (encode self tokens) as [tokens' |]; cbn [rbind] in *; [| discriminate].
  destruct (pack_b_star_d tokens') as [[tk ps] |]; cbn [rbind] in *; [| discriminate].
  rewrite Hmask. reflexivity.
Qed.

Section ForwardMasks.

Variable torch_grad : tensor R -> tensor R -> list R.

(** X21.  With a temporal patch size of at least 2, [forward] raises
    AssertionError on an all-false mask for every valid input and whatever the
    flags: the token mask is computed before any exit. *)
Theorem forward_rejects_all_false_mask (a : CViViT_args) (w : Weights) (self : CViViT)
  (video : tensor R) (b t : Z)
  (return_recons return_recons_only return_discr_loss apply_grad_penalty
   return_only_codebook_ids : bool) (accelerator_tracker : option unit) :
  CViViT_init a w = Ok self ->
  valid_input a video b t ->
  2 <= arg_temporal_patch_size a ->
  forward torch_grad self video
    (Some (full_mask false b (1 + t * arg_temporal_patch_size a)))
    return_recons return_recons_only return_discr_loss apply_grad_penalty
    return_only_codebook_ids accelerator_tracker =
  Raise AssertionError.
Proof.
  intros Hinit Hvalid Hp. apply CViViT_init_initialised in Hinit.
  destruct (forward_quantize_ok a w self video b t None Hinit Hvalid I)
    as (q & Eq & _).
  pose proof Hvalid as (_ & _ & _ & Hb & Ht & [[Hs _] | Hs]).
  - (* an image: [assert not exists(mask)] *)
    assert (Hn : ndim video = 4) by (unfold ndim; rewrite Hs; reflexivity).
    unfold forward, forward_quantize.
    rewrite bool_decide_eq_true_2 by auto. rewrite Hn.
    cbn [Z.eqb Pos.eqb py_assert rbind]. unfold add_time_axis. rewrite Hs. reflexivity.
  - assert (Hn : ndim video = 5) by (unfold ndim; rewrite Hs; reflexivity).
    set (f := 1 + t * arg_temporal_patch_size a) in *.
    assert (Hmask : calculate_video_token_mask self video (full_mask false b f)
                    = Raise AssertionError).
    { assert (Hpt : 2 <= temporal_patch_size self)
        by (rewrite (init_temporal_patch_size a w self Hinit); exact Hp).
      assert (Hf : 0 <= f) by (unfold f; nia).
      pose proof (all_false_rows_fail (temporal_patch_size self) b f Hpt
                    ltac:(lia) Hf) as Hrows.
      unfold valid_frame_counts in Hrows. cbn [full_mask shape data nth] in Hrows.
      unfold calculate_video_token_mask. rewrite Hs. cbn [rev app].
      destruct (patch_size self) as [ph pw]. cbn [full_mask shape data].
      rewrite remainders_fold by lia. cbn [rbind].
      rewrite forallb_remainders_false by exact Hrows. reflexivity. }
    unfold forward.
    rewrite (forward_quantize_mask_raises self video (full_mask false b f)
               AssertionError q Hn Eq);
      [reflexivity | discriminate | rewrite Hs; reflexivity | exact Hmask].
Qed.

End ForwardMasks.

(** ** Checkpoints *)

Lemma Module_state_dict_keys (self : gmap string attribute) (k : string) :
  In k (Module_state_dict self) <->
  exists name tensors t,
    self !! name = Some (Submodule tensors) /\ In t tensors /\
    k = String.append name (String.append "." t).
Proof.
  split.
  - unfold Module_state_dict. intros H. apply in_flat_map in H as ([name attr] & Hin & Hk).
    apply list_elem_of_In, elem_of_map_to_list in Hin. cbn [fst snd] in Hk.
    destruct attr as [tensors | |]; try destruct Hk.
    apply in_map_iff in Hk as (t & <- & Ht). eauto 6.
  - intros (name & tensors & t & Hl & Ht & ->).
    apply (Module_state_dict_key self name t tensors Hl Ht).
Qed.

Lemma remove_vgg_without_vgg {X} (fn : gmap string attribute -> result X)
  (self : gmap string attribute) :
  self !! "vgg"%string = None ->
  remove_vgg fn self = (self, fn self).
Proof.
  intros Hv. unfold remove_vgg. rewrite Hv.
  rewrite bool_decide_eq_false_2 by (intros [? ?]; discriminate).
  destruct (fn self); reflexivity.
Qed.

(** X24.  [state_dict] leaves the instance as it was and returns exactly the
    keys [name.tensor] of the registered sub-modules whose attribute name is
    not [vgg]. *)
Theorem state_dict_omits_exactly_vgg (self : gmap string attribute) :
  exists keys,
    state_dict self = (self, Ok keys) /\
    forall k,
      In k keys <->
      exists name tensors t,
        name <> "vgg"%string /\ self !! name = Some (Submodule tensors) /\
        In t tensors /\ k = String.append name (String.append "." t).
Proof.
  exists (Module_state_dict (delete "vgg"%string self)). split.
  - unfold state_dict. destruct (self !! "vgg"%string) as [v |] eqn:Hv.
    + apply (remove_vgg_returns _ self v); [exact Hv | reflexivity].
    + rewrite remove_vgg_without_vgg by exact Hv.
      rewrite delete_id by exact Hv. reflexivity.
  - intros k. rewrite Module_state_dict_keys. split.
    + intros (name & tensors & t & Hl & Ht & ->).
      destruct (decide (name = "vgg"%string)) as [-> | Hne].
      * rewrite lookup_delete_eq in Hl. discriminate.
      * rewrite lookup_delete_ne in Hl by congruence. eauto 8.
    + intros (name & tensors & t & Hne & Hl & Ht & ->).
      exists name, tensors, t. rewrite lookup_delete_ne by congruence. auto.
Qed.

(** X25.  When the keys of a state differ from those of the instance, a strict
    [load_state_dict] raises RuntimeError and leaves the instance without its
    [vgg] attribute, which [remove_vgg] puts back only on a normal return; the
    non-strict call returns the missing and the unexpected keys and leaves the
    instance as it was. *)
Theorem load_state_dict_strict_failure_drops_vgg (self : gmap string attribute)
  (state : list string) (v : attribute) (k : string) :
  self !! "vgg"%string = Some v ->
  (In k (Module_state_dict (delete "vgg"%string self)) /\ ~ In k state) \/
  (In k state /\ ~ In k (Module_state_dict (delete "vgg"%string self))) ->
  exists self',
    load_state_dict state true self = (self', Raise RuntimeError) /\
    self' !! "vgg"%string = None /\
    load_state_dict state false self =
      (self, Ok (filter (fun k => k ∉ state) (Module_state_dict (delete "vgg"%string self)),
                 filter (fun k => k ∉ Module_state_dict (delete "vgg"%string self)) state)).
Proof.
  intros Hv Hk. exists (delete "vgg"%string self). split; [| split].
  - unfold load_state_dict. apply (remove_vgg_raises _ self v); [exact Hv |].
    unfold Module_load_state_dict.
    rewrite bool_decide_eq_false_2; [reflexivity |].
    intros [Hm Hu].
    destruct Hk as [[Hin Hout] | [Hin Hout]].
    + assert (H : k ∈ filter (fun k => k ∉ state)
                    (Module_state_dict (delete "vgg"%string self))).
      { apply list_elem_of_filter. split; [| apply list_elem_of_In; exact Hin].
        intros H. apply Hout, list_elem_of_In. exact H. }
      rewrite Hm in H. inversion H.
    + assert (H : k ∈ filter (fun k => k ∉ Module_state_dict (delete "vgg"%string self))
                    state).
      { apply list_elem_of_filter. split; [| apply list_elem_of_In; exact Hin].
        intros H. apply Hout, list_elem_of_In. exact H. }
      rewrite Hu in H. inversion H.
  - apply lookup_delete_eq.
  - unfold load_state_dict. apply (remove_vgg_returns _ self v); [exact Hv |].
    reflexivity.
Qed.

Lemma state_dict_with_vgg (self : gmap string attribute) (v : attribute) :
  self !! "vgg"%string = Some v ->
  state_dict self = (self, Ok (Module_state_dict (delete "vgg"%string self))).
Proof.
  intros Hv. unfold state_dict.
  apply (remove_vgg_returns _ self v); [exact Hv | reflexivity].
Qed.

Lemma load_state_dict_with_vgg (state : list string) (strict : bool)
  (self : gmap string attribute) (v : attribute) :
  self !! "vgg"%string = Some v ->
  load_state_dict state strict self =
    match Module_load_state_dict state strict (delete "vgg"%string self) with
    | Ok out => (self, Ok out)
    | Raise e => (delete "vgg"%string self, Raise e)
    end.
Proof.
  intros Hv. unfold load_state_dict.
  destruct (Module_load_state_dict state strict (delete "vgg"%string self)) eqn:E.
  - apply (remove_vgg_returns _ self v); assumption.
  - apply (remove_vgg_raises _ self v); assumption.
Qed.

(** X26.  [load_safetensors] on an existing [.bin] or [.safetensors] file
    succeeds exactly when the keys of the file are those of the instance: its
    non-strict load is followed by a strict one, whose failure is a
    RuntimeError that leaves the instance without its [vgg] attribute. *)
Theorem load_safetensors_is_strict (path : checkpoint_file)
  (self : gmap string attribute) (v : attribute) :
  self !! "vgg"%string = Some v ->
  file_exists path = true ->
  file_suffix path = ".bin"%string \/ file_suffix path = ".safetensors"%string ->
  load_safetensors path self =
    if bool_decide (keys_match (file_keys path) self)
    then (self, Loaded)
    else (delete "vgg"%string self, LoadRaise RuntimeError).
Proof.
  intros Hv He Hs. unfold load_safetensors. rewrite He. cbn [negb].
  replace (String.eqb (file_suffix path) ".bin" ||
           String.eqb (file_suffix path) ".safetensors") with true
    by (destruct Hs as [-> | ->]; reflexivity).
  cbn [negb].
  rewrite (state_dict_with_vgg self v Hv).
  rewrite (load_state_dict_with_vgg _ false self v Hv).
  unfold Module_load_state_dict at 1. cbn [andb].
  rewrite (load_state_dict_with_vgg _ true self v Hv).
  unfold Module_load_state_dict, keys_match. cbn [andb].
  destruct (bool_decide _); reflexivity.
Qed.

(** X27.  [load_safetensors] fails its assertion on a missing file and raises
    ValueError on a file of any suffix other than [.bin] and [.safetensors];
    the instance is untouched in both cases. *)
Theorem load_safetensors_rejects_other_files (path : checkpoint_file)
  (self : gmap string attribute) :
  (file_exists path = false ->
   load_safetensors path self = (self, LoadRaise AssertionError)) /\
  (file_exists path = true ->
   file_suffix path <> ".bin"%string -> file_suffix path <> ".safetensors"%string ->
   load_safetensors path self = (self, ValueError)).
Proof.
  unfold load_safetensors. split.
  - intros ->. reflexivity.
  - intros -> H1 H2. cbn [negb].
    destruct (String.eqb_spec (file_suffix path) ".bin"); [contradiction |].
    destruct (String.eqb_spec (file_suffix path) ".safetensors"); [contradiction |].
    reflexivity.
Qed.

(** X28.  On a [.bin] path, [load_safetensors] ends as [load] does, with the
    same instance and the same outcome. *)
Theorem load_safetensors_agrees_with_load (path : checkpoint_file)
  (self : gmap string attribute) :
  file_suffix path = ".bin"%string ->
  load_safetensors path self = load path self.
Proof.
  intros Hs. unfold load_safetensors, load. rewrite Hs.
  destruct (file_exists path); [| reflexivity]. cbn [negb orb String.eqb].
  change (String.eqb ".bin" ".bin") with true.
  change (String.eqb ".bin" ".safetensors") with false.
  cbn [negb orb].
  destruct (self !! "vgg"%string) as [v |] eqn:Hv.
  - rewrite (state_dict_with_vgg self v Hv).
    rewrite (load_state_dict_with_vgg _ false self v Hv).
    unfold Module_load_state_dict at 1. cbn [andb]. reflexivity.
  - unfold state_dict. rewrite remove_vgg_without_vgg by exact Hv.
    unfold load_state_dict at 1. rewrite remove_vgg_without_vgg by exact Hv.
    unfold Module_load_state_dict at 1. cbn [andb]. reflexivity.
Qed.

(** ** The discriminator network *)

Lemma Conv2d_forward_shape (cv : Conv2d) (x : tensor R) (b h w : Z) :
  shape x = [b; in_channels cv; h; w] ->
  kernel_size cv <= h + 2 * padding cv -> kernel_size cv <= w + 2 * padding cv ->
  exists y, Conv2d_forward cv x = Ok y /\
            shape y = [b; out_channels cv;
                       (h + 2 * padding cv - kernel_size cv) / stride_ cv + 1;
                       (w + 2 * padding cv - kernel_size cv) / stride_ cv + 1].
Proof.
  intros Hx Hh Hw. unfold Conv2d_forward, conv_output_size. rewrite Hx.
  rewrite Z.eqb_refl. cbn [require rbind].
  destruct (Z.leb_spec (kernel_size cv) (h + 2 * padding cv)); [| lia].
  destruct (Z.leb_spec (kernel_size cv) (w + 2 * padding cv)); [| lia].
  cbn [require rbind]. eexists. split; reflexivity.
Qed.

Lemma leaky_relu_shape (p : R) (x : tensor R) :
  exists y, leaky_relu p x = Ok y /\ shape y = shape x.
Proof. eexists. split; reflexivity. Qed.

Lemma net_shape (cin f : Z) (w1 w2 : tensor R -> list R) (x : tensor R) (b h w : Z) :
  shape x = [b; cin; h; w] -> 1 <= h -> 1 <= w ->
  exists y,
    Sequential_forward
      [ Conv2d_forward {| in_channels := cin; out_channels := f; kernel_size := 3;
                          stride_ := 1; padding := 1; conv_fn := w1 |};
        leaky_relu (1 / 10);
        Conv2d_forward {| in_channels := f; out_channels := f; kernel_size := 3;
                          stride_ := 1; padding := 1; conv_fn := w2 |};
        leaky_relu (1 / 10) ] x = Ok y /\
    shape y = [b; f; h; w].
Proof.
  intros Hx Hh Hw. cbn [Sequential_forward fold_left rbind].
  destruct (Conv2d_forward_shape
              {| in_channels := cin; out_channels := f; kernel_size := 3;
                 stride_ := 1; padding := 1; conv_fn := w1 |} x b h w Hx)
    as (y1 & E1 & S1); [cbn; lia | cbn; lia |].
  rewrite E1. cbn [rbind leaky_relu].
  cbn [in_channels out_channels kernel_size stride_ padding] in S1.
  assert (S1' : shape y1 = [b; f; h; w]).
  { rewrite S1. rewrite !Z.div_1_r. repeat (apply (f_equal2 (@cons Z)); [lia |]). reflexivity. }
  set (y2 := mkTensor (shape y1) _).
  destruct (Conv2d_forward_shape
              {| in_channels := f; out_channels := f; kernel_size := 3;
                 stride_ := 1; padding := 1; conv_fn := w2 |} y2 b h w S1')
    as (y3 & E3 & S3); [cbn; lia | cbn; lia |].
  rewrite E3. cbn [rbind]. eexists. split; [reflexivity |].
  cbn [shape]. rewrite S3. cbn [in_channels out_channels kernel_size stride_ padding].
  rewrite !Z.div_1_r. repeat (apply (f_equal2 (@cons Z)); [lia |]). reflexivity.
Qed.

Lemma DiscriminatorBlock_forward_last (cin f : Z) (bw : BlockWeights) (x : tensor R)
  (b h w : Z) :
  shape x = [b; cin; h; w] -> 1 <= h -> 1 <= w ->
  exists y, DiscriminatorBlock_forward (DiscriminatorBlock_init cin f false bw) x = Ok y /\
            shape y = [b; f; h; w].
Proof.
  intros Hx Hh Hw. unfold DiscriminatorBlock_forward, DiscriminatorBlock_init.
  cbn [conv_res net downsample].
  destruct (Conv2d_forward_shape
              {| in_channels := cin; out_channels := f; kernel_size := 1;
                 stride_ := 1; padding := 0; conv_fn := bw_conv_res bw |} x b h w Hx)
    as (res & Er & Sr); [cbn; lia | cbn; lia |].
  rewrite Er. cbn [rbind].
  cbn [in_channels out_channels kernel_size stride_ padding] in Sr.
  destruct (net_shape cin f (bw_net_1 bw) (bw_net_2 bw) x b h w Hx Hh Hw)
    as (y & Ey & Sy).
  rewrite Ey. cbn [rbind]. unfold add_and_normalize.
  rewrite bool_decide_eq_true_2.
  - cbn [require rbind]. eexists. split; [reflexivity | exact Sy].
  - rewrite Sy, Sr. rewrite !Z.div_1_r.
    repeat (apply (f_equal2 (@cons Z)); [lia |]). reflexivity.
Qed.

Lemma DiscriminatorBlock_forward_downsample (cin f : Z) (bw : BlockWeights)
  (x : tensor R) (b h w : Z) :
  shape x = [b; cin; h * 2; w * 2] -> 1 <= h -> 1 <= w ->
  exists y, DiscriminatorBlock_forward (DiscriminatorBlock_init cin f true bw) x = Ok y /\
            shape y = [b; f; h; w].
Proof.
  intros Hx Hh Hw. unfold DiscriminatorBlock_forward, DiscriminatorBlock_init.
  cbn [conv_res net downsample].
  destruct (Conv2d_forward_shape
              {| in_channels := cin; out_channels := f; kernel_size := 1;
                 stride_ := 2; padding := 0; conv_fn := bw_conv_res bw |} x b (h * 2) (w * 2)
              Hx)
    as (res & Er & Sr); [cbn; lia | cbn; lia |].
  rewrite Er. cbn [rbind].
  cbn [in_channels out_channels kernel_size stride_ padding] in Sr.
  destruct (net_shape cin f (bw_net_1 bw) (bw_net_2 bw) x b (h * 2) (w * 2) Hx)
    as (y & Ey & Sy); [lia | lia |].
  rewrite Ey. cbn [rbind Sequential_forward fold_left].
  unfold space_to_depth. rewrite Sy. rewrite !einops_infer_mul by lia. cbn [rbind].
  set (y1 := einops_apply _ _ _ y).
  destruct (Conv2d_forward_shape
              {| in_channels := f * 4; out_channels := f; kernel_size := 1;
                 stride_ := 1; padding := 0; conv_fn := bw_downsample bw |} y1 b h w)
    as (y2 & E2 & S2); [| cbn; lia | cbn; lia |].
  { unfold y1. cbn [einops_apply shape in_channels].
    repeat (apply (f_equal2 (@cons Z)); [lia |]). reflexivity. }
  rewrite E2. cbn [rbind]. unfold add_and_normalize.
  cbn [in_channels out_channels kernel_size stride_ padding] in S2.
  assert (S2' : shape y2 = [b; f; h; w]).
  { rewrite S2, !Z.div_1_r. repeat (apply (f_equal2 (@cons Z)); [lia |]). reflexivity. }
  rewrite bool_decide_eq_true_2.
  - cbn [require rbind]. eexists. split; [reflexivity | exact S2'].
  - rewrite S2', Sr.
    replace ((h * 2 + 2 * 0 - 1) / 2) with (h - 1)
      by (apply Z.div_unique with (r := 1); lia).
    replace ((w * 2 + 2 * 0 - 1) / 2) with (w - 1)
      by (apply Z.div_unique with (r := 1); lia).
    repeat (apply (f_equal2 (@cons Z)); [lia |]). reflexivity.
Qed.

Lemma attend_shape (attn_block : Attention) (x : tensor R) (b c : Z) (ps : list Z) :
  shape x = b :: c :: ps ->
  exists y, attend attn_block x = Ok y /\ shape y = shape x.
Proof.
  intros Hx. unfold attend. rewrite Hx. eexists. split; reflexivity.
Qed.

Lemma layer_dims_in_out_cons (c0 c1 : Z) (cs : list Z) :
  layer_dims_in_out (c0 :: c1 :: cs) = (c0, c1) :: layer_dims_in_out (c1 :: cs).
Proof. reflexivity. Qed.

Lemma blocks_chain_shape (dw : DiscriminatorWeights) (attn_res_layers : list Z)
  (last_ind b h w : Z) (cs : list Z) :
  1 <= h -> 1 <= w -> cs <> [] ->
  forall (c0 : Z) (ind : nat) (res : Z) (x : tensor R),
    last_ind = Z.of_nat ind + Z.of_nat (length cs) - 1 ->
    shape x = [b; c0; h * 2 ^ (Z.of_nat (length cs) - 1);
               w * 2 ^ (Z.of_nat (length cs) - 1)] ->
    exists y,
      fold_left discriminator_step
        (build_blocks dw attn_res_layers last_ind ind res (layer_dims_in_out (c0 :: cs)))
        (Ok x) = Ok y /\
      shape y = [b; List.last cs 0; h; w].
Proof.
  intros Hh Hw. induction cs as [| c1 cs IH]; intros Hne c0 ind res x Hlast Hx;
    [contradiction |].
  destruct cs as [| c2 cs].
  - (* the last block *)
    cbn [length Z.of_nat] in Hlast, Hx.
    replace (Z.of_nat 1 - 1) with 0 in Hx by lia. rewrite Z.pow_0_r, !Z.mul_1_r in Hx.
    cbn [layer_dims_in_out removelast tail zip zip_with build_blocks fold_left].
    replace (Z.of_nat ind =? last_ind) with true by (symmetry; apply Z.eqb_eq; lia).
    cbn [negb]. unfold discriminator_step at 1. cbn [rbind fst snd].
    destruct (DiscriminatorBlock_forward_last c0 c1 (dw_block dw ind) x b h w Hx Hh Hw)
      as (y & Ey & Sy).
    rewrite Ey. cbn [rbind].
    destruct (bool_decide (res ∈ attn_res_layers)).
    + destruct (attend_shape (dw_attn dw ind) y b c1 [h; w] Sy) as (z & Ez & Sz).
      exists z. split; [exact Ez |]. rewrite Sz. exact Sy.
    + exists y. split; [reflexivity | exact Sy].
  - (* a downsampling block *)
    rewrite layer_dims_in_out_cons. cbn [build_blocks fold_left].
    set (n := Z.of_nat (length (c2 :: cs))) in *.
    assert (Hn : 1 <= n) by (unfold n; cbn [length]; lia).
    replace (Z.of_nat (length (c1 :: c2 :: cs))) with (n + 1) in Hlast, Hx
      by (unfold n; cbn [length]; lia).
    replace (Z.of_nat ind =? last_ind) with false by (symmetry; apply Z.eqb_neq; lia).
    cbn [negb]. unfold discriminator_step at 2. cbn [rbind fst snd].
    assert (Hx' : shape x = [b; c0; h * 2 ^ (n - 1) * 2; w * 2 ^ (n - 1) * 2]).
    { rewrite Hx. replace (n + 1 - 1) with (Z.succ (n - 1)) by lia.
      rewrite Z.pow_succ_r by lia.
      repeat (apply (f_equal2 (@cons Z)); [ring |]). reflexivity. }
    assert (Hp : 1 <= 2 ^ (n - 1)) by (pose proof (Z.pow_pos_nonneg 2 (n - 1)); lia).
    destruct (DiscriminatorBlock_forward_downsample c0 c1 (dw_block dw ind) x b
                (h * 2 ^ (n - 1)) (w * 2 ^ (n - 1)) Hx') as (y & Ey & Sy); [nia | nia |].
    rewrite Ey. cbn [rbind].
    assert (Hz : exists z,
               match (if bool_decide (res ∈ attn_res_layers)
                      then Some (dw_attn dw ind) else None) with
               | Some attn_block => attend attn_block y
               | None => Ok y
               end = Ok z /\ shape z = shape y).
    { destruct (bool_decide (res ∈ attn_res_layers)).
      - apply (attend_shape (dw_attn dw ind) y b c1 _ Sy).
      - exists y. split; reflexivity. }
    destruct Hz as (z & -> & Sz).
    apply (IH ltac:(discriminate) c1 (S ind) (res / 2) z); [lia |].
    rewrite Sz. exact Sy.
Qed.

Lemma zip_map_fst_snd {A B} (l : list (A * B)) : zip (map fst l) (map snd l) = l.
Proof.
  induction l as [| [x y] l IH]; [reflexivity |]. cbn. f_equal. exact IH.
Qed.

(** The shapes through the blocks and [to_logits] of a discriminator. *)
Lemma Discriminator_init_forward_shape (dim channels max_dim H W : Z)
  (attn_res_layers : list Z) (dw : DiscriminatorWeights) (x : tensor R) (b : Z) :
  4 <= Z.min H W ->
  (2 ^ (Z.log2 (Z.min H W) - 2) | H) ->
  (2 ^ (Z.log2 (Z.min H W) - 2) | W) ->
  channels <= max_dim ->
  shape x = [b; channels; H; W] ->
  exists logits,
    DiscriminatorNet_forward
      (Discriminator_init dim (H, W) channels attn_res_layers max_dim dw) x = Ok logits /\
    shape logits = [b].
Proof.
  intros Hm [h Eh] [w Ew] Hc Hx.
  unfold DiscriminatorNet_forward, Discriminator_init.
  cbn [blocks attn_blocks to_logits fst snd].
  set (k := Z.log2 (Z.min H W) - 2) in *.
  assert (Hk : 0 <= k).
  { pose proof (Z.log2_le_mono 4 (Z.min H W) Hm) as Hl.
    change (Z.log2 4) with 2 in Hl. unfold k. lia. }
  assert (Hp : 0 < 2 ^ k) by (apply Z.pow_pos_nonneg; lia).
  assert (Hh : 1 <= h) by nia.
  assert (Hw : 1 <= w) by nia.
  clearbody k.
  set (cs := map (fun layer_dim => Z.min layer_dim max_dim)
                 (map (fun i => dim * 4 * 2 ^ i) (seqZ 0 (k + 1)))).
  assert (Hdims : layer_dims dim channels max_dim k = channels :: cs).
  { unfold layer_dims. cbn [map]. rewrite Z.min_l by exact Hc. reflexivity. }
  assert (Hlen : Z.of_nat (length cs) = k + 1).
  { unfold cs. rewrite !length_map, length_seqZ. lia. }
  assert (Hne : cs <> []).
  { intros E. rewrite E in Hlen. cbn in Hlen. lia. }
  assert (Hio : Z.of_nat (length (layer_dims_in_out (channels :: cs))) = k + 1).
  { unfold layer_dims_in_out. rewrite length_zip_with. cbn [tail].
    rewrite removelast_firstn_len, length_take. cbn [length]. lia. }
  rewrite zip_map_fst_snd, Hdims.
  destruct (blocks_chain_shape dw attn_res_layers
              (Z.of_nat (length (layer_dims_in_out (channels :: cs))) - 1) b h w cs
              Hh Hw Hne channels 0%nat (Z.min H W) x) as (y & Ey & Sy).
  { rewrite Hio, Hlen. lia. }
  { rewrite Hx, Hlen, Eh, Ew. replace (k + 1 - 1) with k by lia. reflexivity. }
  rewrite Ey. cbn [rbind].
  set (dim_last := List.last (channels :: cs) 0).
  assert (Hl : List.last cs 0 = dim_last).
  { unfold dim_last. destruct cs; [contradiction | reflexivity]. }
  rewrite Hl in Sy.
  cbn [Sequential_forward fold_left rbind].
  destruct (Conv2d_forward_shape
              {| in_channels := dim_last; out_channels := dim_last; kernel_size := 3;
                 stride_ := 1; padding := 1; conv_fn := dw_logits_conv dw |} y b h w Sy)
    as (y1 & E1 & S1); [cbn; lia | cbn; lia |].
  rewrite E1. cbn [rbind leaky_relu].
  cbn [in_channels out_channels kernel_size stride_ padding] in S1.
  unfold flatten_per_sample. cbn [shape]. rewrite S1. cbn [rbind].
  unfold Linear_forward. cbn [shape removelast List.last in_features out_features].
  rewrite Eh, Ew, !Z.div_mul by lia. rewrite !Z.div_1_r.
  replace (prodZ [dim_last; h + 2 * 1 - 3 + 1; w + 2 * 1 - 3 + 1] =? h * w * dim_last)
    with true by (symmetry; apply Z.eqb_eq; cbn [prodZ fold_right]; ring).
  cbn [require rbind app]. unfold squeeze_logit. cbn [shape].
  eexists. split; reflexivity.
Qed.

(** Where the network runs, its function is what [Discriminator_forward]
    returns. *)
Lemma Discriminator_of_runs (a : CViViT_args) (w : Weights) (dim : Z)
  (attn_res_layers : list Z) (dw : DiscriminatorWeights) :
  4 <= Z.min (fst (arg_image_size a)) (snd (arg_image_size a)) ->
  (2 ^ (Z.log2 (Z.min (fst (arg_image_size a)) (snd (arg_image_size a))) - 2)
   | fst (arg_image_size a)) ->
  (2 ^ (Z.log2 (Z.min (fst (arg_image_size a)) (snd (arg_image_size a))) - 2)
   | snd (arg_image_size a)) ->
  arg_channels a <= 512 ->
  w_discr w = Discriminator_of
                (Discriminator_init dim (arg_image_size a) (arg_channels a)
                   attn_res_layers 512 dw) ->
  discriminator_runs a w dim attn_res_layers dw.
Proof.
  intros Hm Hh Hw Hc Hd x n Hx.
  destruct (arg_image_size a) as [H W] eqn:Ea. cbn [fst snd] in *.
  destruct (Discriminator_init_forward_shape dim (arg_channels a) 512 H W
              attn_res_layers dw x n Hm Hh Hw Hc Hx) as (logits & E & S).
  rewrite E. f_equal. unfold Discriminator_forward. rewrite Hd.
  cbn [discr_fn Discriminator_of]. rewrite E, Hx. cbn [take].
  destruct logits as [sh dt]. cbn [shape data] in *. rewrite S. reflexivity.
Qed.

(** X30.  A [Discriminator] built for an image size returns one logit per
    image on a batch of that size, provided the height and the width are
    multiples of [2 ^ num_layers] and the channels do not exceed [max_dim]. *)
Theorem DiscriminatorNet_forward_one_logit_per_image (dim channels max_dim H W : Z)
  (attn_res_layers : list Z) (dw : DiscriminatorWeights) (x : tensor R) (b : Z) :
  4 <= Z.min H W ->
  (2 ^ (Z.log2 (Z.min H W) - 2) | H) ->
  (2 ^ (Z.log2 (Z.min H W) - 2) | W) ->
  channels <= max_dim ->
  shape x = [b; channels; H; W] ->
  exists logits,
    DiscriminatorNet_forward
      (Discriminator_init dim (H, W) channels attn_res_layers max_dim dw) x = Ok logits /\
    shape logits = [b].
Proof.
  intros Hm [h Eh] [w Ew] Hc Hx.
  unfold DiscriminatorNet_forward, Discriminator_init.
  cbn [blocks attn_blocks to_logits fst snd].
  set (k := Z.log2 (Z.min H W) - 2) in *.
  assert (Hk : 0 <= k).
  { pose proof (Z.log2_le_mono 4 (Z.min H W) Hm) as Hl.
    change (Z.log2 4) with 2 in Hl. unfold k. lia. }
  assert (Hp : 0 < 2 ^ k) by (apply Z.pow_pos_nonneg; lia).
  assert (Hh : 1 <= h) by nia.
  assert (Hw : 1 <= w) by nia.
  clearbody k.
  set (cs := map (fun layer_dim => Z.min layer_dim max_dim)
                 (map (fun i => dim * 4 * 2 ^ i) (seqZ 0 (k + 1)))).
  assert (Hdims : layer_dims dim channels max_dim k = channels :: cs).
  { unfold layer_dims. cbn [map]. rewrite Z.min_l by exact Hc. reflexivity. }
  assert (Hlen : Z.of_nat (length cs) = k + 1).
  { unfold cs. rewrite !length_map, length_seqZ. lia. }
  assert (Hne : cs <> []).
  { intros E. rewrite E in Hlen. cbn in Hlen. lia. }
  assert (Hio : Z.of_nat (length (layer_dims_in_out (channels :: cs))) = k + 1).
  { unfold layer_dims_in_out. rewrite length_zip_with. cbn [tail].
    rewrite removelast_firstn_len, length_take. cbn [length]. lia. }
  rewrite zip_map_fst_snd, Hdims.
  destruct (blocks_chain_shape dw attn_res_layers
              (Z.of_nat (length (layer_dims_in_out (channels :: cs))) - 1) b h w cs
              Hh Hw Hne channels 0%nat (Z.min H W) x) as (y & Ey & Sy).
  { rewrite Hio, Hlen. lia. }
  { rewrite Hx, Hlen, Eh, Ew. replace (k + 1 - 1) with k by lia. reflexivity. }
  rewrite Ey. cbn [rbind].
  set (dim_last := List.last (channels :: cs) 0).
  assert (Hl : List.last cs 0 = dim_last).
  { unfold dim_last. destruct cs; [contradiction | reflexivity]. }
  rewrite Hl in Sy.
  cbn [Sequential_forward fold_left rbind].
  destruct (Conv2d_forward_shape
              {| in_channels := dim_last; out_channels := dim_last; kernel_size := 3;
                 stride_ := 1; padding := 1; conv_fn := dw_logits_conv dw |} y b h w Sy)
    as (y1 & E1 & S1); [cbn; lia | cbn; lia |].
  rewrite E1. cbn [rbind leaky_relu].
  cbn [in_channels out_channels kernel_size stride_ padding] in S1.
  unfold flatten_per_sample. cbn [shape]. rewrite S1. cbn [rbind].
  unfold Linear_forward. cbn [shape removelast List.last in_features out_features].
  rewrite Eh, Ew, !Z.div_mul by lia. rewrite !Z.div_1_r.
  replace (prodZ [dim_last; h + 2 * 1 - 3 + 1; w + 2 * 1 - 3 + 1] =? h * w * dim_last)
    with true by (symmetry; apply Z.eqb_eq; cbn [prodZ fold_right]; ring).
  cbn [require rbind app]. unfold squeeze_logit. cbn [shape].
  eexists. split; reflexivity.
Qed.

(** X29.  A downsampling [DiscriminatorBlock] halves an even height and
    width, giving [b, filters, h / 2, w / 2], and fails (EinopsError, in the
    space-to-depth rearrange) when the height or the width is odd. *)
Theorem DiscriminatorBlock_forward_halves_even_sizes (cin f : Z) (bw : BlockWeights)
  (x : tensor R) (b h w : Z) :
  shape x = [b; cin; h; w] -> 1 <= h -> 1 <= w ->
  if (h mod 2 =? 0) && (w mod 2 =? 0)
  then exists y,
         DiscriminatorBlock_forward (DiscriminatorBlock_init cin f true bw) x = Ok y /\
         shape y = [b; f; h / 2; w / 2]
  else DiscriminatorBlock_forward (DiscriminatorBlock_init cin f true bw) x =
       Raise EinopsError.
Proof.
  intros Hx Hh Hw.
  destruct (Z.eqb_spec (h mod 2) 0) as [Eh | Eh];
    [destruct (Z.eqb_spec (w mod 2) 0) as [Ew | Ew] |]; cbn [andb].
  - apply Z.div_exact in Eh; [| lia]. apply Z.div_exact in Ew; [| lia].
    apply DiscriminatorBlock_forward_downsample; [| lia | lia].
    rewrite Hx. repeat (apply (f_equal2 (@cons Z)); [lia |]). reflexivity.
  - unfold DiscriminatorBlock_forward, DiscriminatorBlock_init.
    cbn [conv_res net downsample].
    destruct (Conv2d_forward_shape
                {| in_channels := cin; out_channels := f; kernel_size := 1;
                   stride_ := 2; padding := 0; conv_fn := bw_conv_res bw |} x b h w Hx)
      as (res & Er & _); [cbn; lia | cbn; lia |].
    rewrite Er. cbn [rbind].
    destruct (net_shape cin f (bw_net_1 bw) (bw_net_2 bw) x b h w Hx Hh Hw)
      as (y & Ey & Sy).
    rewrite Ey. cbn [rbind Sequential_forward fold_left].
    unfold space_to_depth. rewrite Sy. unfold einops_infer. cbn [Z.eqb].
    rewrite Eh. cbn [Z.eqb rbind].
    destruct (Z.eqb_spec (w mod 2) 0); [contradiction |]. reflexivity.
  - unfold DiscriminatorBlock_forward, DiscriminatorBlock_init.
    cbn [conv_res net downsample].
    destruct (Conv2d_forward_shape
                {| in_channels := cin; out_channels := f; kernel_size := 1;
                   stride_ := 2; padding := 0; conv_fn := bw_conv_res bw |} x b h w Hx)
      as (res & Er & _); [cbn; lia | cbn; lia |].
    rewrite Er. cbn [rbind].
    destruct (net_shape cin f (bw_net_1 bw) (bw_net_2 bw) x b h w Hx Hh Hw)
      as (y & Ey & Sy).
    rewrite Ey. cbn [rbind Sequential_forward fold_left].
    unfold space_to_depth. rewrite Sy. unfold einops_infer. cbn [Z.eqb].
    destruct (Z.eqb_spec (h mod 2) 0); [contradiction |]. reflexivity.
Qed.

(** * Further instances *)

Lemma sensible_geometry_demo :
  sensible_geometry (demo_args 128 16 4 true true true).
Proof.
  unfold sensible_geometry. cbn [demo_args arg_patch_size arg_image_size
    arg_temporal_patch_size fst snd]. lia.
Defined.

Lemma valid_input_five_frames :
  valid_input (demo_args 128 16 4 true true true) (zeros [1; 3; 5; 128; 128]) 1 1.
Proof.
  unfold valid_input. cbn [demo_args arg_temporal_patch_size arg_image_size fst snd].
  repeat split; try lia. right. reflexivity.
Defined.

Lemma num_tokens_per_frames_of_frames_per_num_tokens_witness :
  exists self,
    CViViT_init (demo_args 128 16 4 true true true) demo_weights = Ok self /\
    exists f, frames_per_num_tokens self 192 = Ok f /\
              1 <= f /\
              num_tokens_per_frames self f true = Ok 192.
Proof.
  eexists. split; [reflexivity |].
  apply (num_tokens_per_frames_of_frames_per_num_tokens
           (demo_args 128 16 4 true true true) demo_weights _ 64 192);
    [reflexivity | exact sensible_geometry_demo | vm_compute; reflexivity | lia
    | reflexivity | vm_compute; discriminate].
Defined.

Lemma image_num_tokens_is_patch_grid_size_witness :
  exists self,
    CViViT_init (demo_args 128 16 4 true true true) demo_weights = Ok self /\
    exists h wd,
      patch_height_width self = Ok (h, wd) /\
      image_num_tokens self = Ok (h * wd) /\
      h * fst (patch_size self) = fst (image_size self) /\
      wd * snd (patch_size self) = snd (image_size self).
Proof.
  eexists. split; [reflexivity |].
  apply (image_num_tokens_is_patch_grid_size
           (demo_args 128 16 4 true true true) demo_weights _);
    [reflexivity | exact sensible_geometry_demo].
Defined.

Lemma get_video_patch_shape_counts_tokens_witness :
  exists self,
    CViViT_init (demo_args 128 16 4 true true true) demo_weights = Ok self /\
    get_video_patch_shape self 9 true = Ok [3; 8; 8] /\
    num_tokens_per_frames self 9 true = Ok 192.
Proof.
  eexists. split; [reflexivity |].
  destruct (get_video_patch_shape_counts_tokens
              (demo_args 128 16 4 true true true) demo_weights _ 9
              eq_refl sensible_geometry_demo) as [E1 E2].
  split; [exact E1 |].
  apply E2; [lia | reflexivity | vm_compute; reflexivity].
Defined.

Lemma forward_codebook_ids_shape_witness :
  exists self,
    CViViT_init (demo_args 128 16 4 true true true) demo_weights = Ok self /\
    exists indices grid,
      forward no_grad self (zeros [2; 3; 9; 128; 128]) None false false false true true
        None = Ok (Indices indices) /\
      get_video_patch_shape self 9 true = Ok grid /\
      shape indices = 2 :: grid.
Proof.
  eexists. split; [reflexivity |].
  apply (forward_codebook_ids_shape no_grad
           (demo_args 128 16 4 true true true) demo_weights _
           (zeros [2; 3; 9; 128; 128]) None 2 2 false false false true None
           eq_refl valid_input_nine_frames I).
Defined.

Lemma forward_recons_only_with_mask_witness :
  exists self,
    CViViT_init (demo_args 128 16 4 true true true) demo_weights = Ok self /\
    exists recon,
      forward no_grad self (zeros [1; 3; 5; 128; 128]) (Some (full_mask true 1 5))
        false true false true false None = Ok (Recon recon) /\
      shape recon = [1; 3; 5; 128; 128].
Proof.
  eexists. split; [reflexivity |].
  apply (forward_recons_only_with_mask no_grad
           (demo_args 128 16 4 true true true) demo_weights _
           (zeros [1; 3; 5; 128; 128]) (full_mask true 1 5) 1 1 false false true None
           eq_refl valid_input_five_frames).
  split; [reflexivity |]. split; [discriminate |]. split; [reflexivity |].
  eexists. vm_compute. reflexivity.
Defined.

Lemma forward_rejects_wrong_rank_witness :
  exists self,
    CViViT_init (demo_args 128 16 4 true true true) demo_weights = Ok self /\
    forward no_grad self (zeros [3; 128; 128]) None false false false true false None =
    Raise AssertionError.
Proof.
  eexists. split; [reflexivity |].
  apply (forward_rejects_wrong_rank no_grad); vm_compute; discriminate.
Defined.

Lemma forward_rejects_wrong_image_size_witness :
  exists self,
    CViViT_init (demo_args 128 16 4 true true true) demo_weights = Ok self /\
    forward no_grad self (zeros [2; 3; 9; 64; 64]) None false false false true false None =
    Raise AssertionError.
Proof.
  eexists. split; [reflexivity |].
  apply (forward_rejects_wrong_image_size no_grad _ _ None 2 3 9 64 64);
    [left; reflexivity | vm_compute; discriminate].
Defined.

Lemma forward_rejects_indivisible_frame_count_witness :
  exists self,
    CViViT_init (demo_args 128 16 4 true true true) demo_weights = Ok self /\
    forward no_grad self (zeros [2; 3; 8; 128; 128]) None false false false true false
      None = Raise AssertionError.
Proof.
  eexists. split; [reflexivity |].
  match goal with
  | |- forward _ ?self _ _ _ _ _ _ _ _ = _ =>
      pose proof (forward_rejects_indivisible_frame_count no_grad self
                    (zeros [2; 3; 8; 128; 128]) 2 3 8 false false false true false None
                    eq_refl) as H
  end.
  apply H. left. vm_compute. discriminate.
Defined.

Lemma forward_rejects_mask_of_other_length_witness :
  exists self,
    CViViT_init (demo_args 128 16 4 true true true) demo_weights = Ok self /\
    forward no_grad self (zeros [2; 3; 9; 128; 128]) (Some (full_mask true 2 5))
      false false false true false None = Raise AssertionError.
Proof.
  eexists. split; [reflexivity |].
  apply (forward_rejects_mask_of_other_length no_grad _ _ _ 2 3 9);
    [reflexivity | discriminate | vm_compute; discriminate].
Defined.

Lemma forward_without_vgg_and_gan_returns_plain_mse_witness :
  exists self,
    CViViT_init (demo_args 128 16 4 false true false) demo_weights = Ok self /\
    exists recon,
      forward no_grad self (zeros [1; 3; 5; 128; 128]) None false true false true false
        None = Ok (Recon recon) /\
      forward no_grad self (zeros [1; 3; 5; 128; 128]) None true false false true false
        None =
      Ok (LossRecon (mean (zip_with sqdiff (data (zeros [1; 3; 5; 128; 128])) (data recon)))
            recon).
Proof.
  eexists. split; [reflexivity |].
  apply (forward_without_vgg_and_gan_returns_plain_mse no_grad
           (demo_args 128 16 4 false true false) demo_weights _
           (zeros [1; 3; 5; 128; 128]) 1 1 true true None); [reflexivity | | reflexivity].
  unfold valid_input. cbn [demo_args arg_temporal_patch_size arg_image_size fst snd].
  repeat split; try lia. right. reflexivity.
Defined.

Lemma decode_flat_and_grid_tokens_witness :
  exists self,
    CViViT_init (demo_args 128 16 4 true true true) demo_weights = Ok self /\
    exists video,
      decode self (mkTensor [1; 2; 8; 8; 512] []) = Ok video /\
      decode self (mkTensor [1; 128; 512] []) = Ok video /\
      shape video = [1; 3; 5; 128; 128].
Proof.
  eexists. split; [reflexivity |].
  apply (decode_flat_and_grid_tokens (demo_args 128 16 4 true true true) demo_weights _
           [] 1 1 eq_refl); cbn; lia.
Defined.

Lemma decode_from_codebook_indices_of_forward_witness :
  exists self,
    CViViT_init (demo_args 128 16 4 true true true) demo_weights = Ok self /\
    exists indices,
      forward no_grad self (zeros [1; 3; 5; 128; 128]) None false false false true true
        None = Ok (Indices indices) /\
      (Forall (fun i => - 4 <= i < 4) (data indices) ->
       exists recon,
         decode_from_codebook_indices self demo_codebook indices = Ok recon /\
         shape recon = [1; 3; 5; 128; 128]).
Proof.
  eexists. split; [reflexivity |].
  apply (decode_from_codebook_indices_of_forward no_grad
           (demo_args 128 16 4 true true true) demo_weights _ demo_codebook
           (zeros [1; 3; 5; 128; 128]) 1 1 4 None
           eq_refl valid_input_five_frames eq_refl eq_refl).
Defined.

Lemma decode_from_codebook_indices_out_of_range_witness :
  exists self,
    CViViT_init (demo_args 128 16 4 true true true) demo_weights = Ok self /\
    decode_from_codebook_indices self demo_codebook (mkTensor [1; 2] [0; 4]) =
    Raise IndexError.
Proof.
  eexists. split; [reflexivity |].
  apply (decode_from_codebook_indices_out_of_range _ demo_codebook
           (mkTensor [1; 2] [0; 4]) 4 2 4);
    [reflexivity | right; left; reflexivity | right; lia].
Defined.

Lemma calculate_video_token_mask_shape_witness :
  exists self,
    CViViT_init (demo_args 128 16 4 true true true) demo_weights = Ok self /\
    exists token_mask,
      calculate_video_token_mask self (zeros [1; 3; 5; 128; 128]) (full_mask true 1 5)
        = Ok token_mask /\
      shape token_mask = [1; 128].
Proof.
  eexists. split; [reflexivity |].
  match goal with
  | |- exists token_mask, calculate_video_token_mask ?self _ _ = _ /\ _ =>
      pose proof (calculate_video_token_mask_shape self (zeros [1; 3; 5; 128; 128])
                    (full_mask true 1 5) 1 3 5 128 128 1 1 eq_refl) as H
  end.
  apply H; try (vm_compute; discriminate); try reflexivity; try lia.
  vm_compute. repeat constructor.
Defined.

Lemma calculate_video_token_mask_rejects_bad_row_witness :
  exists self,
    CViViT_init (demo_args 128 16 4 true true true) demo_weights = Ok self /\
    calculate_video_token_mask self (zeros [1; 3; 5; 128; 128])
      (mkTensor [1; 5] [true; true; true; false; false]) = Raise AssertionError.
Proof.
  eexists. split; [reflexivity |].
  match goal with
  | |- calculate_video_token_mask ?self _ _ = _ =>
      pose proof (calculate_video_token_mask_rejects_bad_row self
                    (zeros [1; 3; 5; 128; 128])
                    (mkTensor [1; 5] [true; true; true; false; false])
                    1 3 5 128 128 1 5 eq_refl) as H
  end.
  apply H; [vm_compute; discriminate | reflexivity |].
  apply Exists_cons_hd. vm_compute. discriminate.
Defined.

Lemma calculate_video_token_mask_firstframe_shape_witness :
  exists self,
    CViViT_init (demo_args 128 16 4 true true true) demo_weights = Ok self /\
    exists token_mask,
      calculate_video_token_mask_firstframe self (zeros [1; 3; 5; 128; 128])
        (full_mask true 1 5) = Ok token_mask /\
      shape token_mask = [1; 64].
Proof.
  eexists. split; [reflexivity |].
  match goal with
  | |- exists token_mask, calculate_video_token_mask_firstframe ?self _ _ = _ /\ _ =>
      pose proof (calculate_video_token_mask_firstframe_shape self
                    (zeros [1; 3; 5; 128; 128]) (full_mask true 1 5)
                    1 3 5 128 128 1 1 eq_refl) as H
  end.
  apply H; try (vm_compute; discriminate); try reflexivity; try lia.
  vm_compute. repeat constructor.
Defined.

Lemma calculate_video_token_mask_all_false_witness :
  exists self,
    CViViT_init (demo_args 128 16 4 true true true) demo_weights = Ok self /\
    calculate_video_token_mask self (zeros [1; 3; 5; 128; 128]) (full_mask false 1 5) =
    Raise AssertionError.
Proof.
  eexists. split; [reflexivity |].
  apply (calculate_video_token_mask_all_false _ (zeros [1; 3; 5; 128; 128])
           1 3 5 128 128 1 5); [reflexivity | vm_compute; discriminate | lia | lia].
Defined.

Lemma forward_rejects_all_false_mask_witness :
  exists self,
    CViViT_init (demo_args 128 16 4 true true true) demo_weights = Ok self /\
    forward no_grad self (zeros [1; 3; 5; 128; 128]) (Some (full_mask false 1 5))
      false true false true false None = Raise AssertionError.
Proof.
  eexists. split; [reflexivity |].
  apply (forward_rejects_all_false_mask no_grad
           (demo_args 128 16 4 true true true) demo_weights _
           (zeros [1; 3; 5; 128; 128]) 1 1 false true false true false None
           eq_refl valid_input_five_frames).
  cbn. lia.
Defined.

Lemma demo_attributes_vgg : demo_attributes !! "vgg"%string = Some PyNone.
Proof. apply CViViT_attributes_vgg. Defined.

Lemma load_state_dict_strict_failure_drops_vgg_witness :
  exists self',
    load_state_dict [] true demo_attributes = (self', Raise RuntimeError) /\
    self' !! "vgg"%string = None /\
    load_state_dict [] false demo_attributes =
      (demo_attributes,
       Ok (filter (fun k => k ∉ @nil string)
             (Module_state_dict (delete "vgg"%string demo_attributes)),
           filter (fun k => k ∉ Module_state_dict (delete "vgg"%string demo_attributes))
             [])).
Proof.
  apply (load_state_dict_strict_failure_drops_vgg demo_attributes [] PyNone
           "vq.weight"%string demo_attributes_vgg).
  left. split; [| intros []].
  apply (Module_state_dict_key _ "vq"%string "weight"%string ["weight"%string]);
    [vm_compute; reflexivity | left; reflexivity].
Defined.

Lemma load_safetensors_is_strict_witness :
  load_safetensors {| file_exists := true; file_suffix := ".safetensors";
                      file_keys := [] |} demo_attributes =
  if bool_decide (keys_match [] demo_attributes)
  then (demo_attributes, Loaded)
  else (delete "vgg"%string demo_attributes, LoadRaise RuntimeError).
Proof.
  apply (load_safetensors_is_strict
           {| file_exists := true; file_suffix := ".safetensors"; file_keys := [] |}
           demo_attributes PyNone demo_attributes_vgg); [reflexivity | right; reflexivity].
Defined.

Lemma load_safetensors_rejects_other_files_witness :
  load_safetensors {| file_exists := false; file_suffix := ".bin"; file_keys := [] |}
    demo_attributes = (demo_attributes, LoadRaise AssertionError) /\
  load_safetensors {| file_exists := true; file_suffix := ".pt"; file_keys := [] |}
    demo_attributes = (demo_attributes, ValueError).
Proof.
  split.
  - apply (load_safetensors_rejects_other_files
             {| file_exists := false; file_suffix := ".bin"; file_keys := [] |}
             demo_attributes). reflexivity.
  - apply (load_safetensors_rejects_other_files
             {| file_exists := true; file_suffix := ".pt"; file_keys := [] |}
             demo_attributes); [reflexivity | discriminate | discriminate].
Defined.

Lemma DiscriminatorBlock_forward_halves_even_sizes_witness :
  (exists y,
     DiscriminatorBlock_forward
       (DiscriminatorBlock_init 3 8 true (dw_block demo_discriminator_weights 0))
       (zeros [2; 3; 8; 6]) = Ok y /\
     shape y = [2; 8; 4; 3]) /\
  DiscriminatorBlock_forward
    (DiscriminatorBlock_init 3 8 true (dw_block demo_discriminator_weights 0))
    (zeros [2; 3; 8; 5]) = Raise EinopsError.
Proof.
  split.
  - apply (DiscriminatorBlock_forward_halves_even_sizes 3 8
             (dw_block demo_discriminator_weights 0) (zeros [2; 3; 8; 6]) 2 8 6);
      [reflexivity | lia | lia].
  - apply (DiscriminatorBlock_forward_halves_even_sizes 3 8
             (dw_block demo_discriminator_weights 0) (zeros [2; 3; 8; 5]) 2 8 5);
      [reflexivity | lia | lia].
Defined.

Lemma DiscriminatorNet_forward_one_logit_per_image_witness :
  exists logits,
    DiscriminatorNet_forward
      (Discriminator_init 16 (16, 16) 3 [16] 512 demo_discriminator_weights)
      (zeros [2; 3; 16; 16]) = Ok logits /\
    shape logits = [2].
Proof.
  apply (DiscriminatorNet_forward_one_logit_per_image 16 3 512 16 16 [16]
           demo_discriminator_weights (zeros [2; 3; 16; 16]) 2);
    [vm_compute; discriminate | exists 4; reflexivity | exists 4; reflexivity | lia
    | reflexivity].
Defined.

(** ** Instances with the discriminator network *)

Lemma demo_discriminator_runs :
  discriminator_runs (demo_args 128 16 4 true true true) demo_gan_weights 16 [16]
    unit_discriminator_weights.
Proof.
  apply Discriminator_of_runs;
    [vm_compute; discriminate | exists 4; reflexivity | exists 4; reflexivity
    | vm_compute; discriminate | reflexivity].
Defined.

Lemma demo_feature_vectors : feature_vectors (w_i3d demo_gan_weights).
Proof.
  exists 1. intros x b c f h w Hx. exists [1; 1; 1].
  cbn [demo_gan_weights w_i3d extract_features_fn shape]. rewrite Hx.
  split; reflexivity.
Defined.

Lemma forward_generator_loss_weighted_sum_witness :
  exists self,
    CViViT_init (demo_args 128 16 4 true true true) demo_gan_weights = Ok self /\
    exists loss,
      forward no_grad self (zeros [2; 3; 9; 128; 128]) None false false false true false
        None = Ok (Loss loss).
Proof.
  eexists. split; [reflexivity |].
  destruct (forward_generator_loss_weighted_sum no_grad
              (demo_args 128 16 4 true true true) demo_gan_weights _
              (zeros [2; 3; 9; 128; 128]) 2 2 false true None
              16 [16] unit_discriminator_weights
              eq_refl valid_input_nine_frames eq_refl (or_introl eq_refl)
              (or_introl eq_refl) (fun _ => demo_discriminator_runs)
              (fun _ => demo_feature_vectors))
    as (q & rv & rr & fi & fr & rl & pl & il & gl & _ & _ & _ & _ & _ & _ & _ & _ & _ &
        _ & _ & E).
  eexists. exact E.
Defined.



Lemma forward_discr_loss_requires_discriminator_witness :
  exists self,
    CViViT_init (demo_args 128 16 4 true true false) demo_weights = Ok self /\
    raises (forward no_grad self (zeros [2; 3; 9; 128; 128]) None false false true true
              false None).
Proof.
  eexists. split; [reflexivity |].
  apply (forward_discr_loss_requires_discriminator no_grad _ _ None false false true
           false None); reflexivity.
Defined.

(** C7, counterexample.  Without a discriminator and with
    [return_discr_loss=True], [forward] returns normally through each of its
    earlier exits: the reconstruction, the code indices, and the exception
    class on a masked video. *)
Lemma forward_discr_loss_early_exits_without_discriminator :
  exists self,
    CViViT_init (demo_args 128 16 4 true true false) demo_weights = Ok self /\
    discr self = None /\
    (exists recon,
       forward no_grad self (zeros [2; 3; 9; 128; 128]) None false true true true false
         None = Ok (Recon recon)) /\
    (exists indices,
       forward no_grad self (zeros [2; 3; 9; 128; 128]) None false false true true true
         None = Ok (Indices indices)) /\
    forward no_grad self (zeros [1; 3; 5; 128; 128]) (Some (full_mask true 1 5))
      false false true true false None = Ok NotImplementedError_class.
Proof.
  eexists. split; [reflexivity |]. split; [reflexivity |].
  assert (Hinit : initialised (demo_args 128 16 4 true true false) demo_weights
                    _) by (apply CViViT_init_initialised; reflexivity).
  assert (Hv9 : valid_input (demo_args 128 16 4 true true false)
                  (zeros [2; 3; 9; 128; 128]) 2 2).
  { unfold valid_input. cbn [demo_args arg_temporal_patch_size arg_image_size fst snd].
    repeat split; try lia. right. reflexivity. }
  assert (Hv5 : valid_input (demo_args 128 16 4 true true false)
                  (zeros [1; 3; 5; 128; 128]) 1 1).
  { unfold valid_input. cbn [demo_args arg_temporal_patch_size arg_image_size fst snd].
    repeat split; try lia. right. reflexivity. }
  destruct (forward_quantize_ok _ _ _ _ 2 2 None Hinit Hv9 I)
    as (q & Eq & Himg & _ & _ & _ & Hqh & Hqw & Hps & Hst & Hsi).
  destruct (forward_reconstruct_ok _ _ _ _ 2 2 q Hinit Hv9 Himg Hqh Hqw Hst)
    as (rv & rr & Er & _).
  split; [| split].
  - exists rr. unfold forward. rewrite Eq. cbn [rbind]. rewrite Er. reflexivity.
  - eexists. unfold forward. rewrite Eq. cbn [rbind]. unfold unpack_b_star.
    rewrite Hsi, Hps, Z.eqb_refl. reflexivity.
  - eapply (forward_masked no_grad (demo_args 128 16 4 true true false) demo_weights
              _ _ _ _ 1 1 false true true None Hinit Hv5);
      [reflexivity | reflexivity | vm_compute; reflexivity].
Qed.

Lemma forward_logging_without_tracker_raises_witness :
  exists self,
    CViViT_init (demo_args_logging 128 16 4) demo_gan_weights = Ok self /\
    forward no_grad self (zeros [1; 3; 5; 128; 128]) None false false false true false
      None = Raise AttributeError.
Proof.
  eexists. split; [reflexivity |].
  apply (forward_logging_without_tracker_raises no_grad
           (demo_args_logging 128 16 4) demo_gan_weights _
           (zeros [1; 3; 5; 128; 128]) 1 1 false true 16 [16] unit_discriminator_weights);
    [reflexivity | | reflexivity | left; reflexivity | reflexivity
    | intros _; exact demo_discriminator_runs | intros _; exact demo_feature_vectors].
  unfold valid_input.
  cbn [demo_args_logging arg_temporal_patch_size arg_image_size fst snd].
  repeat split; try lia. right. reflexivity.
Defined.

Lemma forward_discr_loss_with_grad_penalty_witness :
  exists self,
    CViViT_init (demo_args 128 16 4 true true true) demo_gan_weights = Ok self /\
    exists loss,
      forward no_grad self (zeros [2; 3; 9; 128; 128]) None false false true true false
        None = Ok (Loss loss).
Proof.
  eexists. split; [reflexivity |].
  destruct (forward_discr_loss_with_grad_penalty no_grad
              (demo_args 128 16 4 true true true) demo_gan_weights _
              (zeros [2; 3; 9; 128; 128]) 2 2 false None
              16 [16] unit_discriminator_weights
              eq_refl valid_input_nine_frames eq_refl eq_refl eq_refl
              demo_discriminator_runs)
    as (q & rv & rr & fi & fr & fl & rl & dl & gp & _ & _ & _ & _ & _ & _ & _ & _ & E).
  eexists. exact E.
Defined.

Lemma encode_regrids_tokens_witness :
  exists self,
    CViViT_init (demo_args 128 16 4 true true true) demo_weights = Ok self /\
    exists y, encode self (zeros [1; 2; 4; 16; 4]) = Ok y /\ shape y = [1; 2; 8; 8; 4].
Proof.
  eexists. split; [reflexivity |].
  apply (encode_regrids_tokens (demo_args 128 16 4 true true true) demo_weights _
           (zeros [1; 2; 4; 16; 4]) 1 2 4 16 4 eq_refl); [lia | reflexivity | reflexivity].
Defined.

Lemma load_safetensors_agrees_with_load_witness :
  load_safetensors {| file_exists := true; file_suffix := ".bin";
                      file_keys := ["vq.weight"%string] |} demo_attributes =
  load {| file_exists := true; file_suffix := ".bin";
          file_keys := ["vq.weight"%string] |} demo_attributes.
Proof.
  apply (load_safetensors_agrees_with_load
           {| file_exists := true; file_suffix := ".bin";
              file_keys := ["vq.weight"%string] |} demo_attributes).
  reflexivity.
Defined.
